(** * Shallow embedding of the zerogate-go client core

    The request pipeline of [Client.doRequest] (signing, header merge, debug
    tracing, response classification), [Client.getClient] and [Error.Error],
    together with the parts of the Go standard library they rely on; then the
    construction of a client ([New], [newClient], the options) and the tenant
    service built on the pipeline. *)

From Stdlib Require Import ZArith NArith List String Ascii Bool Lia DecimalString.
From Stdlib.Strings Require Import Byte.
From stdpp Require Import base option gmap strings list.
Import ListNotations.

Local Open Scope string_scope.
Local Open Scope list_scope.

(** ** Go strings and byte slices

    A Go [string] is a [string]; a [[]byte] is a [list byte].  The two
    conversions [[]byte(s)] and [string(b)] copy the bytes unchanged. *)

Definition bytes_of_string (s : string) : list byte := list_byte_of_string s.
Definition string_of_bytes (b : list byte) : string := string_of_list_byte b.

Module Hex.

(** [encoding/hex]: the table [0123456789abcdef]. *)
Definition hextable : list ascii :=
  list_ascii_of_string "0123456789abcdef".

Definition digit (n : N) : ascii := nth (N.to_nat n) hextable "0"%char.

(** [hex.EncodeToString]: two lowercase digits per byte, high nibble first. *)
Fixpoint EncodeToString (src : list byte) : string :=
  match src with
  | [] => EmptyString
  | v :: rest =>
      String (digit (N.shiftr (Byte.to_N v) 4))
        (String (digit (N.land (Byte.to_N v) 15)) (EncodeToString rest))
  end.

End Hex.

Module SHA512.

(** [crypto/sha512] (FIPS 180-4), on 64-bit words kept in [N] with the
    wrap-around written out. *)

Local Open Scope N_scope.

Definition mask64 : N := 0xffffffffffffffff.
Definition add64 (a b : N) : N := N.land (a + b) mask64.
Definition not64 (a : N) : N := N.lxor a mask64.
Definition rotr (x n : N) : N :=
  N.lor (N.shiftr x n) (N.land (N.shiftl x (64 - n)) mask64).

Definition BlockSize : nat := 128.
Definition Size : nat := 64.

Definition K : list N := [
  0x428a2f98d728ae22; 0x7137449123ef65cd; 0xb5c0fbcfec4d3b2f; 0xe9b5dba58189dbbc;
  0x3956c25bf348b538; 0x59f111f1b605d019; 0x923f82a4af194f9b; 0xab1c5ed5da6d8118;
  0xd807aa98a3030242; 0x12835b0145706fbe; 0x243185be4ee4b28c; 0x550c7dc3d5ffb4e2;
  0x72be5d74f27b896f; 0x80deb1fe3b1696b1; 0x9bdc06a725c71235; 0xc19bf174cf692694;
  0xe49b69c19ef14ad2; 0xefbe4786384f25e3; 0x0fc19dc68b8cd5b5; 0x240ca1cc77ac9c65;
  0x2de92c6f592b0275; 0x4a7484aa6ea6e483; 0x5cb0a9dcbd41fbd4; 0x76f988da831153b5;
  0x983e5152ee66dfab; 0xa831c66d2db43210; 0xb00327c898fb213f; 0xbf597fc7beef0ee4;
  0xc6e00bf33da88fc2; 0xd5a79147930aa725; 0x06ca6351e003826f; 0x142929670a0e6e70;
  0x27b70a8546d22ffc; 0x2e1b21385c26c926; 0x4d2c6dfc5ac42aed; 0x53380d139d95b3df;
  0x650a73548baf63de; 0x766a0abb3c77b2a8; 0x81c2c92e47edaee6; 0x92722c851482353b;
  0xa2bfe8a14cf10364; 0xa81a664bbc423001; 0xc24b8b70d0f89791; 0xc76c51a30654be30;
  0xd192e819d6ef5218; 0xd69906245565a910; 0xf40e35855771202a; 0x106aa07032bbd1b8;
  0x19a4c116b8d2d0c8; 0x1e376c085141ab53; 0x2748774cdf8eeb99; 0x34b0bcb5e19b48a8;
  0x391c0cb3c5c95a63; 0x4ed8aa4ae3418acb; 0x5b9cca4f7763e373; 0x682e6ff3d6b2b8a3;
  0x748f82ee5defb2fc; 0x78a5636f43172f60; 0x84c87814a1f0ab72; 0x8cc702081a6439ec;
  0x90befffa23631e28; 0xa4506cebde82bde9; 0xbef9a3f7b2c67915; 0xc67178f2e372532b;
  0xca273eceea26619c; 0xd186b8c721c0c207; 0xeada7dd6cde0eb1e; 0xf57d4f7fee6ed178;
  0x06f067aa72176fba; 0x0a637dc5a2c898a6; 0x113f9804bef90dae; 0x1b710b35131c471b;
  0x28db77f523047d84; 0x32caab7b40c72493; 0x3c9ebe0a15c9bebc; 0x431d67c49c100d4c;
  0x4cc5d4becb3e42b6; 0x597f299cfc657e2a; 0x5fcb6fab3ad6faec; 0x6c44198c4a475817 ].

Record digest := Digest { ha : N; hb : N; hc : N; hd : N; he : N; hf : N; hg : N; hh : N }.

Definition init : digest :=
  Digest 0x6a09e667f3bcc908 0xbb67ae8584caa73b 0x3c6ef372fe94f82b 0xa54ff53a5f1d36f1
         0x510e527fade682d1 0x9b05688c2b3e6c1f 0x1f83d9abfb41bd6b 0x5be0cd19137e2179.

Definition word_of_bytes (bs : list byte) : N :=
  fold_left (fun acc b => acc * 256 + Byte.to_N b) bs 0.

Definition byte_of_N (n : N) : byte :=
  match Byte.of_N (N.land n 255) with Some b => b | None => x00 end.

(** Big-endian encoding of [w] on [n] bytes. *)
Fixpoint bytes_of_word (n : nat) (w : N) : list byte :=
  match n with
  | O => []
  | S n' => byte_of_N (N.shiftr w (8 * N.of_nat n')) :: bytes_of_word n' w
  end.

Fixpoint words (n : nat) (bs : list byte) : list N :=
  match n with
  | O => []
  | S n' => word_of_bytes (firstn 8 bs) :: words n' (skipn 8 bs)
  end.

Definition sigma0 (x : N) := N.lxor (N.lxor (rotr x 1) (rotr x 8)) (N.shiftr x 7).
Definition sigma1 (x : N) := N.lxor (N.lxor (rotr x 19) (rotr x 61)) (N.shiftr x 6).
Definition Sigma0 (x : N) := N.lxor (N.lxor (rotr x 28) (rotr x 34)) (rotr x 39).
Definition Sigma1 (x : N) := N.lxor (N.lxor (rotr x 14) (rotr x 18)) (rotr x 41).
Definition Ch (e f g : N) := N.lxor (N.land e f) (N.land (not64 e) g).
Definition Maj (a b c : N) := N.lxor (N.lxor (N.land a b) (N.land a c)) (N.land b c).

(** The message schedule, most recent word first: with [t] words computed,
    [nth i rw 0] is [w[t-1-i]]. *)
Fixpoint schedule (n : nat) (rw : list N) : list N :=
  match n with
  | O => rw
  | S n' =>
      let w := add64 (add64 (add64 (nth 15 rw 0) (sigma0 (nth 14 rw 0))) (nth 6 rw 0))
                 (sigma1 (nth 1 rw 0)) in
      schedule n' (w :: rw)
  end.

Definition round (d : digest) (kw : N * N) : digest :=
  let '(Digest a b c d0 e f g h) := d in
  let t1 := add64 (add64 (add64 (add64 h (Sigma1 e)) (Ch e f g)) (fst kw)) (snd kw) in
  let t2 := add64 (Sigma0 a) (Maj a b c) in
  Digest (add64 t1 t2) a b c (add64 d0 t1) e f g.

Definition block (d : digest) (p : list byte) : digest :=
  let w := rev (schedule 64 (rev (words 16 p))) in
  let r := fold_left round (combine K w) d in
  Digest (add64 (ha d) (ha r)) (add64 (hb d) (hb r)) (add64 (hc d) (hc r))
         (add64 (hd d) (hd r)) (add64 (he d) (he r)) (add64 (hf d) (hf r))
         (add64 (hg d) (hg r)) (add64 (hh d) (hh r)).

Fixpoint blocks (n : nat) (d : digest) (p : list byte) : digest :=
  match n with
  | O => d
  | S n' => blocks n' (block d (firstn BlockSize p)) (skipn BlockSize p)
  end.

(** Padding: a [0x80] byte, zeros up to 112 modulo 128, and the length in
    bits on 16 bytes. *)
Definition pad (msg : list byte) : list byte :=
  let len := length msg in
  let zeros := ((BlockSize + 111 - len mod BlockSize) mod BlockSize)%nat in
  msg ++ x80 :: repeat x00 zeros ++ bytes_of_word 16 (8 * N.of_nat len).

Definition Sum512 (msg : list byte) : list byte :=
  let p := pad msg in
  let d := blocks (length p / BlockSize) init p in
  flat_map (bytes_of_word 8) [ha d; hb d; hc d; hd d; he d; hf d; hg d; hh d].

End SHA512.

Module HMAC.

(** [crypto/hmac] over SHA-512.  The hash object is described by its key
    and by the bytes written to it so far. *)

Record Hash := mkHash { hkey : list byte; written : list byte }.

Definition xor_byte (c a : byte) : byte :=
  SHA512.byte_of_N (N.lxor (Byte.to_N c) (Byte.to_N a)).

(** [hmac.New]: a key longer than the block size is hashed first; the key is
    then padded with zeros to the block size. *)
Definition block_key (key : list byte) : list byte :=
  let k := if (SHA512.BlockSize <? length key)%nat then SHA512.Sum512 key else key in
  k ++ repeat x00 (SHA512.BlockSize - length k).

Definition New (key : list byte) : Hash := mkHash key [].

Definition Write (h : Hash) (p : list byte) : Hash :=
  mkHash (hkey h) (written h ++ p).

(** The message authentication code of [msg] under [key]. *)
Definition mac (key msg : list byte) : list byte :=
  let k := block_key key in
  SHA512.Sum512 (map (xor_byte x5c) k ++ SHA512.Sum512 (map (xor_byte x36) k ++ msg)).

(** [h.Sum(nil)] *)
Definition Sum (h : Hash) : list byte := mac (hkey h) (written h).

End HMAC.

Module fmt.

(** [fmt.Sprint(n)] and the verb [%d] for an [int64]: signed decimal. *)
Definition decimal (n : Z) : string := NilZero.string_of_int (Z.to_int n).

End fmt.

Module textproto.

Definition is_upper (c : ascii) : bool :=
  let n := nat_of_ascii c in (65 <=? n)%nat && (n <=? 90)%nat.
Definition is_lower (c : ascii) : bool :=
  let n := nat_of_ascii c in (97 <=? n)%nat && (n <=? 122)%nat.
Definition is_digit (c : ascii) : bool :=
  let n := nat_of_ascii c in (48 <=? n)%nat && (n <=? 57)%nat.

(** [validHeaderFieldByte]: the token characters of RFC 7230. *)
Definition validHeaderFieldByte (c : ascii) : bool :=
  is_upper c || is_lower c || is_digit c ||
  existsb (Ascii.eqb c) (list_ascii_of_string "!#$%&'*+-.^_`|~").

Definition to_upper (c : ascii) : ascii :=
  if is_lower c then ascii_of_nat (nat_of_ascii c - 32) else c.
Definition to_lower (c : ascii) : ascii :=
  if is_upper c then ascii_of_nat (nat_of_ascii c + 32) else c.

(** First letter and every letter after a dash in upper case, the others in
    lower case. *)
Fixpoint canonicalize (upper : bool) (s : string) : string :=
  match s with
  | EmptyString => EmptyString
  | String c rest =>
      let c' := if upper then to_upper c else to_lower c in
      String c' (canonicalize (Ascii.eqb c' "-"%char) rest)
  end.

(** [textproto.CanonicalMIMEHeaderKey]: a key holding a byte that is not a
    token character is returned unchanged. *)
Definition CanonicalMIMEHeaderKey (s : string) : string :=
  if forallb validHeaderFieldByte (list_ascii_of_string s)
  then canonicalize true s else s.

End textproto.

(** ** Errors and the package's models (models.go, errors.go) *)

(** [ErrorResponse] *)
Record ErrorResponse := mkErrorResponse {
  ErrorCode : Z;
  ErrorMessage : string;
  Success : bool
}.

Module Error.

(** [type Error struct] *)
Record t := mk {
  Response : ErrorResponse;
  StatusCode : Z
}.

(** [func (e Error) Error() string] *)
Definition Error (e : t) : string :=
  if negb (String.eqb (ErrorMessage (Response e)) EmptyString) && (0 <? StatusCode e)%Z
  then ErrorMessage (Response e) +:+ " (" +:+ fmt.decimal (StatusCode e) +:+ ")"
  else "unknown error (" +:+ fmt.decimal (StatusCode e) +:+ ")".

End Error.

(** Go [error] values: errors of the standard library and [errors.New], an
    error wrapped by [fmt.Errorf] under a prefix (verb [%w]), the [url.Error]
    that [http.Client.Do] returns, and the package's own [Error]. *)
Inductive error :=
| errorString (s : string)
| wrapError (prefix : string) (err : error)
| urlError (err : error)
| apiError (e : Error.t).

(** [errors.Unwrap], iterated: the chain of an error. *)
Fixpoint chain (e : error) : list error :=
  e :: match e with
       | wrapError _ err | urlError err => chain err
       | _ => []
       end.

Inductive result (A : Type) :=
| ok (a : A)
| err (e : error).
Arguments ok {A} a.
Arguments err {A} e.

(** [APIResponse] *)
Record APIResponse := mkAPIResponse {
  Body : list byte;
  Status : string;
  StatusCode : Z;
  Headers : gmap string (list string)
}.

(** ** The heap: references, streams, header maps *)

Abbreviation loc := positive.

(** An [io.Reader]: the bytes it still has to deliver and the error, if any,
    that ends it instead of [io.EOF]. *)
Record Reader := mkReader {
  pending : list byte;
  failure : option error
}.

Module url.

(** [url.URL], the fields the client touches. *)
Record URL := mkURL {
  Scheme : string;
  Host : string;
  Path : string;
  RawQuery : string
}.

End url.

(** [context.Context]: nil, live, or done with [ctx.Err()]. *)
Inductive Context :=
| ctxNil
| ctxLive
| ctxDone (e : error).

Module http.

Definition MethodGet := "GET".
Definition MethodPost := "POST".
Definition MethodPut := "PUT".
Definition MethodDelete := "DELETE".
Definition StatusBadRequest : Z := 400.

(** [http.Header] is [map[string][]string]. *)
Definition Header_Set (h : gmap string (list string)) (key value : string)
  : gmap string (list string) :=
  <[textproto.CanonicalMIMEHeaderKey key := [value]]> h.

Definition Header_Get (h : gmap string (list string)) (key : string) : string :=
  match h !! textproto.CanonicalMIMEHeaderKey key with
  | Some (v :: _) => v
  | _ => EmptyString
  end.

(** [*http.Request]: the header is a map and the body a stream, both held
    by reference. *)
Record Request := mkRequest {
  Method : string;
  URL : url.URL;
  Header : loc;
  ReqBody : option loc;
  ReqHost : string;
  ctx : Context
}.

(** A request as the transport reads it off: header entries and body bytes
    by value. *)
Record Wire := mkWire {
  wMethod : string;
  wURL : url.URL;
  wHost : string;
  wHeader : gmap string (list string);
  wBody : option (list byte)
}.

(** [*http.Response] *)
Record Response := mkResponse {
  RespStatus : string;
  RespStatusCode : Z;
  RespHeader : gmap string (list string);
  RespBody : Reader
}.

(** [http.Client]: [Transport] stands for the whole exchange [Do] performs
    with the network. *)
Record Client := mkClient {
  Transport : Wire -> result Response;
  Timeout : Z
}.

End http.

(** [Client] (the fields [doRequest] and [getClient] touch).  [mutex] is the
    number of read locks held on the [sync.RWMutex]. *)
Record Client := mkClient {
  mutex : nat;
  apiKey : string;
  apiSecret : string;
  baseUrl : string;
  debug : bool;
  userAgent : string;
  headers : option loc;
  httpClient : option loc
}.

(** The state a call runs in: the readings [time.Now().Unix()] gives, in
    order, and how many have been taken; the heap of [Client] objects,
    [http.Client] objects, header maps and streams; the messages passed to
    [log.Printf]; the requests handed to the transport. *)
Record World := mkWorld {
  clock : nat -> Z;
  ticks : nat;
  clients : gmap loc Client;
  http_clients : gmap loc http.Client;
  header_maps : gmap loc (gmap string (list string));
  readers : gmap loc Reader;
  log_output : list string;
  sent : list http.Wire
}.

(** The parts of the standard library the client calls and this development
    leaves open. *)
Class Library := {
  (** a Go value that is neither nil, nor an [io.Reader], nor a [[]byte] *)
  Value : Type;
  json_Marshal : Value -> result (list byte);
  (** [json.Unmarshal(data, &r)] for [r ErrorResponse] *)
  json_Unmarshal : list byte -> result ErrorResponse;
  url_Parse : string -> result url.URL;
  Values_Encode : gmap string (list string) -> string;
  (** the text [httputil.DumpRequestOut(req, true)] renders *)
  dump_request : http.Wire -> result (list byte);
  (** the text [httputil.DumpResponse(resp, true)] renders, given the body *)
  dump_response : http.Response -> list byte -> result (list byte);
  Regexp : Type;
  regexp_Compile : string -> option Regexp;
  Regexp_ReplaceAll : Regexp -> list byte -> list byte -> list byte
}.

(** The [body interface{}] argument, by the type switch of [doRequest]. *)
Inductive AnyBody `{Library} :=
| bodyNil
| bodyReader (r : loc)
| bodySlice (b : list byte)
| bodyValue (v : Value).

(** ** Sequential runs: state, errors, panics *)

Inductive outcome (A : Type) :=
| Done (a : A)
| Failed (e : error)
| Panicked (msg : string).
Arguments Done {A} a.
Arguments Failed {A} e.
Arguments Panicked {A} msg.

Definition M (A : Type) : Type := World -> outcome A * World.

#[global] Instance M_ret : MRet M := fun A a w => (Done a, w).
#[global] Instance M_bind : MBind M := fun A B f m w =>
  match m w with
  | (Done a, w') => f a w'
  | (Failed e, w') => (Failed e, w')
  | (Panicked msg, w') => (Panicked msg, w')
  end.

Definition fail {A} (e : error) : M A := fun w => (Failed e, w).
Definition panic {A} (msg : string) : M A := fun w => (Panicked msg, w).
Definition get_world : M World := fun w => (Done w, w).
Definition modify (f : World -> World) : M unit := fun w => (Done tt, f w).
Definition lift_result {A} (r : result A) : M A :=
  match r with ok a => mret a | err e => fail e end.

Definition wrap {A} (prefix : string) (m : M A) : M A := fun w =>
  match m w with
  | (Failed e, w') => (Failed (wrapError prefix e), w')
  | r => r
  end.

Fixpoint for_each {A} (l : list A) (f : A -> M unit) : M unit :=
  match l with
  | [] => mret tt
  | a :: rest => f a ;; for_each rest f
  end.

(** ** Primitive operations on the state *)

Definition set_ticks (n : nat) (w : World) : World :=
  mkWorld (clock w) n (clients w) (http_clients w) (header_maps w) (readers w)
          (log_output w) (sent w).
Definition set_clients (cs : gmap loc Client) (w : World) : World :=
  mkWorld (clock w) (ticks w) cs (http_clients w) (header_maps w) (readers w)
          (log_output w) (sent w).
Definition set_http_clients (hs : gmap loc http.Client) (w : World) : World :=
  mkWorld (clock w) (ticks w) (clients w) hs (header_maps w) (readers w)
          (log_output w) (sent w).
Definition set_header_maps (hm : gmap loc (gmap string (list string))) (w : World) : World :=
  mkWorld (clock w) (ticks w) (clients w) (http_clients w) hm (readers w)
          (log_output w) (sent w).
Definition set_readers (rs : gmap loc Reader) (w : World) : World :=
  mkWorld (clock w) (ticks w) (clients w) (http_clients w) (header_maps w) rs
          (log_output w) (sent w).
Definition set_log_output (l : list string) (w : World) : World :=
  mkWorld (clock w) (ticks w) (clients w) (http_clients w) (header_maps w) (readers w)
          l (sent w).
Definition set_sent (s : list http.Wire) (w : World) : World :=
  mkWorld (clock w) (ticks w) (clients w) (http_clients w) (header_maps w) (readers w)
          (log_output w) s.

(** [time.Now().Unix()]: the next reading of the clock. *)
Definition time_Now_Unix : M Z := fun w =>
  (Done (clock w (ticks w)), set_ticks (S (ticks w)) w).

(** Field access through a [*Client]; a nil or dangling pointer panics. *)
Definition load_client (c : loc) : M Client := fun w =>
  match clients w !! c with
  | Some cl => (Done cl, w)
  | None => (Panicked "invalid memory address or nil pointer dereference", w)
  end.

Definition set_mutex (n : nat) (cl : Client) : Client :=
  mkClient n (apiKey cl) (apiSecret cl) (baseUrl cl) (debug cl) (userAgent cl)
           (headers cl) (httpClient cl).

(** [c.mutex.RLock()] *)
Definition RLock (c : loc) : M unit :=
  cl ← load_client c;
  modify (fun w => set_clients (<[c := set_mutex (S (mutex cl)) cl]> (clients w)) w).

(** [c.mutex.RUnlock()] *)
Definition RUnlock (c : loc) : M unit :=
  cl ← load_client c;
  match mutex cl with
  | O => panic "sync: RUnlock of unlocked RWMutex"
  | S n => modify (fun w => set_clients (<[c := set_mutex n cl]> (clients w)) w)
  end.

(** [bytes.NewReader(b)] and [bytes.NewBuffer(b)]: a fresh stream over [b]. *)
Definition bytes_NewReader (b : list byte) : M loc := fun w =>
  let l := fresh (dom (readers w)) in
  (Done l, set_readers (<[l := mkReader b None]> (readers w)) w).

(** [io.ReadAll(r)]: drains the stream. *)
Definition io_ReadAll (r : option loc) : M (list byte) := fun w =>
  match r with
  | None => (Panicked "invalid memory address or nil pointer dereference", w)
  | Some l =>
      match readers w !! l with
      | None => (Panicked "invalid memory address or nil pointer dereference", w)
      | Some rd =>
          let w' := set_readers (<[l := mkReader [] (failure rd)]> (readers w)) w in
          match failure rd with
          | None => (Done (pending rd), w')
          | Some e => (Failed e, w')
          end
      end
  end.

(** [make(http.Header)] *)
Definition make_Header : M loc := fun w =>
  let l := fresh (dom (header_maps w)) in
  (Done l, set_header_maps (<[l := ∅]> (header_maps w)) w).

(** The entries of a header map; a nil map has none. *)
Definition entries (hm : gmap loc (gmap string (list string))) (h : option loc)
  : gmap string (list string) :=
  match h with
  | None => ∅
  | Some l => default ∅ (hm !! l)
  end.

(** [m[k] = v] on the map at [l]. *)
Definition map_assign (l : loc) (kv : string * list string) : M unit :=
  modify (fun w =>
    set_header_maps (<[l := <[kv.1 := kv.2]> (entries (header_maps w) (Some l))]> (header_maps w)) w).

(** [for k, v := range src { dst[k] = v }]: the entries of [src] are taken as
    the loop starts, in the order the map yields them. *)
Definition range_assign (src : option loc) (dst : loc) : M unit :=
  w ← get_world;
  for_each (map_to_list (entries (header_maps w) src)) (map_assign dst).

(** [h.Set(key, value)] and [h.Get(key)] on the map at [l]. *)
Definition Header_Set (l : loc) (key value : string) : M unit :=
  modify (fun w =>
    set_header_maps (<[l := http.Header_Set (entries (header_maps w) (Some l)) key value]> (header_maps w)) w).

Definition Header_Get (l : loc) (key : string) : M string := fun w =>
  (Done (http.Header_Get (entries (header_maps w) (Some l)) key), w).

(** [log.Printf(format, ...)]: the formatted message (the logger's own prefix
    is left out). *)
Definition log_Printf (msg : string) : M unit :=
  modify (fun w => set_log_output (log_output w ++ [msg]) w).

(** [defer cleanup] around [body]: the cleanup also runs when the body
    returns an error or panics. *)
Definition defer {A} (cleanup : M unit) (body : M A) : M A := fun w =>
  let '(r, w1) := body w in
  match cleanup w1 with
  | (Done _, w2) => (r, w2)
  | (Failed e, w2) => (Failed e, w2)
  | (Panicked msg, w2) => (Panicked msg, w2)
  end.

Definition nil_dereference : string :=
  "invalid memory address or nil pointer dereference".

Section Pipeline.

Context `{Library}.

(** *** net/http *)

(** [validMethod]: non-empty and made of token characters. *)
Definition validMethod (method : string) : bool :=
  negb (String.eqb method EmptyString) &&
  forallb textproto.validHeaderFieldByte (list_ascii_of_string method).

(** [removeEmptyPort]: a host that ends with a colon loses it. *)
Fixpoint removeEmptyPort (host : string) : string :=
  match host with
  | EmptyString => EmptyString
  | String c EmptyString => if Ascii.eqb c ":"%char then EmptyString else host
  | String c rest => String c (removeEmptyPort rest)
  end.

Definition set_Host (h : string) (u : url.URL) : url.URL :=
  url.mkURL (url.Scheme u) h (url.Path u) (url.RawQuery u).
Definition set_RawQuery (q : string) (u : url.URL) : url.URL :=
  url.mkURL (url.Scheme u) (url.Host u) (url.Path u) q.

(** [http.NewRequestWithContext(ctx, method, url, body)] (the error for an
    invalid method is kept without the quoted method that follows it). *)
Definition NewRequestWithContext (ctx : Context) (method urlStr : string)
    (body : option loc) : M http.Request :=
  let method := if String.eqb method EmptyString then "GET" else method in
  if negb (validMethod method) then fail (errorString "net/http: invalid method")
  else match ctx with
       | ctxNil => fail (errorString "net/http: nil Context")
       | _ =>
           u ← lift_result (url_Parse urlStr);
           let u := set_Host (removeEmptyPort (url.Host u)) u in
           h ← make_Header;
           mret (http.mkRequest method u h body (url.Host u) ctx)
       end.

(** Reading the body of a request to the end.  [drainBody] of httputil
    leaves a stream with the same bytes behind ([consume = false]); the
    transport uses the stream up ([consume = true]). *)
Definition read_body (consume : bool) (body : option loc) : M (option (list byte)) :=
  match body with
  | None => mret None
  | Some l =>
      w ← get_world;
      b ← io_ReadAll (Some l);
      (if consume then mret tt else modify (set_readers (readers w)));;
      mret (Some b)
  end.

(** The request as written out: method, URL, host, header entries, body. *)
Definition on_wire (consume : bool) (req : http.Request) : M http.Wire :=
  b ← read_body consume (http.ReqBody req);
  w ← get_world;
  mret (http.mkWire (http.Method req) (http.URL req) (http.ReqHost req)
          (entries (header_maps w) (Some (http.Header req))) b).

(** [httputil.DumpRequestOut(req, true)] *)
Definition DumpRequestOut (req : http.Request) : M (list byte) :=
  wire ← on_wire false req;
  lift_result (dump_request wire).

(** [httputil.DumpResponse(resp, true)]: the body is read to the end, which
    may fail, and put back. *)
Definition DumpResponse (resp : http.Response) : M (list byte) :=
  match failure (http.RespBody resp) with
  | Some e => fail e
  | None => lift_result (dump_response resp (pending (http.RespBody resp)))
  end.

(** [io.ReadAll(resp.Body)] *)
Definition read_response (resp : http.Response) : M (list byte) :=
  match failure (http.RespBody resp) with
  | Some e => fail e
  | None => mret (pending (http.RespBody resp))
  end.

(** [client.Do(req)] on the [http.Client] at [hc]: a context that is done
    fails the call; otherwise the request is written out and the exchange
    performed. *)
Definition Do (hc : loc) (req : http.Request) : M http.Response :=
  w ← get_world;
  match http_clients w !! hc with
  | None => panic nil_dereference
  | Some client =>
      match http.ctx req with
      | ctxDone e => fail (urlError e)
      | _ =>
          wire ← on_wire true req;
          modify (fun w => set_sent (sent w ++ [wire]) w);;
          lift_result (http.Transport client wire)
      end
  end.

(** *** client.go *)

(** [func (c *Client) getClient()]: a pointer to a copy of [*c.httpClient]. *)
Definition getClient (c : loc) : M loc :=
  RLock c;;
  defer (RUnlock c)
    (cl ← load_client c;
     w ← get_world;
     match httpClient cl ≫= (http_clients w !!.) with
     | None => panic nil_dereference
     | Some clientCopy =>
         let l := fresh (dom (http_clients w)) in
         modify (set_http_clients (<[l := clientCopy]> (http_clients w)));;
         mret l
     end).

Definition is_post_or_put (method : string) : bool :=
  String.eqb method http.MethodPost || String.eqb method http.MethodPut.

Definition redaction_marker : string := "[**************]".

(** One turn of the loop over [sensitiveKeys]. *)
Definition redact (dump : list byte) (key : string) : M (list byte) :=
  if String.eqb key EmptyString then mret dump
  else match regexp_Compile ("(?m)" +:+ key) with
       | None => panic "regexp: Compile: error parsing regexp"
       | Some valueRegex =>
           mret (Regexp_ReplaceAll valueRegex dump (bytes_of_string redaction_marker))
       end.

Fixpoint redact_all (sensitiveKeys : list string) (dump : list byte) : M (list byte) :=
  match sensitiveKeys with
  | [] => mret dump
  | key :: rest => dump' ← redact dump key; redact_all rest dump'
  end.

(** The [Authorization] value of line 216. *)
Definition authorization (apiKey signature : string) (now : Z) : string :=
  "APIKey=" +:+ apiKey +:+ ", Signature=" +:+ signature +:+ ", Nonce=" +:+ fmt.decimal now.

Definition set_URL (u : url.URL) (req : http.Request) : http.Request :=
  http.mkRequest (http.Method req) u (http.Header req) (http.ReqBody req)
                 (http.ReqHost req) (http.ctx req).
Definition set_Header (h : loc) (req : http.Request) : http.Request :=
  http.mkRequest (http.Method req) (http.URL req) h (http.ReqBody req)
                 (http.ReqHost req) (http.ctx req).

Definition newline : string := String (ascii_of_nat 10) EmptyString.

(** Lines 143-150: the configuration, read under the read lock. *)
Definition config (c : loc) : M Client :=
  RLock c;;
  cl ← load_client c;
  RUnlock c;;
  mret cl.

(** [body != nil] *)
Definition is_nil (body : AnyBody) : bool :=
  match body with
  | bodyNil => true
  | _ => false
  end.

(** Lines 152-177: the body as a stream (the type switch on a body that is
    not nil, the literal [{}] for a nil one), then the stream read to the
    end once.  The result is the stream handed to the request and the bytes
    it holds. *)
Definition materialize (method : string) (body : AnyBody)
  : M (option loc * list byte) :=
  reqBody ← (if negb (is_nil body) && is_post_or_put method
             then match body with
                  | bodyReader r => mret (Some r)
                  | bodySlice bodyBytes =>
                      r ← bytes_NewReader bodyBytes; mret (Some r)
                  | bodyValue v =>
                      match json_Marshal v with
                      | err e => fail (wrapError "error marshalling body to JSON: " e)
                      | ok jsonBody => r ← bytes_NewReader jsonBody; mret (Some r)
                      end
                  | bodyNil => mret None
                  end
             else if is_post_or_put method
             then r ← bytes_NewReader (bytes_of_string "{}"); mret (Some r)
             else mret None);
  if is_post_or_put method
  then bodyBytes ← wrap "error reading body: " (io_ReadAll reqBody);
       r ← bytes_NewReader bodyBytes;
       mret (Some r, bodyBytes)
  else mret (reqBody, []).

(** Lines 205-214: the HMAC over the message, the body written after it for
    POST and PUT. *)
Definition signature (apiSecret : string) (req : http.Request) (now : Z)
    (method : string) (bodyBytes : list byte) : string :=
  let message := http.Method req +:+ url.Path (http.URL req) +:+ fmt.decimal now in
  let h := HMAC.New (bytes_of_string apiSecret) in
  let h := HMAC.Write h (bytes_of_string message) in
  let h := if is_post_or_put method then HMAC.Write h bodyBytes else h in
  Hex.EncodeToString (HMAC.Sum h).

(** Lines 180-222: the timestamp, the request, its query, its headers
    ([extraHeaders] is the [headers] argument of the call). *)
Definition build (cl : Client) (ctx : Context) (method endpoint : string)
    (query : gmap string (list string)) (extraHeaders : option loc)
    (reqBody : option loc) (bodyBytes : list byte) : M http.Request :=
  now ← time_Now_Unix;
  req ← wrap "ZeroGate request creation failed: "
          (NewRequestWithContext ctx method (baseUrl cl +:+ endpoint) reqBody);
  let values := filter (fun kv : string * list string => kv.2 ≠ []) query in
  let queryString := Values_Encode values in
  let req := set_URL (set_RawQuery queryString (http.URL req)) req in
  combinedHeaders ← make_Header;
  range_assign (headers cl) combinedHeaders;;
  range_assign extraHeaders combinedHeaders;;
  let req := set_Header combinedHeaders req in
  Header_Set (http.Header req) "Authorization"
    (authorization (apiKey cl) (signature (apiSecret cl) req now method bodyBytes) now);;
  (if String.eqb (userAgent cl) EmptyString then mret tt
   else Header_Set (http.Header req) "User-Agent" (userAgent cl));;
  contentType ← Header_Get (http.Header req) "Content-Type";
  (if String.eqb contentType EmptyString
   then Header_Set (http.Header req) "Content-Type" "application/json"
   else mret tt);;
  mret req.

(** Lines 225-237: the request dump, redacted, then logged. *)
Definition trace_request (cl : Client) (req : http.Request) : M unit :=
  dump ← DumpRequestOut req;
  dump ← redact_all [apiKey cl; apiSecret cl] dump;
  log_Printf (newline +:+ string_of_bytes dump).

(** Lines 246-250: the response dump, logged. *)
Definition trace_response (resp : http.Response) : M unit :=
  dump ← DumpResponse resp;
  log_Printf (newline +:+ string_of_bytes dump).

(** Lines 257-275: a status of 400 or more is an error. *)
Definition classify (resp : http.Response) (respBody : list byte) : M APIResponse :=
  if (http.StatusBadRequest <=? http.RespStatusCode resp)%Z
  then match json_Unmarshal respBody with
       | err e => fail (wrapError "failed to unmarshal response body: " e)
       | ok r => fail (apiError (Error.mk r (http.RespStatusCode resp)))
       end
  else mret (mkAPIResponse respBody (http.RespStatus resp)
               (http.RespStatusCode resp) (http.RespHeader resp)).

(** Lines 224-275: tracing, the exchange, the classification of the
    response. *)
Definition exchange (c : loc) (cl : Client) (req : http.Request) : M APIResponse :=
  (if debug cl then trace_request cl req else mret tt);;
  client ← getClient c;
  resp ← wrap "ZeroGate request failed: " (Do client req);
  (if debug cl then trace_response resp else mret tt);;
  respBody ← wrap "response read failed: " (read_response resp);
  classify resp respBody.

(** [func (c *Client) doRequest(ctx, method, endpoint, query, body, headers)]:
    [Done] is a nil error with the response, [Failed] a non-nil error. *)
Definition doRequest (c : loc) (ctx : Context) (method endpoint : string)
    (query : gmap string (list string)) (body : AnyBody) (headers : option loc)
  : M APIResponse :=
  cl ← config c;
  '(reqBody, bodyBytes) ← materialize method body;
  req ← build cl ctx method endpoint query headers reqBody bodyBytes;
  exchange c cl req.

(** [get], [post], [put], [delete] *)
Definition get (c : loc) (ctx : Context) (endpoint : string)
    (query : gmap string (list string)) (headers : option loc) : M APIResponse :=
  doRequest c ctx http.MethodGet endpoint query bodyNil headers.
Definition post (c : loc) (ctx : Context) (endpoint : string)
    (query : gmap string (list string)) (body : AnyBody) (headers : option loc)
  : M APIResponse :=
  doRequest c ctx http.MethodPost endpoint query body headers.
Definition put (c : loc) (ctx : Context) (endpoint : string)
    (query : gmap string (list string)) (body : AnyBody) (headers : option loc)
  : M APIResponse :=
  doRequest c ctx http.MethodPut endpoint query body headers.
Definition delete (c : loc) (ctx : Context) (endpoint : string)
    (query : gmap string (list string)) (headers : option loc) : M APIResponse :=
  doRequest c ctx http.MethodDelete endpoint query bodyNil headers.

End Pipeline.

(** ** A stand-in library for concrete runs

    Simple renderings in place of encoding/json, net/url, httputil and regexp,
    enough to run the client on the inputs of the package's tests: patterns
    are literal texts, URLs have the shape [scheme://host/path]. *)

Module Fixture.

(** Go values whose JSON form is immediate; a channel has none. *)
Inductive GoValue :=
| vBool (b : bool)
| vInt (n : Z)
| vChan.

Definition marshal (v : GoValue) : result (list byte) :=
  match v with
  | vBool true => ok (bytes_of_string "true")
  | vBool false => ok (bytes_of_string "false")
  | vInt n => ok (bytes_of_string (fmt.decimal n))
  | vChan => err (errorString "json: unsupported type: chan int")
  end.

(** The double quote. *)
Definition dq : string := String (ascii_of_nat 34) EmptyString.

(** The error envelope of the tests: success false, error_code 404,
    error_message [not found]. *)
Definition not_found_body : string :=
  "{" +:+ dq +:+ "success" +:+ dq +:+ ":false," +:+
  dq +:+ "error_code" +:+ dq +:+ ":404," +:+
  dq +:+ "error_message" +:+ dq +:+ ":" +:+ dq +:+ "not found" +:+ dq +:+ "}".

(** The error envelopes the tests serve; any other text is taken as
    malformed. *)
Definition unmarshal (data : list byte) : result ErrorResponse :=
  if String.eqb (string_of_bytes data) not_found_body
  then ok (mkErrorResponse 404 "not found" false)
  else if String.eqb (string_of_bytes data) "{}"
  then ok (mkErrorResponse 0 EmptyString false)
  else err (errorString "invalid character looking for beginning of value").

(** [s] up to the first [c], and the rest from [c] on. *)
Fixpoint break_at (c : ascii) (s : string) : string * string :=
  match s with
  | EmptyString => (EmptyString, EmptyString)
  | String a rest =>
      if Ascii.eqb a c then (EmptyString, s)
      else let '(l, r) := break_at c rest in (String a l, r)
  end.

Definition parse (raw : string) : result url.URL :=
  let '(scheme, rest) := break_at ":"%char raw in
  match rest with
  | String _ (String "/" (String "/" after)) =>
      let '(host, path) := break_at "/"%char after in
      ok (url.mkURL scheme host (break_at "?"%char path).1 EmptyString)
  | _ => err (errorString "parse: missing protocol scheme")
  end.

Definition crlf : string := String (ascii_of_nat 13) (String (ascii_of_nat 10) EmptyString).

Definition header_lines (h : gmap string (list string)) : string :=
  String.concat EmptyString
    (flat_map (fun kv : string * list string =>
                 map (fun v => kv.1 +:+ ": " +:+ v +:+ crlf) kv.2)
              (map_to_list h)).

Definition encode (v : gmap string (list string)) : string :=
  String.concat "&"
    (flat_map (fun kv : string * list string => map (fun x => kv.1 +:+ "=" +:+ x) kv.2)
              (map_to_list v)).

Definition render_request (r : http.Wire) : result (list byte) :=
  ok (bytes_of_string
        (http.wMethod r +:+ " " +:+ url.Path (http.wURL r) +:+ " HTTP/1.1" +:+ crlf +:+
         "Host: " +:+ http.wHost r +:+ crlf +:+
         header_lines (http.wHeader r) +:+ crlf) ++
      default [] (http.wBody r)).

Definition render_response (r : http.Response) (body : list byte) : result (list byte) :=
  ok (bytes_of_string
        ("HTTP/1.1 " +:+ http.RespStatus r +:+ crlf +:+
         header_lines (http.RespHeader r) +:+ crlf) ++ body).

Fixpoint has_prefix (p s : list byte) : bool :=
  match p, s with
  | [], _ => true
  | a :: p', b :: s' => Byte.eqb a b && has_prefix p' s'
  | _ :: _, [] => false
  end.

(** Every leftmost occurrence of [p] that does not overlap an earlier one is
    replaced by [r]; [skip] counts the bytes of an occurrence still to pass. *)
Fixpoint replace_from (p r : list byte) (skip : nat) (s : list byte) : list byte :=
  match s with
  | [] => []
  | b :: s' =>
      match skip with
      | S k => replace_from p r k s'
      | O => if has_prefix p s then r ++ replace_from p r (length p - 1) s'
             else b :: replace_from p r 0 s'
      end
  end.

Definition literal_byte (c : ascii) : bool :=
  textproto.is_upper c || textproto.is_lower c || textproto.is_digit c ||
  existsb (Ascii.eqb c) (list_ascii_of_string "_-=,:/ ").

(** A pattern [(?m)text] with [text] non-empty and free of operators. *)
Definition compile (pattern : string) : option (list byte) :=
  match pattern with
  | String "(" (String "?" (String "m" (String ")" text))) =>
      if negb (String.eqb text EmptyString) && forallb literal_byte (list_ascii_of_string text)
      then Some (bytes_of_string text) else None
  | _ => None
  end.

#[local] Instance library : Library := {|
  Value := GoValue;
  json_Marshal := marshal;
  json_Unmarshal := unmarshal;
  url_Parse := parse;
  Values_Encode := encode;
  dump_request := render_request;
  dump_response := render_response;
  Regexp := list byte;
  regexp_Compile := compile;
  Regexp_ReplaceAll := fun p src repl => replace_from p repl 0 src
|}.

Definition testApiKey : string := "key_5fbea6690113a5b9560bc9def29c91e2".
Definition testApiSecret : string :=
  "1f4f6db557e4fdce6eb1dbbcc9f5d544f99252e8c2b5158a566e1c4667a48717".

(** A server that answers every request with [status] and [body]. *)
Definition server (code : Z) (status : string) (body : string) : http.Client :=
  http.mkClient
    (fun _ => ok (http.mkResponse status code ∅ (mkReader (bytes_of_string body) None)))
    0.

(** A world with one client at address 1, its [http.Client] at address 1,
    its default header map at address 1 and a second header map, for the
    caller, at address 2; the clock reads 1700000000, 1700000001, ... *)
Definition world (dbg : bool) (ua : string) (defaults supplied : gmap string (list string))
    (srv : http.Client) : World :=
  mkWorld (fun n => 1700000000 + Z.of_nat n)%Z 0
    {[ 1%positive := mkClient 0 testApiKey testApiSecret "http://127.0.0.1:8080" dbg ua
                       (Some 1%positive) (Some 1%positive) ]}
    {[ 1%positive := srv ]}
    {[ 1%positive := defaults; 2%positive := supplied ]}
    ∅ [] [].

End Fixture.

(** ** The specification's vocabulary *)

Module Signer.

(** The canonical message of the specification: method, URL path and the
    decimal nonce, followed by the body bytes for POST and PUT only. *)
Definition canonical_message (method urlPath : string) (nonce : Z)
    (bodyBytes : list byte) : list byte :=
  bytes_of_string method ++ bytes_of_string urlPath ++
  bytes_of_string (fmt.decimal nonce) ++
  (if is_post_or_put method then bodyBytes else []).

(** [sign(secret, method, urlPath, nonce, bodyBytes)]: lowercase hexadecimal
    of the HMAC-SHA512 of the canonical message under the secret. *)
Definition sign (secret method urlPath : string) (nonce : Z)
    (bodyBytes : list byte) : string :=
  Hex.EncodeToString
    (HMAC.mac (bytes_of_string secret) (canonical_message method urlPath nonce bodyBytes)).

End Signer.

(** A text of lowercase hexadecimal digits. *)
Definition lowercase_hex (s : string) : Prop :=
  Forall (fun c => In c Hex.hextable) (list_ascii_of_string s).

(** [needle] occurs in [hay]. *)
Fixpoint contains (needle hay : string) : bool :=
  String.prefix needle hay ||
  match hay with
  | EmptyString => false
  | String _ rest => contains needle rest
  end.

(** [q] occurs in [s]. *)
Definition occurs (q s : list byte) : Prop :=
  ∃ before after, s = before ++ q ++ after.

(** No byte of [q] is a byte of [r]. *)
Definition disjoint_bytes (q r : list byte) : Prop :=
  ∀ b, In b q → ¬ In b r.

(** The run from [w] to [w'] handed exactly [wire] to the transport. *)
Definition issued (w w' : World) (wire : http.Wire) : Prop :=
  sent w' = sent w ++ [wire].

(** The timestamp was obtained exactly once between [w] and [w'], as the
    specification says of every call. *)
Definition timestamp_read_once (w w' : World) : Prop :=
  ticks w' = S (ticks w).

(** The outcomes of a call that stops while the body is materialized (lines
    152-177): the error of marshalling, the error of reading, or the panic of
    reading through a nil stream. *)
Definition body_failure {A} (r : outcome A) : Prop :=
  (∃ e, r = Failed (wrapError "error marshalling body to JSON: " e)) ∨
  (∃ e, r = Failed (wrapError "error reading body: " e)) ∨
  r = Panicked nil_dereference.

(** The configuration as [config] returns it: the fields of [cl], read while
    the read lock is held. *)
Definition snapshot (cl : Client) : Client := set_mutex (S (mutex cl)) cl.

(** The method a request carries: an empty method means GET. *)
Definition effective_method (method : string) : string :=
  if String.eqb method EmptyString then "GET" else method.

(** The merge step of the specification, as the code performs it: the
    supplied entries over the defaults, then [Authorization], then the
    configured user agent, then the default content type. *)
Definition effective_headers (defaults supplied : gmap string (list string))
    (auth userAgent : string) : gmap string (list string) :=
  let h := supplied ∪ defaults in
  let h := http.Header_Set h "Authorization" auth in
  let h := if String.eqb userAgent EmptyString then h else http.Header_Set h "User-Agent" userAgent in
  if String.eqb (http.Header_Get h "Content-Type") EmptyString
  then http.Header_Set h "Content-Type" "application/json" else h.

(** [dst[k] = v] *)
Definition assign (m : gmap string (list string)) (kv : string * list string)
  : gmap string (list string) :=
  <[kv.1 := kv.2]> m.

(** The bytes the body stream of a request holds, when it is nil or a stream
    that ends cleanly. *)
Definition body_of (rs : gmap loc Reader) (req : http.Request)
  : option (option (list byte)) :=
  match http.ReqBody req with
  | None => Some None
  | Some l =>
      match rs !! l with
      | Some (mkReader b None) => Some (Some b)
      | _ => None
      end
  end.

(** The streams once the transport has used up the body of [req]. *)
Definition drained (rs : gmap loc Reader) (req : http.Request) : gmap loc Reader :=
  match http.ReqBody req with
  | None => rs
  | Some l => <[l := mkReader [] None]> rs
  end.

Definition wire_of (w : World) (req : http.Request) (b : option (list byte)) : http.Wire :=
  http.mkWire (http.Method req) (http.URL req) (http.ReqHost req)
    (entries (header_maps w) (Some (http.Header req))) b.

Section Specification.

Context `{Library}.

(** The bytes a body materializes to, in the specification's words: an
    absent body is the two bytes [{}], raw bytes pass through, a stream
    gives what it holds, a structured value its JSON form. *)
Definition materialized (rs : gmap loc Reader) (body : AnyBody) : option (list byte) :=
  match body with
  | bodyNil => Some (bytes_of_string "{}")
  | bodySlice b => Some b
  | bodyReader r =>
      match rs !! r with
      | Some (mkReader b None) => Some b
      | _ => None
      end
  | bodyValue v =>
      match json_Marshal v with
      | ok b => Some b
      | err _ => None
      end
  end.

(** The URL of the request: the parsed address with the host normalized and
    the query encoded. *)
Definition request_url (u : url.URL) (query : gmap string (list string)) : url.URL :=
  set_RawQuery
    (Values_Encode (filter (fun kv : string * list string => kv.2 ≠ []) query))
    (set_Host (removeEmptyPort (url.Host u)) u).

(** The pattern built from [key] at line 233 is a literal one: the compiled
    expression replaces the occurrences of [key] by the marker, leftmost
    first and without overlap, as it does for a key free of operators.  Only
    the replacement by the marker is asked for: the marker has no dollar
    sign, which [ReplaceAll] would expand in another replacement. *)
Definition literal_pattern (key : string) : Prop :=
  ∃ valueRegex,
    regexp_Compile ("(?m)" +:+ key) = Some valueRegex ∧
    ∀ src,
      Regexp_ReplaceAll valueRegex src (bytes_of_string redaction_marker) =
      Fixture.replace_from (bytes_of_string key) (bytes_of_string redaction_marker) 0 src.

End Specification.

(** ** Concrete runs *)

Module Scenario.

#[local] Existing Instance Fixture.library.

Definition client : Client :=
  mkClient 0 Fixture.testApiKey Fixture.testApiSecret "http://127.0.0.1:8080" false EmptyString
           (Some 1%positive) (Some 1%positive).

Definition server_ok : http.Client := Fixture.server 200 "200 OK" "ok".
Definition server_not_found : http.Client :=
  Fixture.server 404 "404 Not Found" Fixture.not_found_body.

Definition world : World := Fixture.world false EmptyString ∅ ∅ server_ok.

(** A GET of [/get] with no query and no headers. *)
Definition get_run : outcome APIResponse * World :=
  get 1%positive ctxLive "/get" ∅ None world.

(** A POST to [/post] whose body is the bytes of a JSON object with the one
    field [name], set to [Test]. *)
Definition post_body : list byte :=
  bytes_of_string
    ("{" +:+ Fixture.dq +:+ "name" +:+ Fixture.dq +:+ ":" +:+
     Fixture.dq +:+ "Test" +:+ Fixture.dq +:+ "}").
Definition post_run : outcome APIResponse * World :=
  post 1%positive ctxLive "/post" ∅ (bodySlice post_body) None world.

(** A PUT to [/put] with a nil body. *)
Definition put_run : outcome APIResponse * World :=
  put 1%positive ctxLive "/put" ∅ bodyNil None world.

Definition no_wire : http.Wire :=
  http.mkWire EmptyString (url.mkURL EmptyString EmptyString EmptyString EmptyString) EmptyString ∅ None.

(** The request a run handed to the transport last. *)
Definition last_wire (run : outcome APIResponse * World) : http.Wire :=
  List.last (sent run.2) no_wire.

(** The server answers 404 with the error envelope. *)
Definition not_found_world : World := Fixture.world false EmptyString ∅ ∅ server_not_found.
Definition not_found_run : outcome APIResponse * World :=
  get 1%positive ctxLive "/missing" ∅ None not_found_world.
Definition not_found_response : http.Response :=
  http.mkResponse "404 Not Found" 404 ∅
    (mkReader (bytes_of_string Fixture.not_found_body) None).

(** The client has a user agent configured and the caller supplies one. *)
Definition agent_client : Client :=
  mkClient 0 Fixture.testApiKey Fixture.testApiSecret "http://127.0.0.1:8080" false
           "zerogate-go" (Some 1%positive) (Some 1%positive).
Definition agent_supplied : gmap string (list string) :=
  {[ "User-Agent" := ["custom-agent"]; "Accept" := ["text/plain"] ]}.
Definition agent_world : World :=
  Fixture.world false "zerogate-go" {[ "Accept" := ["*/*"] ]} agent_supplied server_ok.
Definition agent_run : outcome APIResponse * World :=
  get 1%positive ctxLive "/get" ∅ (Some 2%positive) agent_world.

(** Debugging is on and the server echoes the API key in its answer. *)
Definition echo_server : http.Client :=
  Fixture.server 200 "200 OK" ("APIKey=" +:+ Fixture.testApiKey).
Definition debug_client : Client :=
  mkClient 0 Fixture.testApiKey Fixture.testApiSecret "http://127.0.0.1:8080" true EmptyString
           (Some 1%positive) (Some 1%positive).
Definition debug_world : World := Fixture.world true EmptyString ∅ ∅ echo_server.
Definition debug_run : outcome APIResponse * World :=
  get 1%positive ctxLive "/get" ∅ None debug_world.

(** An error with a message and no status code. *)
Definition error_without_status : Error.t :=
  Error.mk (mkErrorResponse 0 "boom" false) 0.
Definition error_not_found : Error.t :=
  Error.mk (mkErrorResponse 404 "not found" false) 404.

End Scenario.

(** The rendering of an [Error] as the specification words it: the message
    and the status code when a message is present, [unknown error] otherwise. *)
Definition rendered_as_specified (e : Error.t) : string :=
  if String.eqb (ErrorMessage (Error.Response e)) EmptyString
  then "unknown error (" +:+ fmt.decimal (Error.StatusCode e) +:+ ")"
  else ErrorMessage (Error.Response e) +:+ " (" +:+ fmt.decimal (Error.StatusCode e) +:+ ")".

(** The first value of a header entry, as [Header.Get] reads it. *)
Definition first_value (entry : option (list string)) : string :=
  match entry with
  | Some (v :: _) => v
  | _ => EmptyString
  end.

(** The user-agent clause of the specification: the configured user agent is
    set unless a [User-Agent] entry is already there after the merge. *)
Definition user_agent_kept_when_present (merged final : gmap string (list string)) : Prop :=
  is_Some (merged !! "User-Agent") → final !! "User-Agent" = merged !! "User-Agent".

(** ** Construction of a client (options.go; client.go, lines 87-128) *)

Definition set_apiKey (key : string) (cl : Client) : Client :=
  mkClient (mutex cl) key (apiSecret cl) (baseUrl cl) (debug cl) (userAgent cl)
           (headers cl) (httpClient cl).
Definition set_apiSecret (secret : string) (cl : Client) : Client :=
  mkClient (mutex cl) (apiKey cl) secret (baseUrl cl) (debug cl) (userAgent cl)
           (headers cl) (httpClient cl).
Definition set_baseUrl (baseURL : string) (cl : Client) : Client :=
  mkClient (mutex cl) (apiKey cl) (apiSecret cl) baseURL (debug cl) (userAgent cl)
           (headers cl) (httpClient cl).
Definition set_debug (dbg : bool) (cl : Client) : Client :=
  mkClient (mutex cl) (apiKey cl) (apiSecret cl) (baseUrl cl) dbg (userAgent cl)
           (headers cl) (httpClient cl).
Definition set_httpClient (hc : option loc) (cl : Client) : Client :=
  mkClient (mutex cl) (apiKey cl) (apiSecret cl) (baseUrl cl) (debug cl) (userAgent cl)
           (headers cl) hc.

(** Assignment to a field through a [*Client]; a nil or dangling pointer
    panics. *)
Definition store_client (c : loc) (f : Client -> Client) : M unit :=
  cl ← load_client c;
  modify (fun w => set_clients (<[c := f cl]> (clients w)) w).

(** [&Client{...}]: a fresh object. *)
Definition new_Client (cl : Client) : M loc := fun w =>
  let l := fresh (dom (clients w)) in
  (Done l, set_clients (<[l := cl]> (clients w)) w).

(** [type Option]: a function from a [Client] pointer to an [error];
    [None] is the nil function, the returned error is the failure of the
    run. *)
Definition Option : Type := option (loc -> M unit).

(** [func HTTPClient(httpClient *http.Client) Option] *)
Definition HTTPClient (httpClient : option loc) : Option :=
  Some (fun client => store_client client (set_httpClient httpClient)).

(** [func BaseURL(baseURL string) Option] *)
Definition BaseURL (baseURL : string) : Option :=
  Some (fun client => store_client client (set_baseUrl baseURL)).

(** [func Debug(debug bool) Option] *)
Definition Debug (debug : bool) : Option :=
  Some (fun client => store_client client (set_debug debug)).

(** The call [option(c)]; calling a nil function panics. *)
Definition call (option : Option) (c : loc) : M unit :=
  match option with
  | None => panic nil_dereference
  | Some f => f c
  end.

(** [func (c *Client) parseOptions(options ...Option) error]: the first
    error ends the loop. *)
Fixpoint parseOptions (c : loc) (options : list Option) : M unit :=
  match options with
  | [] => mret tt
  | option :: rest => call option c;; parseOptions c rest
  end.

(** The options the package provides, as data. *)
Inductive PackageOption :=
| optHTTPClient (httpClient : option loc)
| optBaseURL (baseURL : string)
| optDebug (dbg : bool).

Definition to_Option (o : PackageOption) : Option :=
  match o with
  | optHTTPClient httpClient => HTTPClient httpClient
  | optBaseURL baseURL => BaseURL baseURL
  | optDebug dbg => Debug dbg
  end.

(** The arguments of the options of one kind, in the order given. *)
Definition given_baseURL (opts : list PackageOption) : list string :=
  omap (fun o => match o with optBaseURL u => Some u | _ => None end) opts.
Definition given_debug (opts : list PackageOption) : list bool :=
  omap (fun o => match o with optDebug b => Some b | _ => None end) opts.
Definition given_httpClient (opts : list PackageOption) : list (option loc) :=
  omap (fun o => match o with optHTTPClient h => Some h | _ => None end) opts.

(** [errEmptyCredentials] (errors.go) *)
Definition errEmptyCredentials : string := "API key & secret must not be empty".

(** The package-level names [newClient] reads and the files at hand do not
    declare: the constants [baseUrl] and [userAgent], and the variable
    [http.DefaultClient] of net/http. *)
Class Package := {
  const_baseUrl : string;
  const_userAgent : string;
  http_DefaultClient : loc
}.

(** [type service struct { client *Client }] *)
Record service := mkService {
  service_client : loc
}.

(** [type TenantService service] *)
Definition TenantService : Type := service.

(** The [Tenant] field of the client at [c] as [newClient] leaves it: the
    address of the [common] field of the object, whose [client] field is the
    object itself (lines 97 and 108). *)
Definition Client_Tenant (c : loc) : option TenantService := Some (mkService c).

Section Construction.

Context `{Package}.

(** [func newClient(opts ...Option)]: the client, or an error.  The silent
    logger is left out: nothing reads it. *)
Definition newClient (opts : list Option) : M loc :=
  h ← make_Header;
  client ← new_Client (mkClient 0 EmptyString EmptyString const_baseUrl false
                         const_userAgent (Some h) None);
  wrap "options parsing failed: " (parseOptions client opts);;
  cl ← load_client client;
  (match httpClient cl with
   | None => store_client client (set_httpClient (Some http_DefaultClient))
   | Some _ => mret tt
   end);;
  mret client.

(** [func New(key, secret string, opts ...Option)]: the client, or an
    error. *)
Definition New (key secret : string) (opts : list Option) : M loc :=
  if String.eqb key EmptyString || String.eqb secret EmptyString
  then fail (errorString errEmptyCredentials)
  else api ← newClient opts;
       store_client api (set_apiKey key);;
       store_client api (set_apiSecret secret);;
       mret api.

End Construction.

(** ** Tenants (tenant.go, models.go) *)

Module sql.

(** [sql.NullTime]; the time as seconds. *)
Record NullTime := mkNullTime {
  Time : Z;
  Valid : bool
}.

End sql.

(** [Base] *)
Record Base := mkBase {
  Id : string;
  Updated : Z;
  Created : Z;
  DeletedAt : sql.NullTime
}.

(** [AuditBase] *)
Record AuditBase := mkAuditBase {
  CreatedBy : string;
  ModifiedBy : string
}.

Module Tenant.

(** [type Tenant struct] *)
Record t := mk {
  base : Base;
  audit : AuditBase;
  Name : string;
  Description : string;
  Organization : string
}.

End Tenant.

Module TenantCreateRequest.

Record t := mk {
  Name : string;
  Description : string
}.

End TenantCreateRequest.

Module TenantUpdateRequest.

Record t := mk {
  Id : string;
  Name : string;
  Description : string
}.

End TenantUpdateRequest.

Module SuccessResponse.

(** [SuccessResponse[T]] *)
Record t (T : Type) := mk {
  Success : bool;
  Data : T
}.
Arguments mk {T} _ _.
Arguments Success {T} _.
Arguments Data {T} _.

End SuccessResponse.

Module SuccessPagingResponse.

(** [SuccessPagingResponse[T]] *)
Record t (T : Type) := mk {
  Success : bool;
  Data : list T;
  Total : Z
}.
Arguments mk {T} _ _ _.
Arguments Success {T} _.
Arguments Data {T} _.
Arguments Total {T} _.

End SuccessPagingResponse.

(** What the tenant service needs of encoding/json, left open: the request
    pointers as values [json.Marshal] takes (a nil pointer is still a value
    that is not nil as an [interface{}]), and [json.Unmarshal] into the two
    envelopes. *)
Class Codec `{Library} := {
  of_TenantCreateRequest : option TenantCreateRequest.t -> Value;
  of_TenantUpdateRequest : option TenantUpdateRequest.t -> Value;
  (** [json.Unmarshal(data, &r)] for a [SuccessResponse] of [Tenant] pointers *)
  json_Unmarshal_Tenant : list byte -> result (SuccessResponse.t (option Tenant.t));
  (** [json.Unmarshal(data, &r)] for a [SuccessPagingResponse] of [Tenant] pointers *)
  json_Unmarshal_Tenants :
    list byte -> result (SuccessPagingResponse.t (option Tenant.t))
}.

Section Tenants.

Context `{Codec}.

(** [t.client] through a [*TenantService]. *)
Definition service_of (t : option TenantService) : M TenantService :=
  match t with
  | None => panic nil_dereference
  | Some s => mret s
  end.

(** [func (t *TenantService) Create(ctx, request)] *)
Definition Create (t : option TenantService) (ctx : Context)
    (request : option TenantCreateRequest.t) : M (option Tenant.t) :=
  s ← service_of t;
  res ← post (service_client s) ctx "/tenants" ∅
          (bodyValue (of_TenantCreateRequest request)) None;
  match json_Unmarshal_Tenant (Body res) with
  | err e => fail (wrapError "failed to unmarshal tenant JSON data: " e)
  | ok r => mret (SuccessResponse.Data r)
  end.

(** [func (t *TenantService) List(ctx)]: the tenants and their total. *)
Definition List (t : option TenantService) (ctx : Context)
  : M (list (option Tenant.t) * Z) :=
  s ← service_of t;
  res ← get (service_client s) ctx "/tenants" ∅ None;
  match json_Unmarshal_Tenants (Body res) with
  | err e => fail (wrapError "failed to unmarshal tenant JSON data: " e)
  | ok r => mret (SuccessPagingResponse.Data r, SuccessPagingResponse.Total r)
  end.

(** [func (t *TenantService) Update(ctx, tenantId, request)] *)
Definition Update (t : option TenantService) (ctx : Context) (tenantId : string)
    (request : option TenantUpdateRequest.t) : M (option Tenant.t) :=
  s ← service_of t;
  res ← put (service_client s) ctx ("/tenants/" +:+ tenantId) ∅
          (bodyValue (of_TenantUpdateRequest request)) None;
  match json_Unmarshal_Tenant (Body res) with
  | err e => fail (wrapError "failed to unmarshal tenant JSON data: " e)
  | ok r => mret (SuccessResponse.Data r)
  end.

End Tenants.

(** ** More concrete runs *)

(** The request handed to the transport last. *)
Definition last_sent (w : World) : http.Wire := List.last (sent w) Scenario.no_wire.

Module Sample.

#[local] Existing Instance Fixture.library.

(** Values for the package-level names, chosen for the runs. *)
#[local] Instance package : Package := {|
  const_baseUrl := "http://127.0.0.1:8080";
  const_userAgent := "zerogate-go";
  http_DefaultClient := 1%positive
|}.

(** A state with no client yet: the default HTTP client sits at address 1
    and answers 200. *)
Definition start : World :=
  mkWorld (fun n => 1700000000 + Z.of_nat n)%Z 0 ∅ {[ 1%positive := Scenario.server_ok ]}
          ∅ ∅ [] [].

Definition settings : list PackageOption :=
  [optBaseURL "http://localhost:8080/public/v1"; optDebug true; optHTTPClient None;
   optBaseURL "http://127.0.0.1:9090"].

(** [New] with options of the package. *)
Definition new_run : outcome loc * World :=
  New Fixture.testApiKey Fixture.testApiSecret (to_Option <$> settings) start.

(** An option that returns an error. *)
Definition failing : Option := Some (fun _ => fail (errorString "unsupported option")).

Definition failing_options : list Option :=
  [BaseURL "http://127.0.0.1:9090"; failing].

Definition failed_run : outcome loc * World :=
  New Fixture.testApiKey Fixture.testApiSecret failing_options start.

(** [New] without options, then a GET by the client it made. *)
Definition made_run : outcome loc * World :=
  New Fixture.testApiKey Fixture.testApiSecret [] start.
Definition made_get_run : outcome APIResponse * World :=
  get 1%positive ctxLive "/get" ∅ None made_run.2.

(** A method that is not a token. *)
Definition bad_method_run : outcome APIResponse * World :=
  doRequest 1%positive ctxLive "BAD METHOD" "/get" ∅ bodyNil None Scenario.world.

(** A transport that fails. *)
Definition refusing_server : http.Client :=
  http.mkClient (fun _ => err (errorString "connection refused")) 0.
Definition refused_world : World := Fixture.world false EmptyString ∅ ∅ refusing_server.
Definition refused_run : outcome APIResponse * World :=
  get 1%positive ctxLive "/get" ∅ None refused_world.

(** A response whose body breaks off. *)
Definition broken_response : http.Response :=
  http.mkResponse "200 OK" 200 ∅ (mkReader [] (Some (errorString "unexpected EOF"))).
Definition broken_server : http.Client := http.mkClient (fun _ => ok broken_response) 0.
Definition broken_world (dbg : bool) : World :=
  Fixture.world dbg EmptyString ∅ ∅ broken_server.
Definition broken_run (dbg : bool) : outcome APIResponse * World :=
  get 1%positive ctxLive "/get" ∅ None (broken_world dbg).

(** A GET with a query, the endpoint carrying one of its own. *)
Definition paging : gmap string (list string) :=
  {[ "page" := ["2"]; "unused" := [] ]}.
Definition query_run : outcome APIResponse * World :=
  get 1%positive ctxLive "/tenants?page=1" paging None Scenario.world.

(** The same GET as [Scenario.agent_run], with a query and without the
    headers of the caller. *)
Definition agent_query_run : outcome APIResponse * World :=
  get 1%positive ctxLive "/get" paging None Scenario.agent_world.

(** An empty method and a body. *)
Definition empty_method_run : outcome APIResponse * World :=
  doRequest 1%positive ctxLive EmptyString "/get" ∅ (bodySlice Scenario.post_body) None
    Scenario.world.

(** A context whose deadline has passed. *)
Definition deadline_exceeded : error := errorString "context deadline exceeded".
Definition timeout_run : outcome APIResponse * World :=
  get 1%positive (ctxDone deadline_exceeded) "/timeout" ∅ None Scenario.world.

(** A client built as a literal, with no HTTP client and no header map. *)
Definition bare_client : Client :=
  mkClient 0 Fixture.testApiKey Fixture.testApiSecret "http://127.0.0.1:8080" false
           EmptyString None None.
Definition bare_world : World :=
  mkWorld (fun n => 1700000000 + Z.of_nat n)%Z 0 {[ 1%positive := bare_client ]} ∅ ∅ ∅ [] [].
Definition bare_run : outcome APIResponse * World :=
  get 1%positive ctxLive "/get" ∅ None bare_world.

(** Debugging is on and the key has an unmatched parenthesis. *)
Definition pattern_client : Client :=
  mkClient 0 "key(" Fixture.testApiSecret "http://127.0.0.1:8080" true EmptyString
           (Some 1%positive) (Some 1%positive).
Definition pattern_world : World :=
  mkWorld (fun n => 1700000000 + Z.of_nat n)%Z 0 {[ 1%positive := pattern_client ]}
          {[ 1%positive := Scenario.server_ok ]} {[ 1%positive := ∅ ]} ∅ [] [].
Definition pattern_run : outcome APIResponse * World :=
  get 1%positive ctxLive "/get" ∅ None pattern_world.

(** A POST whose body has no JSON form. *)
Definition unsupported_run : outcome APIResponse * World :=
  post 1%positive ctxLive "/post" ∅ (bodyValue Fixture.vChan) None Scenario.world.

(** [getClient] on the client of the tests. *)
Definition copy_run : outcome loc * World := getClient 1%positive Scenario.world.

End Sample.

(** ** A stand-in for the JSON of the tenant service

    Requests whose texts are made of letters, digits and a few signs are
    rendered, others refused; the envelopes decoded are the ones the runs
    below serve. *)

Module TenantFixture.

(** The values [Create] and [Update] pass as body. *)
Inductive Request :=
| createRequest (request : option TenantCreateRequest.t)
| updateRequest (request : option TenantUpdateRequest.t).

Definition quoted (s : string) : string := Fixture.dq +:+ s +:+ Fixture.dq.

Definition member (name value : string) : string := quoted name +:+ ":" +:+ quoted value.

Definition plain (s : string) : bool :=
  forallb Fixture.literal_byte (list_ascii_of_string s).

Definition refused : result (list byte) :=
  err (errorString "json: text outside the stand-in").

(** A nil pointer is rendered as [null]. *)
Definition marshal (v : Request) : result (list byte) :=
  match v with
  | createRequest None | updateRequest None => ok (bytes_of_string "null")
  | createRequest (Some r) =>
      if plain (TenantCreateRequest.Name r) && plain (TenantCreateRequest.Description r)
      then ok (bytes_of_string
                 ("{" +:+ member "name" (TenantCreateRequest.Name r) +:+ "," +:+
                  member "description" (TenantCreateRequest.Description r) +:+ "}"))
      else refused
  | updateRequest (Some r) =>
      if plain (TenantUpdateRequest.Id r) && plain (TenantUpdateRequest.Name r) &&
         plain (TenantUpdateRequest.Description r)
      then ok (bytes_of_string
                 ("{" +:+ member "id" (TenantUpdateRequest.Id r) +:+ "," +:+
                  member "name" (TenantUpdateRequest.Name r) +:+ "," +:+
                  member "description" (TenantUpdateRequest.Description r) +:+ "}"))
      else refused
  end.

#[local] Instance library : Library := {|
  Value := Request;
  json_Marshal := marshal;
  json_Unmarshal := Fixture.unmarshal;
  url_Parse := Fixture.parse;
  Values_Encode := Fixture.encode;
  dump_request := Fixture.render_request;
  dump_response := Fixture.render_response;
  Regexp := list byte;
  regexp_Compile := Fixture.compile;
  Regexp_ReplaceAll := fun p src repl => Fixture.replace_from p repl 0 src
|}.

(** The tenant of the tests. *)
Definition tenant : Tenant.t :=
  Tenant.mk (mkBase "ten_ea87af463d9fc38203690805c1c1fa33" 0 0 (sql.mkNullTime 0 false))
            (mkAuditBase EmptyString EmptyString)
            "Test" "test tenant" "org_7af4b215d3a00a5dc1f5abf3c3f9686c".

Definition tenant_json : string :=
  "{" +:+ member "id" "ten_ea87af463d9fc38203690805c1c1fa33" +:+ "," +:+
  member "name" "Test" +:+ "," +:+ member "description" "test tenant" +:+ "," +:+
  member "organization" "org_7af4b215d3a00a5dc1f5abf3c3f9686c" +:+ "}".

(** An envelope that reports no success and still holds a tenant. *)
Definition tenant_body : string :=
  "{" +:+ quoted "success" +:+ ":false," +:+ quoted "data" +:+ ":" +:+ tenant_json +:+ "}".

Definition tenants_body : string :=
  "{" +:+ quoted "success" +:+ ":true," +:+ quoted "data" +:+ ":[" +:+ tenant_json +:+ "]," +:+
  quoted "total" +:+ ":1}".

Definition malformed {A} : result A :=
  err (errorString "invalid character looking for beginning of value").

Definition unmarshal_tenant (data : list byte)
  : result (SuccessResponse.t (option Tenant.t)) :=
  if String.eqb (string_of_bytes data) tenant_body
  then ok (SuccessResponse.mk false (Some tenant))
  else if String.eqb (string_of_bytes data) "{}"
  then ok (SuccessResponse.mk false None)
  else malformed.

Definition unmarshal_tenants (data : list byte)
  : result (SuccessPagingResponse.t (option Tenant.t)) :=
  if String.eqb (string_of_bytes data) tenants_body
  then ok (SuccessPagingResponse.mk true [Some tenant] 1)
  else if String.eqb (string_of_bytes data) "{}"
  then ok (SuccessPagingResponse.mk false [] 0)
  else malformed.

#[local] Instance codec : Codec := {|
  of_TenantCreateRequest := createRequest;
  of_TenantUpdateRequest := updateRequest;
  json_Unmarshal_Tenant := unmarshal_tenant;
  json_Unmarshal_Tenants := unmarshal_tenants
|}.

Definition tenant_server : http.Client := Fixture.server 200 "200 OK" tenant_body.
Definition tenants_server : http.Client := Fixture.server 200 "200 OK" tenants_body.

Definition tenant_world : World := Fixture.world false EmptyString ∅ ∅ tenant_server.
Definition tenants_world : World := Fixture.world false EmptyString ∅ ∅ tenants_server.

Definition create_request : TenantCreateRequest.t :=
  TenantCreateRequest.mk "Test" "test tenant".

(** The request names one tenant, the call another. *)
Definition update_request : TenantUpdateRequest.t :=
  TenantUpdateRequest.mk "ten_ea87af463d9fc38203690805c1c1fa33" "Test Update"
                         "test tenant update".

Definition create_run : outcome (option Tenant.t) * World :=
  Create (Client_Tenant 1%positive) ctxLive (Some create_request) tenant_world.

(** [Create] with a nil request. *)
Definition create_nil_run : outcome (option Tenant.t) * World :=
  Create (Client_Tenant 1%positive) ctxLive None tenant_world.

Definition update_run : outcome (option Tenant.t) * World :=
  Update (Client_Tenant 1%positive) ctxLive "ten_0000" (Some update_request) tenant_world.

Definition list_run : outcome (list (option Tenant.t) * Z) * World :=
  List (Client_Tenant 1%positive) ctxLive tenants_world.

Definition tenant_response : http.Response :=
  http.mkResponse "200 OK" 200 ∅ (mkReader (bytes_of_string tenant_body) None).
Definition tenants_response : http.Response :=
  http.mkResponse "200 OK" 200 ∅ (mkReader (bytes_of_string tenants_body) None).

End TenantFixture.

Example sha512_abc :
  Hex.EncodeToString (SHA512.Sum512 (bytes_of_string "abc")) =
  "ddaf35a193617abacc417349ae20413112e6fa4e89a97ea20a9eeee64b55d39a2192992a274fc1a836ba3c23a3feebbd454d4423643ce80e2a9ac94fa54ca49f".
Proof. vm_compute. reflexivity. Qed.

Example hmac_rfc4231_case2 :
  Hex.EncodeToString
    (HMAC.mac (bytes_of_string "Jefe") (bytes_of_string "what do ya want for nothing?")) =
  "164b7a7bfcf819e2e395fbe73b56e0a387bd64222e831fd610270cd7ea2505549758bf75c05a994a6d034f65f8f0e6fdcaeab1a34d4a6b4b636e070a38bce737".
Proof. vm_compute. reflexivity. Qed.

Example canonical_key_lower :
  textproto.CanonicalMIMEHeaderKey "content-type" = "Content-Type".
Proof. reflexivity. Qed.

Example canonical_key_space :
  textproto.CanonicalMIMEHeaderKey "content type" = "content type".
Proof. reflexivity. Qed.

Example decimal_examples :
  fmt.decimal 0 = "0" /\ fmt.decimal 1700000000 = "1700000000" /\ fmt.decimal (-42) = "-42".
Proof. repeat split; reflexivity. Qed.

Example hmac_rfc4231_case6 :
  Hex.EncodeToString
    (HMAC.mac (repeat xaa 131)
       (bytes_of_string "Test Using Larger Than Block-Size Key - Hash Key First")) =
  "80b24263c7c1a3ebb71493c1dd7be8b49b46d1f41b4aeec1121b013783f8f3526b56d037e05f2598bd0fd2215d6a1e5295e64f73f63f0aec8b915a985d786598".
Proof. vm_compute. reflexivity. Qed.

(** * Proofs *)

Lemma world_eta w :
  mkWorld (clock w) (ticks w) (clients w) (http_clients w) (header_maps w)
          (readers w) (log_output w) (sent w) = w.
Proof. by destruct w. Qed.

Lemma client_eta cl :
  mkClient (mutex cl) (apiKey cl) (apiSecret cl) (baseUrl cl) (debug cl) (userAgent cl)
           (headers cl) (httpClient cl) = cl.
Proof. by destruct cl. Qed.

Lemma bind_run {A B} (m : M A) (f : A -> M B) w :
  (m ≫= f) w =
  match m w with
  | (Done a, w1) => f a w1
  | (Failed e, w1) => (Failed e, w1)
  | (Panicked msg, w1) => (Panicked msg, w1)
  end.
Proof. reflexivity. Qed.

Lemma ret_run {A} (a : A) w : (mret a : M A) w = (Done a, w).
Proof. reflexivity. Qed.

Lemma modify_run f w : modify f w = (Done tt, f w).
Proof. reflexivity. Qed.

Ltac wsimpl :=
  cbn [clock ticks clients http_clients header_maps readers log_output sent
       set_ticks set_clients set_http_clients set_header_maps set_readers
       set_log_output set_sent fst snd
       http.Method http.URL http.Header http.ReqBody http.ReqHost http.ctx
       set_URL set_Header pending failure
       mutex apiKey apiSecret baseUrl debug userAgent headers httpClient set_mutex] in *.

Lemma config_run c w :
  config c w =
  match clients w !! c with
  | Some cl => (Done (set_mutex (S (mutex cl)) cl), w)
  | None => (Panicked nil_dereference, w)
  end.
Proof.
  unfold config, RLock, RUnlock. rewrite !bind_run. unfold load_client at 1.
  destruct (clients w !! c) as [cl|] eqn:Hc; [|done].
  rewrite modify_run, bind_run. unfold load_client at 1. wsimpl.
  rewrite lookup_insert_eq, !bind_run. unfold load_client. wsimpl.
  rewrite lookup_insert_eq. wsimpl. rewrite modify_run, ret_run. wsimpl.
  rewrite insert_insert_eq.
  rewrite insert_id.
  - by destruct w.
  - rewrite Hc. f_equal. by destruct cl.
Qed.

Lemma fail_run {A} (e : error) w : (fail e : M A) w = (Failed e, w).
Proof. reflexivity. Qed.
Lemma panic_run {A} msg w : (panic msg : M A) w = (Panicked msg, w).
Proof. reflexivity. Qed.
Lemma get_world_run w : get_world w = (Done w, w).
Proof. reflexivity. Qed.
Lemma wrap_run {A} prefix (m : M A) w :
  wrap prefix m w =
  match m w with
  | (Failed e, w') => (Failed (wrapError prefix e), w')
  | r => r
  end.
Proof. reflexivity. Qed.
Lemma bytes_NewReader_run b w :
  bytes_NewReader b w =
  (Done (fresh (dom (readers w))),
   set_readers (<[fresh (dom (readers w)) := mkReader b None]> (readers w)) w).
Proof. reflexivity. Qed.

Ltac run :=
  repeat first
    [ rewrite bind_run | rewrite ret_run | rewrite modify_run | rewrite fail_run
    | rewrite panic_run | rewrite get_world_run | rewrite wrap_run
    | rewrite bytes_NewReader_run | progress wsimpl ].

Section Proofs.
Context `{Library}.

Lemma fresh_reader (w : World) : readers w !! fresh (dom (readers w)) = None.
Proof. apply not_elem_of_dom, is_fresh. Qed.

Lemma materialize_other method body w :
  is_post_or_put method = false →
  materialize method body w = (Done (None, []), w).
Proof.
  intros Hm. unfold materialize. rewrite Hm, andb_false_r. by run.
Qed.

Lemma io_ReadAll_run l rd w :
  readers w !! l = Some rd →
  io_ReadAll (Some l) w =
  (match failure rd with None => Done (pending rd) | Some e => Failed e end,
   set_readers (<[l := mkReader [] (failure rd)]> (readers w)) w).
Proof. intros Hl. unfold io_ReadAll. rewrite Hl. by destruct (failure rd). Qed.

Lemma io_ReadAll_dangling l w :
  readers w !! l = None → io_ReadAll (Some l) w = (Panicked nil_dereference, w).
Proof. intros Hl. unfold io_ReadAll. by rewrite Hl. Qed.

Lemma fresh_ne_insert `{Countable K} {A} (m : gmap K A) `{Infinite K} l x :
  fresh (dom (<[l := x]> m)) ≠ l.
Proof.
  intros Heq. pose proof (is_fresh (dom (<[l := x]> m))) as Hf.
  rewrite Heq in Hf. apply Hf. set_solver.
Qed.

Lemma materialize_spec method body w r w' :
  is_post_or_put method = true →
  materialize method body w = (r, w') →
  w' = set_readers (readers w') w ∧
  match r with
  | Done (reqBody, bodyBytes) =>
      materialized (readers w) body = Some bodyBytes ∧
      ∃ rb, reqBody = Some rb ∧
            readers w' !! rb = Some (mkReader bodyBytes None) ∧
            ∀ r0, body = bodyReader r0 → readers w' !! r0 = Some (mkReader [] None)
  | _ => True
  end.
Proof.
  intros Hm. unfold materialize. rewrite Hm.
  assert (Hfresh : ∀ b w0,
    (wrap "error reading body: " (io_ReadAll (Some (fresh (dom (readers w0)))))
     ≫= λ bodyBytes, bytes_NewReader bodyBytes ≫= λ r1, mret (Some r1, bodyBytes))
      (set_readers (<[fresh (dom (readers w0)) := mkReader b None]> (readers w0)) w0)
    = (r, w') →
    w' = set_readers (readers w') w0 ∧
    match r with
    | Done (reqBody, bodyBytes) =>
        Some b = Some bodyBytes ∧
        ∃ rb, reqBody = Some rb ∧
              readers w' !! rb = Some (mkReader bodyBytes None) ∧
              ∀ r0 : loc, False → readers w' !! r0 = Some (mkReader [] None)
    | _ => True
    end).
  { intros b w0. run. erewrite io_ReadAll_run by (wsimpl; apply lookup_insert_eq).
    run. intros [= <- <-]. wsimpl. split; [by unfold set_readers|]. split; [done|].
    eexists; split; [done|]. split; [by rewrite lookup_insert_eq|done]. }
  destruct body as [|r0|b|v]; cbn [is_nil negb andb]; run.
  - intros Hrun. apply Hfresh in Hrun as [? Hr]. split; [done|].
    destruct r as [[??]|?|?]; [|done..]. destruct Hr as ([= <-] & rb & ? & ? & ?).
    split; [done|]. exists rb. done.
  - destruct (readers w !! r0) as [[b [e|]]|] eqn:Hr.
    + erewrite io_ReadAll_run by done. run. intros [= <- <-]. done.
    + erewrite io_ReadAll_run by done. run. intros [= <- <-]. wsimpl.
      split; [by unfold set_readers|]. split; [by unfold materialized; rewrite Hr|].
      eexists; split; [done|]. split; [by rewrite lookup_insert_eq|].
      intros ? [= <-]. rewrite lookup_insert_ne, lookup_insert_eq; [done|].
      apply fresh_ne_insert.
    + rewrite io_ReadAll_dangling by done. intros [= <- <-]. by destruct w.
  - intros Hrun. apply Hfresh in Hrun as [? Hr]. split; [done|].
    destruct r as [[??]|?|?]; [|done..]. destruct Hr as ([= <-] & rb & ? & ? & ?).
    split; [done|]. exists rb. done.
  - destruct (json_Marshal v) as [b|e] eqn:Hj; run.
    + intros Hrun. apply Hfresh in Hrun as [? Hr]. split; [done|].
      destruct r as [[??]|?|?]; [|done..]. destruct Hr as ([= <-] & rb & ? & ? & ?).
      split; [by unfold materialized; rewrite Hj|]. exists rb. done.
    + intros [= <- <-]. by destruct w.
Qed.

Lemma for_each_assign l dst m0 w :
  header_maps w !! dst = Some m0 →
  for_each l (map_assign dst) w =
  (Done tt, set_header_maps (<[dst := foldl assign m0 l]> (header_maps w)) w).
Proof.
  revert m0 w. induction l as [|kv l IH]; intros m0 w Hdst; cbn [for_each foldl].
  - run. rewrite insert_id by done. by destruct w.
  - run. unfold map_assign at 1. run.
    erewrite IH.
    2:{ wsimpl. apply lookup_insert_eq. }
    wsimpl. rewrite insert_insert_eq. unfold entries. rewrite Hdst. done.
Qed.

Lemma foldl_assign_list l (m0 : gmap string (list string)) :
  NoDup l.*1 → foldl assign m0 l = list_to_map l ∪ m0.
Proof.
  revert m0. induction l as [|[k v] l IH]; intros m0 Hnd; cbn [foldl].
  - by rewrite list_to_map_nil, (left_id_L ∅ (∪)).
  - rewrite fmap_cons in Hnd. apply NoDup_cons in Hnd as [Hk Hnd]. rewrite IH by done.
    rewrite list_to_map_cons. unfold assign; cbn [fst snd].
    apply map_eq. intros i. rewrite !lookup_union.
    destruct (decide (k = i)) as [->|Hne].
    + rewrite !lookup_insert_eq.
      rewrite (not_elem_of_list_to_map_1 l i) by done. by destruct (m0 !! i).
    + rewrite !lookup_insert_ne by done. done.
Qed.

Lemma foldl_assign_map (src m0 : gmap string (list string)) :
  foldl assign m0 (map_to_list src) = src ∪ m0.
Proof.
  rewrite foldl_assign_list by apply NoDup_fst_map_to_list.
  by rewrite list_to_map_to_list.
Qed.

(** The order in which [range] yields the entries does not matter. *)
Lemma foldl_assign_any_order l (src m0 : gmap string (list string)) :
  l ≡ₚ map_to_list src → foldl assign m0 l = src ∪ m0.
Proof.
  intros Hp. rewrite foldl_assign_list.
  - rewrite (list_to_map_proper l (map_to_list src)); [by rewrite list_to_map_to_list| |done].
    rewrite Hp. apply NoDup_fst_map_to_list.
  - rewrite Hp. apply NoDup_fst_map_to_list.
Qed.

Lemma range_assign_run src dst m0 w :
  header_maps w !! dst = Some m0 →
  range_assign src dst w =
  (Done tt,
   set_header_maps (<[dst := entries (header_maps w) src ∪ m0]> (header_maps w)) w).
Proof.
  intros Hdst. unfold range_assign. run.
  erewrite for_each_assign by done. by rewrite foldl_assign_map.
Qed.

Lemma set_header_maps_twice a b w :
  set_header_maps a (set_header_maps b w) = set_header_maps a w.
Proof. reflexivity. Qed.

Lemma time_Now_Unix_run w :
  time_Now_Unix w = (Done (clock w (ticks w)), set_ticks (S (ticks w)) w).
Proof. reflexivity. Qed.

Lemma make_Header_run w :
  make_Header w =
  (Done (fresh (dom (header_maps w))),
   set_header_maps (<[fresh (dom (header_maps w)) := ∅]> (header_maps w)) w).
Proof. reflexivity. Qed.

Lemma Header_Set_run l key value m w :
  header_maps w !! l = Some m →
  Header_Set l key value w =
  (Done tt, set_header_maps (<[l := http.Header_Set m key value]> (header_maps w)) w).
Proof. intros Hl. unfold Header_Set. run. unfold entries. by rewrite Hl. Qed.

Lemma Header_Get_run l key m w :
  header_maps w !! l = Some m →
  Header_Get l key w = (Done (http.Header_Get m key), w).
Proof. intros Hl. unfold Header_Get, entries. by rewrite Hl. Qed.

Lemma entries_insert (hm : gmap loc (gmap string (list string))) h l m :
  entries (<[l := m]> hm) h = if decide (h = Some l) then m else entries hm h.
Proof.
  destruct h as [l0|]; unfold entries.
  - case_decide as Heq.
    + injection Heq as ->. by rewrite lookup_insert_eq.
    + rewrite lookup_insert_ne; [done|congruence].
  - by case_decide.
Qed.

Lemma entries_insert_empty (hm : gmap loc (gmap string (list string))) h l :
  hm !! l = None → entries (<[l := ∅]> hm) h = entries hm h.
Proof.
  intros Hl. rewrite entries_insert. case_decide as Heq; [|done].
  subst h. unfold entries. by rewrite Hl.
Qed.

Lemma fresh_header (hm : gmap loc (gmap string (list string))) :
  hm !! fresh (dom hm) = None.
Proof. apply not_elem_of_dom, is_fresh. Qed.

Lemma build_spec cl ctx method endpoint query hdrs reqBody bodyBytes w r w' :
  build cl ctx method endpoint query hdrs reqBody bodyBytes w = (r, w') →
  w' = set_ticks (S (ticks w)) (set_header_maps (header_maps w') w) ∧
  (∀ l, l ∈ dom (header_maps w) → header_maps w' !! l = header_maps w !! l) ∧
  match r with
  | Done req =>
      ∃ u, url_Parse (baseUrl cl +:+ endpoint) = ok u ∧
           http.Method req = effective_method method ∧
           http.URL req = request_url u query ∧
           http.ReqBody req = reqBody ∧
           http.ReqHost req = removeEmptyPort (url.Host u) ∧
           http.ctx req = ctx ∧
           header_maps w' !! http.Header req =
             Some (effective_headers (entries (header_maps w) (headers cl))
                     (entries (header_maps w) hdrs)
                     (authorization (apiKey cl)
                        (signature (apiSecret cl) req (clock w (ticks w)) method bodyBytes)
                        (clock w (ticks w)))
                     (userAgent cl))
  | _ => True
  end.
Proof.
  unfold build. rewrite bind_run, time_Now_Unix_run, bind_run, wrap_run.
  unfold NewRequestWithContext. fold (effective_method method).
  destruct (validMethod (effective_method method)); cbn [negb].
  2:{ run. intros [= <- <-]. wsimpl. split_and!; [by destruct w|done..]. }
  destruct ctx as [| |e].
  { run. intros [= <- <-]. wsimpl. split_and!; [by destruct w|done..]. }
  all: rewrite bind_run; destruct (url_Parse (baseUrl cl +:+ endpoint)) as [u|e'] eqn:Hu;
    unfold lift_result.
  2,4: run; intros [= <- <-]; wsimpl; split_and!; [by destruct w|done..].
  all: rewrite ret_run, bind_run, make_Header_run, ret_run; wsimpl.
  all: rewrite bind_run, make_Header_run; wsimpl; rewrite set_header_maps_twice.
  all: set (hm := header_maps w).
  all: set (l1 := fresh (dom hm)).
  all: set (l2 := fresh (dom (<[l1:=∅]> hm))).
  all: assert (Hl1 : hm !! l1 = None) by apply fresh_header.
  all: assert (Hl2 : <[l1:=∅]> hm !! l2 = None) by apply fresh_header.
  all: assert (Hl2' : hm !! l2 = None)
    by (apply lookup_insert_None in Hl2; tauto).
  all: rewrite bind_run; erewrite range_assign_run by (wsimpl; apply lookup_insert_eq).
  all: wsimpl; rewrite insert_insert_eq, set_header_maps_twice.
  all: rewrite bind_run; erewrite range_assign_run by (wsimpl; apply lookup_insert_eq).
  all: wsimpl; rewrite insert_insert_eq, set_header_maps_twice.
  all: rewrite (entries_insert_empty (<[l1:=∅]> hm)), (entries_insert_empty hm) by done.
  all: rewrite (right_id_L ∅ (∪)).
  all: set (E1 := entries hm (headers cl)).
  all: assert (HE : entries (<[l2:=E1]> (<[l1:=∅]> hm)) hdrs ∪ E1 = entries hm hdrs ∪ E1)
    by (rewrite entries_insert; case_decide as Heq;
        [ subst hdrs; unfold entries at 1; rewrite Hl2'; cbn [default];
          by rewrite (left_id_L ∅ (∪)), (idemp_L (∪))
        | by rewrite entries_insert_empty ]).
  all: rewrite HE; clear HE.
  all: rewrite bind_run; erewrite Header_Set_run by (wsimpl; apply lookup_insert_eq).
  all: wsimpl; rewrite insert_insert_eq, set_header_maps_twice.
  all: rewrite bind_run.
  all: unfold effective_headers, signature; wsimpl.
  all: destruct (userAgent cl =? EmptyString) eqn:HUA.
  all: try (rewrite ret_run).
  all: try (erewrite Header_Set_run by (wsimpl; apply lookup_insert_eq);
            wsimpl; rewrite insert_insert_eq, set_header_maps_twice).
  all: rewrite bind_run; erewrite Header_Get_run by (wsimpl; apply lookup_insert_eq).
  all: rewrite bind_run.
  all: match goal with |- context [String.eqb ?x EmptyString] => destruct (String.eqb x EmptyString) eqn:HCT end.
  all: try (rewrite ret_run).
  all: try (erewrite Header_Set_run by (wsimpl; apply lookup_insert_eq);
            wsimpl; rewrite insert_insert_eq, set_header_maps_twice).
  all: rewrite ret_run.
  all: intros Hrun; apply pair_equal_spec in Hrun as [<- <-]; wsimpl.
  all: split_and!; [by destruct w| |exists u].
  all: try (intros l Hl; apply elem_of_dom in Hl as [x Hx];
            rewrite !lookup_insert_ne; [done|congruence..]).
  all: rewrite lookup_insert_eq.
  all: unfold request_url; split_and!; try done.
  all: rewrite ?HCT; try done.
Qed.

Lemma set_readers_id w : set_readers (readers w) w = w.
Proof. by destruct w. Qed.

Lemma on_wire_run consume req w b :
  body_of (readers w) req = Some b →
  on_wire consume req w =
  (Done (wire_of w req b),
   if consume then set_readers (drained (readers w) req) w else w).
Proof.
  unfold body_of, on_wire, read_body, wire_of, drained.
  destruct (http.ReqBody req) as [l|].
  - destruct (readers w !! l) as [[bs [e|]]|] eqn:Hl; [done| |done].
    intros [= <-]. run. erewrite io_ReadAll_run by done. run.
    destruct consume; run; [done|].
    change (set_readers (readers w) (set_readers ?a w)) with (set_readers (readers w) w).
    by rewrite set_readers_id.
  - intros [= <-]. run. destruct consume; [|done]. by rewrite set_readers_id.
Qed.

Lemma redact_all_state keys dump w : (redact_all keys dump w).2 = w.
Proof.
  revert dump. induction keys as [|key keys IH]; intros dump; cbn [redact_all]; [done|].
  rewrite bind_run. unfold redact.
  destruct (key =? EmptyString); [rewrite ret_run; apply IH|].
  destruct (regexp_Compile _); [rewrite ret_run; apply IH|done].
Qed.

Lemma trace_request_run cl req w b x w1 :
  body_of (readers w) req = Some b →
  trace_request cl req w = (x, w1) →
  (∃ entry, x = Done tt ∧ w1 = set_log_output (log_output w ++ [entry]) w) ∨
  ((∀ u, x ≠ Done u) ∧ w1 = w).
Proof.
  intros Hb. unfold trace_request, DumpRequestOut.
  rewrite !bind_run. erewrite on_wire_run by done.
  destruct (dump_request (wire_of w req b)) as [dump|e]; unfold lift_result.
  2:{ run. intros [= <- <-]. by right. }
  run. pose proof (redact_all_state [apiKey cl; apiSecret cl] dump w) as Hst.
  destruct (redact_all [apiKey cl; apiSecret cl] dump w) as [[d|e|msg] w2];
    cbn [snd] in Hst; subst w2.
  - unfold log_Printf. run. intros [= <- <-]. left. by eexists.
  - intros [= <- <-]. by right.
  - intros [= <- <-]. by right.
Qed.

Lemma set_clients_id w : set_clients (clients w) w = w.
Proof. by destruct w. Qed.

Lemma getClient_run c w :
  getClient c w =
  match clients w !! c with
  | None => (Panicked nil_dereference, w)
  | Some cl =>
      match httpClient cl ≫= (http_clients w !!.) with
      | None => (Panicked nil_dereference, w)
      | Some hc =>
          (Done (fresh (dom (http_clients w))),
           set_http_clients (<[fresh (dom (http_clients w)) := hc]> (http_clients w)) w)
      end
  end.
Proof.
  unfold getClient, RLock. rewrite !bind_run. unfold load_client at 1.
  destruct (clients w !! c) as [cl|] eqn:Hc; [|done].
  rewrite modify_run. unfold defer. rewrite bind_run. unfold load_client at 1.
  wsimpl. rewrite lookup_insert_eq. run.
  assert (Hunlock : ∀ w0,
    clients w0 = <[c:=set_mutex (S (mutex cl)) cl]> (clients w) →
    RUnlock c w0 = (Done tt, set_clients (clients w) w0)).
  { intros w0 Hw0. unfold RUnlock. rewrite bind_run. unfold load_client.
    rewrite Hw0, lookup_insert_eq. wsimpl. rewrite modify_run, Hw0, insert_insert_eq.
    do 2 f_equal. apply insert_id. rewrite Hc. f_equal. by destruct cl. }
  destruct (httpClient cl ≫= (http_clients w !!.)) as [hc|]; run.
  - rewrite Hunlock by done. reflexivity.
  - rewrite Hunlock by done. f_equal. by destruct w.
Qed.

Lemma Do_run lc hc req w b :
  http_clients w !! lc = Some hc →
  body_of (readers w) req = Some b →
  Do lc req w =
  match http.ctx req with
  | ctxDone e => (Failed (urlError e), w)
  | _ =>
      (match http.Transport hc (wire_of w req b) with
       | ok resp => Done resp
       | err e => Failed e
       end,
       set_sent (sent w ++ [wire_of w req b])
         (set_readers (drained (readers w) req) w))
  end.
Proof.
  intros Hlc Hb. unfold Do. run. rewrite Hlc.
  destruct (http.ctx req); [|  |done].
  all: rewrite bind_run; erewrite on_wire_run by done; run.
  all: unfold lift_result; by destruct (http.Transport _ _).
Qed.

Lemma classify_run resp respBody w w0 :
  classify resp respBody w = ((classify resp respBody w0).1, w).
Proof.
  unfold classify. destruct (_ <=? _)%Z; [|done].
  by destruct (json_Unmarshal respBody).
Qed.

(** What [exchange] does, path by path. *)
Lemma exchange_inv c cl req w r w' b :
  body_of (readers w) req = Some b →
  exchange c cl req w = (r, w') →
  ∃ traced hcs,
    (debug cl = false → traced = []) ∧
    (∀ l, l ∈ dom (http_clients w) → hcs !! l = http_clients w !! l) ∧
    ((w' = set_http_clients hcs (set_log_output (log_output w ++ traced) w) ∧
      ∀ a, r ≠ Done a) ∨
     ∃ clc hc logged,
       clients w !! c = Some clc ∧
       httpClient clc ≫= (http_clients w !!.) = Some hc ∧
       w' = set_sent (sent w ++ [wire_of w req b])
              (set_readers (drained (readers w) req)
                 (set_http_clients hcs
                    (set_log_output (log_output w ++ traced ++ logged) w))) ∧
       match http.Transport hc (wire_of w req b) with
       | err e => logged = [] ∧ r = Failed (wrapError "ZeroGate request failed: " e)
       | ok resp =>
           match failure (http.RespBody resp) with
           | Some e =>
               logged = [] ∧
               r = Failed (if debug cl then e else wrapError "response read failed: " e)
           | None =>
               let respBody := pending (http.RespBody resp) in
               if debug cl
               then match dump_response resp respBody with
                    | err e => logged = [] ∧ r = Failed e
                    | ok dump =>
                        logged = [newline +:+ string_of_bytes dump] ∧
                        r = (classify resp respBody w').1
                    end
               else logged = [] ∧ r = (classify resp respBody w').1
           end
       end).
Proof.
  intros Hb. unfold exchange. rewrite bind_run.
  destruct ((if debug cl then trace_request cl req else mret ()) w) as [x w1] eqn:Htr.
  assert (Htraced : ∃ traced,
    (debug cl = false → traced = []) ∧
    ((x = Done tt ∧ w1 = set_log_output (log_output w ++ traced) w) ∨
     ((∀ u, x ≠ Done u) ∧ w1 = w ∧ traced = []))).
  { destruct (debug cl).
    - eapply trace_request_run in Htr as [(entry & -> & ->)|[? ->]]; [| |done].
      + exists [entry]. split; [done|]. by left.
      + exists []. split; [done|]. by right.
    - injection Htr as <- <-. exists []. split; [done|]. left. split; [done|].
      rewrite app_nil_r. by destruct w. }
  destruct Htraced as (traced & Hdbg & [[-> ->]|(Hx & -> & ->)]).
  2:{ intros Hrun. exists [], (http_clients w). split; [done|]. split; [done|]. left.
      rewrite app_nil_r.
      destruct x as [u| |]; [by destruct (Hx u)|..]; injection Hrun as <- <-;
        (split; [by destruct w|done]). }
  rewrite bind_run, getClient_run. wsimpl.
  destruct (clients w !! c) as [clc|] eqn:Hc.
  2:{ intros [= <- <-]. exists traced, (http_clients w). split; [done|]. split; [done|].
      left. split; [by destruct w|done]. }
  destruct (httpClient clc ≫= (http_clients w !!.)) as [hc|] eqn:Hhc.
  2:{ intros [= <- <-]. exists traced, (http_clients w). split; [done|]. split; [done|].
      left. split; [by destruct w|done]. }
  set (lc := fresh (dom (http_clients w))).
  assert (Hlc : http_clients w !! lc = None) by apply not_elem_of_dom, is_fresh.
  intros Hrun. exists traced, (<[lc := hc]> (http_clients w)). split; [done|].
  split. { intros l [x Hl]%elem_of_dom. rewrite lookup_insert_ne; [done|congruence]. }
  revert Hrun. rewrite bind_run, wrap_run.
  erewrite Do_run; [| wsimpl; apply lookup_insert_eq | wsimpl; done].
  unfold wire_of; wsimpl; fold (wire_of w req b).
  assert (Hnot : ∀ (x : outcome APIResponse) w0,
    (∀ a, x ≠ Done a) →
    (x, set_http_clients (<[lc:=hc]> (http_clients w))
          (set_log_output (log_output w ++ traced) w)) = (r, w0) →
    w0 = set_http_clients (<[lc:=hc]> (http_clients w))
           (set_log_output (log_output w ++ traced) w) ∧ ∀ a, r ≠ Done a).
  { by intros x w0 Hx [= <- <-]. }
  destruct (http.ctx req).
  3:{ intros Hrun. left. eapply Hnot; [|done]. done. }
  all: destruct (http.Transport hc (wire_of w req b)) as [resp|e] eqn:Ht.
  2,4: intros [= <- <-]; right; exists clc, hc, []; rewrite Ht, app_nil_r; done.
  all: intros Hrun; right; exists clc, hc.
  all: rewrite Ht; revert Hrun; rewrite bind_run.
  all: unfold trace_response, DumpResponse, read_response.
  all: destruct (debug cl); destruct (failure (http.RespBody resp)) as [e|] eqn:Hf.
  all: run.
  all: try (intros [= <- <-]; exists []; rewrite app_nil_r; done).
  all: unfold lift_result.
  all: try (destruct (dump_response resp (pending (http.RespBody resp))) as [dump|e]).
  all: run; unfold log_Printf; run.
  all: try (intros [= <- <-]; exists []; rewrite app_nil_r; done).
  all: rewrite ?Hf; run.
  all: erewrite classify_run.
  all: intros [= <- <-]; eexists; split_and!; try done.
  all: rewrite <- ?app_assoc, ?app_nil_r; reflexivity.
Qed.

Lemma materialize_failure method body w r w' :
  materialize method body w = (r, w') →
  (∃ x, r = Done x) ∨ body_failure r.
Proof.
  unfold materialize, body_failure.
  assert (Hread : ∀ l w0 (x : outcome (option loc * list byte)) w1,
    (wrap "error reading body: " (io_ReadAll (Some l))
     ≫= λ bodyBytes, bytes_NewReader bodyBytes ≫= λ r1, mret (Some r1, bodyBytes)) w0
      = (x, w1) →
    (∃ y, x = Done y) ∨
    (∃ e, x = Failed (wrapError "error marshalling body to JSON: " e)) ∨
    (∃ e, x = Failed (wrapError "error reading body: " e)) ∨
    x = Panicked nil_dereference).
  { intros l w0 x w1. run.
    destruct (readers w0 !! l) as [[b [e|]]|] eqn:Hl.
    - erewrite io_ReadAll_run by done. run. intros [= <- <-]. right. right. left. by eexists.
    - erewrite io_ReadAll_run by done. run. intros [= <- <-]. left. by eexists.
    - rewrite io_ReadAll_dangling by done. intros [= <- <-]. by do 3 right. }
  destruct (is_post_or_put method).
  2:{ rewrite andb_false_r. run. intros [= <- <-]. left. by eexists. }
  destruct body as [|r0|b|v]; cbn [is_nil negb andb]; run.
  - apply Hread.
  - apply Hread.
  - apply Hread.
  - destruct (json_Marshal v) as [b|e]; run.
    + apply Hread.
    + intros [= <- <-]. right. left. by eexists.
Qed.

(** A call stops while the body is materialized only for POST and PUT, and
    only on a body that has no bytes to give. *)
Lemma materialize_stops method body w r w' :
  materialize method body w = (r, w') →
  (∀ a, r ≠ Done a) →
  is_post_or_put method = true ∧ materialized (readers w) body = None.
Proof.
  intros Hmat Hx.
  destruct (is_post_or_put method) eqn:Hm.
  2:{ rewrite materialize_other in Hmat by done. injection Hmat as <- _.
      by destruct (Hx (None, [])). }
  split; [done|]. revert Hmat. unfold materialize. rewrite Hm.
  assert (Hfresh : ∀ b w0,
    (wrap "error reading body: " (io_ReadAll (Some (fresh (dom (readers w0)))))
     ≫= λ bodyBytes, bytes_NewReader bodyBytes ≫= λ r1, mret (Some r1, bodyBytes))
      (set_readers (<[fresh (dom (readers w0)) := mkReader b None]> (readers w0)) w0)
    = (r, w') → False).
  { intros b w0. run. erewrite io_ReadAll_run by (wsimpl; apply lookup_insert_eq).
    run. intros [= <- _]. by eapply Hx. }
  destruct body as [|r0|b|v]; cbn [is_nil negb andb materialized]; run.
  - intros Hrun. by apply Hfresh in Hrun.
  - destruct (readers w !! r0) as [[b [e|]]|] eqn:Hr; [done| |done].
    erewrite io_ReadAll_run by done. run. intros [= <- _]. by edestruct Hx.
  - intros Hrun. by apply Hfresh in Hrun.
  - destruct (json_Marshal v) as [b|e]; [|done]. run.
    intros Hrun. by apply Hfresh in Hrun.
Qed.

Lemma body_failure_Failed {A B} e :
  body_failure (A:=A) (Failed e) → body_failure (A:=B) (Failed e).
Proof.
  intros [[e' [= ->]]|[[e' [= ->]]|[=]]]; [left|right; left]; by eexists.
Qed.

Lemma body_failure_Panicked {A B} msg :
  body_failure (A:=A) (Panicked msg) → body_failure (A:=B) (Panicked msg).
Proof. intros [[e' [=]]|[[e' [=]]|[= ->]]]. by do 2 right. Qed.

Lemma frame_compose w wm wb :
  wm = set_readers (readers wm) w →
  wb = set_ticks (S (ticks wm)) (set_header_maps (header_maps wb) wm) →
  wb = set_ticks (S (ticks w)) (set_header_maps (header_maps wb)
         (set_readers (readers wm) w)).
Proof.
  destruct w, wm, wb. unfold set_ticks, set_header_maps, set_readers. cbn.
  congruence.
Qed.

(** The run of [doRequest] up to the exchange. *)
Lemma doRequest_inv c ctx method endpoint query body hdrs w r w' cl :
  clients w !! c = Some cl →
  doRequest c ctx method endpoint query body hdrs w = (r, w') →
  ∃ wb,
    wb = set_ticks (ticks wb) (set_header_maps (header_maps wb)
           (set_readers (readers wb) w)) ∧
    (∀ l, l ∈ dom (header_maps w) → header_maps wb !! l = header_maps w !! l) ∧
    ((w' = wb ∧
      (ticks wb = S (ticks w) ∧
       (is_post_or_put method = true → is_Some (materialized (readers w) body)) ∨
       ticks wb = ticks w ∧ body_failure r ∧
       is_post_or_put method = true ∧ materialized (readers w) body = None) ∧
      ∀ a, r ≠ Done a) ∨
     ∃ req bodyBytes bopt u,
       exchange c (snapshot cl) req wb = (r, w') ∧
       ticks wb = S (ticks w) ∧
       url_Parse (baseUrl cl +:+ endpoint) = ok u ∧
       http.Method req = effective_method method ∧
       http.URL req = request_url u query ∧
       http.ReqHost req = removeEmptyPort (url.Host u) ∧
       http.ctx req = ctx ∧
       header_maps wb !! http.Header req =
         Some (effective_headers (entries (header_maps w) (headers cl))
                 (entries (header_maps w) hdrs)
                 (authorization (apiKey cl)
                    (signature (apiSecret cl) req (clock w (ticks w)) method bodyBytes)
                    (clock w (ticks w)))
                 (userAgent cl)) ∧
       body_of (readers wb) req = Some bopt ∧
       if is_post_or_put method
       then materialized (readers w) body = Some bodyBytes ∧ bopt = Some bodyBytes ∧
            ∀ r0, body = bodyReader r0 → readers wb !! r0 = Some (mkReader [] None)
       else bopt = None ∧ readers wb = readers w).
Proof.
  intros Hc. unfold doRequest. rewrite bind_run, config_run, Hc. fold (snapshot cl).
  rewrite bind_run.
  destruct (materialize method body w) as [x wm] eqn:Hmat.
  pose proof (materialize_failure _ _ _ _ _ Hmat) as Hfail.
  assert (Hm : wm = set_readers (readers wm) w ∧
    ((∀ a, x ≠ Done a) ∨
     ∃ reqBody bodyBytes, x = Done (reqBody, bodyBytes) ∧
       if is_post_or_put method
       then materialized (readers w) body = Some bodyBytes ∧
            (∃ rb, reqBody = Some rb ∧ readers wm !! rb = Some (mkReader bodyBytes None)) ∧
            ∀ r0, body = bodyReader r0 → readers wm !! r0 = Some (mkReader [] None)
       else reqBody = None ∧ wm = w)).
  { destruct (is_post_or_put method) eqn:Hpp.
    - apply materialize_spec in Hmat as [Hfr Hx]; [|done]. split; [done|].
      destruct x as [[reqBody bodyBytes]| |]; [|by left..]. right.
      destruct Hx as (? & rb & ? & ? & ?). exists reqBody, bodyBytes.
      split; [done|]. split; [done|]. split; [by exists rb|done].
    - rewrite materialize_other in Hmat by done. injection Hmat as <- <-.
      split; [by destruct w|]. right. by exists None, []. }
  destruct Hm as [Hwm [Hx|(reqBody & bodyBytes & -> & Hpp)]].
  { intros Hrun. exists wm. split; [by rewrite Hwm|]. split; [by rewrite Hwm|].
    left. destruct Hfail as [[a ->]|Hfail]; [by destruct (Hx a)|].
    assert (Htk : ticks wm = ticks w) by (rewrite Hwm; by wsimpl).
    pose proof (materialize_stops _ _ _ _ _ Hmat Hx) as [Hstop Hnone].
    destruct x as [a| |]; [by destruct (Hx a)|..]; injection Hrun as <- <-.
    all: split; [done|]; split; [right; split; [done|]; split; [|done]|done].
    + by apply (body_failure_Failed (A:=option loc * list byte)).
    + by apply (body_failure_Panicked (A:=option loc * list byte)). }
  rewrite bind_run.
  destruct (build (snapshot cl) ctx method endpoint query hdrs reqBody bodyBytes wm)
    as [y wb] eqn:Hb.
  apply build_spec in Hb as (Hwb & Hold & Hy).
  pose proof (frame_compose _ _ _ Hwm Hwb) as Hwb'.
  assert (Hfr : wb = set_ticks (ticks wb) (set_header_maps (header_maps wb)
                      (set_readers (readers wb) w))).
  { rewrite Hwb' at 1. rewrite Hwb'. wsimpl. reflexivity. }
  assert (Hold' : ∀ l, l ∈ dom (header_maps w) → header_maps wb !! l = header_maps w !! l).
  { intros l Hl. rewrite Hold; rewrite Hwm; wsimpl; done. }
  assert (Ht : ticks wb = S (ticks w)).
  { rewrite Hwb'. wsimpl. done. }
  intros Hrun. exists wb. split; [done|]. split; [done|].
  destruct y as [req| |].
  2,3: left; injection Hrun as <- <-; (split; [done|]); (split; [left|done]);
    (split; [done|]); intros Hm; rewrite Hm in Hpp; destruct Hpp as (-> & _); done.
  right. destruct Hy as (u & Hu & Hmeth & Hurl & Hbody & Hhost & Hctx & Hhdr).
  assert (Hrd : readers wb = readers wm) by (rewrite Hwb'; wsimpl; done).
  assert (Hhm : header_maps wm = header_maps w) by (rewrite Hwm; wsimpl; done).
  assert (Hck : clock wm = clock w ∧ ticks wm = ticks w) by (rewrite Hwm; wsimpl; done).
  destruct Hck as [Hck Htk]. rewrite Hhm, Hck, Htk in Hhdr.
  exists req, bodyBytes.
  destruct (is_post_or_put method) eqn:Hm.
  - destruct Hpp as (Hmat' & (rb & -> & Hrb) & Hstream).
    exists (Some bodyBytes), u. split_and!; try done.
    + unfold body_of. by rewrite Hbody, Hrd, Hrb.
    + intros r0 Hr0. rewrite Hrd. by apply Hstream.
  - destruct Hpp as [-> ->]. exists None, u. split_and!; try done.
    unfold body_of. by rewrite Hbody.
Qed.
End Proofs.

(** ** The request handed to the transport *)

Lemma bytes_of_string_app s t :
  bytes_of_string (s +:+ t) = bytes_of_string s ++ bytes_of_string t.
Proof.
  unfold bytes_of_string, list_byte_of_string.
  induction s as [|a s IH]; [done|].
  change (String a s +:+ t) with (String a (s +:+ t)).
  cbn [list_ascii_of_string map app]. by rewrite IH.
Qed.

Lemma is_post_or_put_effective method :
  is_post_or_put (effective_method method) = is_post_or_put method.
Proof. unfold effective_method. by destruct (String.eqb_spec method EmptyString) as [->|]. Qed.

Lemma hmac_streaming key a b :
  HMAC.Sum (HMAC.Write (HMAC.Write (HMAC.New key) a) b) = HMAC.mac key (a ++ b).
Proof. reflexivity. Qed.

Lemma hmac_one_write key a :
  HMAC.Sum (HMAC.Write (HMAC.New key) a) = HMAC.mac key a.
Proof. reflexivity. Qed.

Lemma signature_sign apiSecret req now method bodyBytes :
  http.Method req = effective_method method →
  signature apiSecret req now method bodyBytes =
  Signer.sign apiSecret (http.Method req) (url.Path (http.URL req)) now bodyBytes.
Proof.
  intros Hm. unfold signature, Signer.sign, Signer.canonical_message.
  rewrite Hm, is_post_or_put_effective, !bytes_of_string_app.
  destruct (is_post_or_put method).
  - by rewrite hmac_streaming, <- !app_assoc.
  - by rewrite hmac_one_write, app_nil_r, <- ?app_assoc.
Qed.

Lemma hex_digit_lowercase n : (n < 16)%N → In (Hex.digit n) Hex.hextable.
Proof.
  intros Hn. unfold Hex.digit.
  apply nth_In. change (length Hex.hextable) with 16%nat. lia.
Qed.

Lemma hex_lowercase src : lowercase_hex (Hex.EncodeToString src).
Proof.
  unfold lowercase_hex. induction src as [|v src IH]; cbn [Hex.EncodeToString list_ascii_of_string].
  - constructor.
  - pose proof (Byte.to_N_bounded v) as Hv.
    constructor; [|constructor; [|exact IH]]; apply hex_digit_lowercase.
    + rewrite N.shiftr_div_pow2. change (2 ^ 4)%N with 16%N.
      apply N.Div0.div_lt_upper_bound. lia.
    + change 15%N with (N.ones 4). rewrite N.land_ones. by apply N.mod_lt.
Qed.

Lemma hex_length src :
  String.length (Hex.EncodeToString src) = (2 * length src)%nat.
Proof.
  induction src as [|v src IH]; [done|].
  cbn [Hex.EncodeToString String.length length]. rewrite IH. lia.
Qed.

Lemma bytes_of_word_length n w : length (SHA512.bytes_of_word n w) = n.
Proof. induction n as [|n IH]; [done|]. cbn [SHA512.bytes_of_word length]. by rewrite IH. Qed.

Lemma Sum512_length msg : length (SHA512.Sum512 msg) = SHA512.Size.
Proof.
  unfold SHA512.Sum512. cbn [flat_map].
  rewrite !length_app, !bytes_of_word_length. reflexivity.
Qed.

(** A signature is the 128 digits of a 512-bit digest. *)
Lemma sign_length secret method urlPath nonce bodyBytes :
  String.length (Signer.sign secret method urlPath nonce bodyBytes) = 128%nat.
Proof.
  unfold Signer.sign, HMAC.mac. by rewrite hex_length, Sum512_length.
Qed.

Lemma not_issued_same_sent (w w' : World) wire :
  sent w' = sent w → ¬ issued w w' wire.
Proof.
  unfold issued. intros -> Heq. apply (f_equal length) in Heq.
  rewrite length_app in Heq. cbn in Heq. lia.
Qed.

Section Wire.

Context `{Library}.

Lemma url_Path_request_url u query : url.Path (request_url u query) = url.Path u.
Proof. reflexivity. Qed.

(** A request that reaches the transport is the one the specification
    describes. *)
Lemma doRequest_wire c ctx method endpoint query body hdrs w r w' cl wire :
  clients w !! c = Some cl →
  doRequest c ctx method endpoint query body hdrs w = (r, w') →
  issued w w' wire →
  ∃ u bodyBytes,
    url_Parse (baseUrl cl +:+ endpoint) = ok u ∧
    ticks w' = S (ticks w) ∧
    wire = http.mkWire (effective_method method) (request_url u query)
             (removeEmptyPort (url.Host u))
             (effective_headers (entries (header_maps w) (headers cl))
                (entries (header_maps w) hdrs)
                (authorization (apiKey cl)
                   (Signer.sign (apiSecret cl) (effective_method method)
                      (url.Path u) (clock w (ticks w)) bodyBytes)
                   (clock w (ticks w)))
                (userAgent cl))
             (if is_post_or_put method then Some bodyBytes else None) ∧
    if is_post_or_put method
    then materialized (readers w) body = Some bodyBytes ∧
         ∀ r0, body = bodyReader r0 → readers w' !! r0 = Some (mkReader [] None)
    else readers w' = readers w.
Proof.
  intros Hc Hrun Hiss.
  apply (doRequest_inv _ _ _ _ _ _ _ _ _ _ _ Hc) in Hrun
    as (wb & Hwb & Hold & [(-> & _ & _)|Hrest]).
  { exfalso. eapply not_issued_same_sent; [|exact Hiss]. rewrite Hwb. by wsimpl. }
  destruct Hrest as (req & bodyBytes & bopt & u & Hex & Htk & Hu & Hmeth & Hurl & Hhost
                     & Hctx & Hhdr & Hbody & Hpp).
  assert (Hsent : sent wb = sent w) by (rewrite Hwb; by wsimpl).
  apply (exchange_inv _ _ _ _ _ _ _ Hbody) in Hex
    as (traced & hcs & _ & _ & [[-> _]|Hsnd]).
  { exfalso. eapply not_issued_same_sent; [|exact Hiss]. by wsimpl. }
  destruct Hsnd as (clc & hc & logged & _ & _ & -> & _).
  unfold issued in Hiss. wsimpl. rewrite Hsent in Hiss.
  apply app_inj_tail in Hiss as [_ <-].
  exists u, bodyBytes. split; [done|]. split; [done|]. split.
  - unfold wire_of, entries. rewrite Hhdr, Hmeth, Hurl, Hhost. cbn [default].
    rewrite signature_sign by done. rewrite Hmeth, Hurl, url_Path_request_url.
    f_equal. by destruct (is_post_or_put method); destruct Hpp as [? ?]; [destruct H1|].
  - destruct (is_post_or_put method).
    + destruct Hpp as (Hmat & -> & Hstream). split; [done|].
      intros r0 Hr0. unfold drained.
      destruct (http.ReqBody req) as [rb|]; [|by apply Hstream].
      destruct (decide (rb = r0)) as [->|Hne].
      * by rewrite lookup_insert_eq.
      * rewrite lookup_insert_ne by done. by apply Hstream.
    + destruct Hpp as [-> Hrd]. unfold body_of in Hbody.
      unfold drained. destruct (http.ReqBody req) as [rb|]; [|done].
      by destruct (readers wb !! rb) as [[? [?|]]|].
Qed.

End Wire.

(** ** Header lookups after the merge *)

Lemma canonical_Authorization :
  textproto.CanonicalMIMEHeaderKey "Authorization" = "Authorization".
Proof. reflexivity. Qed.

Lemma canonical_User_Agent :
  textproto.CanonicalMIMEHeaderKey "User-Agent" = "User-Agent".
Proof. reflexivity. Qed.

Lemma canonical_Content_Type :
  textproto.CanonicalMIMEHeaderKey "Content-Type" = "Content-Type".
Proof. reflexivity. Qed.

Lemma Header_Get_first_value (h : gmap string (list string)) key :
  http.Header_Get h key = first_value (h !! textproto.CanonicalMIMEHeaderKey key).
Proof. reflexivity. Qed.

Lemma lookup_merge (supplied defaults : gmap string (list string)) k :
  (supplied ∪ defaults) !! k =
  match supplied !! k with Some v => Some v | None => defaults !! k end.
Proof. rewrite lookup_union. by destruct (supplied !! k), (defaults !! k). Qed.

Ltac lookups :=
  repeat first [ rewrite lookup_insert_eq | rewrite lookup_insert_ne by done ].

Ltac header_keys :=
  unfold effective_headers, http.Header_Set;
  rewrite ?Header_Get_first_value;
  rewrite ?canonical_Authorization, ?canonical_User_Agent, ?canonical_Content_Type.

Lemma effective_headers_Authorization defaults supplied auth ua :
  effective_headers defaults supplied auth ua !! "Authorization" = Some [auth].
Proof.
  header_keys.
  repeat match goal with |- context [if ?b then _ else _] => destruct b end;
    by lookups.
Qed.

Lemma effective_headers_User_Agent defaults supplied auth ua :
  effective_headers defaults supplied auth ua !! "User-Agent" =
  if String.eqb ua EmptyString then (supplied ∪ defaults) !! "User-Agent" else Some [ua].
Proof.
  header_keys.
  repeat match goal with |- context [if ?b then _ else _] => destruct b end;
    by lookups.
Qed.

Lemma effective_headers_Content_Type defaults supplied auth ua :
  effective_headers defaults supplied auth ua !! "Content-Type" =
  if String.eqb (first_value ((supplied ∪ defaults) !! "Content-Type")) EmptyString
  then Some ["application/json"] else (supplied ∪ defaults) !! "Content-Type".
Proof.
  header_keys. destruct (String.eqb ua EmptyString).
  - lookups. destruct (String.eqb _ EmptyString); by lookups.
  - lookups. destruct (String.eqb _ EmptyString); by lookups.
Qed.

Lemma effective_headers_other defaults supplied auth ua k :
  k ≠ "Authorization" → k ≠ "User-Agent" → k ≠ "Content-Type" →
  effective_headers defaults supplied auth ua !! k = (supplied ∪ defaults) !! k.
Proof.
  intros H1 H2 H3. header_keys.
  repeat match goal with |- context [if ?b then _ else _] => destruct b end;
    by lookups.
Qed.

(** * Properties of the request pipeline *)

Section Properties.

Context `{Library}.

(** The [Authorization] entry of a request handed to the transport. *)
Lemma issued_authorization c ctx method endpoint query body hdrs w r w' cl wire :
  clients w !! c = Some cl →
  doRequest c ctx method endpoint query body hdrs w = (r, w') →
  issued w w' wire →
  ticks w' = S (ticks w) ∧
  http.wHeader wire !! "Authorization" =
    Some [authorization (apiKey cl)
            (Signer.sign (apiSecret cl) (http.wMethod wire) (url.Path (http.wURL wire))
               (clock w (ticks w)) (default [] (http.wBody wire)))
            (clock w (ticks w))].
Proof.
  intros Hc Hrun Hiss.
  destruct (doRequest_wire _ _ _ _ _ _ _ _ _ _ _ _ Hc Hrun Hiss)
    as (u & bodyBytes & _ & Htk & -> & _).
  split; [done|]. cbn [http.wHeader http.wMethod http.wURL http.wBody].
  rewrite url_Path_request_url, effective_headers_Authorization.
  do 3 f_equal. unfold Signer.sign, Signer.canonical_message.
  rewrite is_post_or_put_effective. by destruct (is_post_or_put method).
Qed.

(** The body a request handed to the transport carries: the materialized
    bytes for POST and PUT, none for another method. *)
Lemma issued_body c ctx method endpoint query body hdrs w r w' cl wire :
  clients w !! c = Some cl →
  doRequest c ctx method endpoint query body hdrs w = (r, w') →
  issued w w' wire →
  http.wBody wire =
    if is_post_or_put (http.wMethod wire) then materialized (readers w) body else None.
Proof.
  intros Hc Hrun Hiss.
  destruct (doRequest_wire _ _ _ _ _ _ _ _ _ _ _ _ Hc Hrun Hiss)
    as (u & bodyBytes & _ & _ & -> & Hbody).
  cbn [http.wMethod http.wBody]. rewrite is_post_or_put_effective.
  destruct (is_post_or_put method); [|done]. by destruct Hbody as [-> _].
Qed.

(** C1. For every request [doRequest] hands to the transport, with secret
    [s], method [m], URL path [p], nonce [n] (the timestamp read during the
    call) and materialized body bytes [b], the [Authorization] header is the
    text [APIKey=<key>, Signature=<signature>, Nonce=<decimal n>] whose
    Signature field is the lowercase hexadecimal encoding of HMAC-SHA512
    keyed by [s] over [m ++ p ++ decimal n], with [b] appended if and only
    if [m] is POST or PUT; the body the request carries is [b] for POST and
    PUT and none otherwise. *)
Theorem doRequest_signature c ctx method endpoint query body hdrs w r w' cl wire :
  clients w !! c = Some cl →
  doRequest c ctx method endpoint query body hdrs w = (r, w') →
  issued w w' wire →
  let s := bytes_of_string (apiSecret cl) in
  let m := http.wMethod wire in
  let p := url.Path (http.wURL wire) in
  let n := clock w (ticks w) in
  let b := default [] (materialized (readers w) body) in
  let signed :=
    Hex.EncodeToString
      (HMAC.mac s
         (bytes_of_string m ++ bytes_of_string p ++ bytes_of_string (fmt.decimal n) ++
          (if is_post_or_put m then b else []))) in
  http.wHeader wire !! "Authorization" =
    Some ["APIKey=" +:+ apiKey cl +:+ ", Signature=" +:+ signed +:+
          ", Nonce=" +:+ fmt.decimal n] ∧
  lowercase_hex signed ∧
  http.wBody wire = (if is_post_or_put m then materialized (readers w) body else None).
Proof.
  intros Hc Hrun Hiss s m p n b signed.
  destruct (issued_authorization _ _ _ _ _ _ _ _ _ _ _ _ Hc Hrun Hiss) as [_ Hauth].
  pose proof (issued_body _ _ _ _ _ _ _ _ _ _ _ _ Hc Hrun Hiss) as Hb.
  split; [|split; [apply hex_lowercase|exact Hb]].
  rewrite Hauth. unfold authorization, Signer.sign, Signer.canonical_message.
  subst s m p n b signed. rewrite Hb.
  by destruct (is_post_or_put (http.wMethod wire)).
Qed.

(** A call reads the clock exactly once, unless it stops with the error of
    materializing the body of a POST or PUT, which is returned before the
    clock is read and before anything is sent. *)
Lemma doRequest_clock_reads c ctx method endpoint query body hdrs w r w' cl :
  clients w !! c = Some cl →
  doRequest c ctx method endpoint query body hdrs w = (r, w') →
  ticks w' = S (ticks w) ∧
  (is_post_or_put method = true → is_Some (materialized (readers w) body)) ∨
  ticks w' = ticks w ∧ sent w' = sent w ∧ body_failure r ∧
  is_post_or_put method = true ∧ materialized (readers w) body = None.
Proof.
  intros Hc Hrun.
  destruct (doRequest_inv _ _ _ _ _ _ _ _ _ _ _ Hc Hrun)
    as (wb & Hwb & _ & [(-> & Hticks & _)|Hrest]).
  { destruct Hticks as [?|(? & ? & ? & ?)]; [by left|right].
    split; [done|]. split; [|done]. rewrite Hwb. by wsimpl. }
  destruct Hrest as (req & bodyBytes & bopt & u & Hex & Htk & _ & _ & _ & _ & _ & _
                     & Hbody & Hpp).
  left. split.
  - apply (exchange_inv _ _ _ _ _ _ _ Hbody) in Hex
      as (traced & hcs & _ & _ & [[-> _]|(? & ? & ? & _ & _ & -> & _)]);
      by wsimpl.
  - intros Hm. rewrite Hm in Hpp. destruct Hpp as (-> & _). done.
Qed.

(** A call that returns a response handed a request to the transport. *)
Lemma doRequest_Done_issued c ctx method endpoint query body hdrs w a w' cl :
  clients w !! c = Some cl →
  doRequest c ctx method endpoint query body hdrs w = (Done a, w') →
  ∃ wire, issued w w' wire.
Proof.
  intros Hc Hrun.
  destruct (doRequest_inv _ _ _ _ _ _ _ _ _ _ _ Hc Hrun)
    as (wb & Hwb & _ & [(_ & _ & Hnot)|Hrest]); [by destruct (Hnot a)|].
  destruct Hrest as (req & bodyBytes & bopt & u & Hex & _ & _ & _ & _ & _ & _ & _
                     & Hbody & _).
  assert (Hsent : sent wb = sent w) by (rewrite Hwb; by wsimpl).
  apply (exchange_inv _ _ _ _ _ _ _ Hbody) in Hex
    as (traced & hcs & _ & _ & [[_ Hnot]|(? & ? & ? & _ & _ & -> & _)]);
    [by destruct (Hnot a)|].
  eexists. unfold issued. wsimpl. by rewrite Hsent.
Qed.

(** C2, amended. The timestamp is read exactly once on every call but the
    ones that stop while the body of a POST or PUT is turned into bytes (the
    error of [json.Marshal] or of the stream, lines 160-175): those return
    before line 180 and do not read it at all, and send nothing.  A call
    that returns a response has handed a request to the transport, and the
    [Authorization] value of every request handed over is exactly
    [APIKey=<key>, Signature=<hex>, Nonce=<decimal>], in this order and
    separated by a comma and a space, the nonce of the [Nonce] field being
    the one timestamp of the call, which is also the one inside the signed
    message. *)
Theorem doRequest_authorization_format c ctx method endpoint query body hdrs w r w' cl :
  clients w !! c = Some cl →
  doRequest c ctx method endpoint query body hdrs w = (r, w') →
  (is_post_or_put method = false ∨ is_Some (materialized (readers w) body) →
   timestamp_read_once w w') ∧
  (is_post_or_put method = true ∧ materialized (readers w) body = None →
   ticks w' = ticks w ∧ sent w' = sent w ∧ body_failure r) ∧
  (∀ a, r = Done a → ∃ wire, issued w w' wire) ∧
  ∀ wire, issued w w' wire →
    timestamp_read_once w w' ∧
    ∃ signed,
      http.wHeader wire !! "Authorization" =
        Some ["APIKey=" +:+ apiKey cl +:+ ", Signature=" +:+ signed +:+
              ", Nonce=" +:+ fmt.decimal (clock w (ticks w))] ∧
      lowercase_hex signed ∧
      signed = Signer.sign (apiSecret cl) (http.wMethod wire)
                 (url.Path (http.wURL wire)) (clock w (ticks w))
                 (default [] (http.wBody wire)).
Proof.
  intros Hc Hrun. unfold timestamp_read_once. split_and!.
  - intros Hok.
    destruct (doRequest_clock_reads _ _ _ _ _ _ _ _ _ _ _ Hc Hrun)
      as [[? _]|(_ & _ & _ & Hm & Hnone)]; [done|].
    rewrite Hm, Hnone in Hok. by destruct Hok as [?|[? ?]].
  - intros [Hm Hnone].
    destruct (doRequest_clock_reads _ _ _ _ _ _ _ _ _ _ _ Hc Hrun)
      as [[_ Hsome]|(? & ? & ? & _)]; [|done].
    specialize (Hsome Hm). rewrite Hnone in Hsome. by destruct Hsome.
  - intros a ->. by eapply doRequest_Done_issued.
  - intros wire Hiss.
    destruct (issued_authorization _ _ _ _ _ _ _ _ _ _ _ _ Hc Hrun Hiss) as [Htk Hauth].
    split; [done|].
    eexists. split; [exact Hauth|]. split; [apply hex_lowercase|reflexivity].
Qed.

(** C3. For POST and PUT, whatever form the body takes, it is turned into
    one byte sequence once; the bytes written into the HMAC after the
    message are the bytes the request carries, and a stream passed as body
    is left drained. *)
Theorem doRequest_body_signed_is_body_sent
    c ctx method endpoint query body hdrs w r w' cl wire :
  clients w !! c = Some cl →
  is_post_or_put method = true →
  doRequest c ctx method endpoint query body hdrs w = (r, w') →
  issued w w' wire →
  ∃ bodyBytes,
    materialized (readers w) body = Some bodyBytes ∧
    http.wBody wire = Some bodyBytes ∧
    http.wHeader wire !! "Authorization" =
      Some [authorization (apiKey cl)
              (Hex.EncodeToString
                 (HMAC.Sum
                    (HMAC.Write
                       (HMAC.Write (HMAC.New (bytes_of_string (apiSecret cl)))
                          (bytes_of_string
                             (http.wMethod wire +:+ url.Path (http.wURL wire) +:+
                              fmt.decimal (clock w (ticks w)))))
                       bodyBytes)))
              (clock w (ticks w))] ∧
    ∀ r0, body = bodyReader r0 → readers w' !! r0 = Some (mkReader [] None).
Proof.
  intros Hc Hpp Hrun Hiss.
  destruct (doRequest_wire _ _ _ _ _ _ _ _ _ _ _ _ Hc Hrun Hiss)
    as (u & bodyBytes & _ & _ & -> & Hbody).
  rewrite Hpp in Hbody |- *. destruct Hbody as [Hmat Hstream].
  exists bodyBytes. split; [done|]. split; [done|]. split; [|done].
  cbn [http.wHeader http.wMethod http.wURL http.wBody].
  rewrite url_Path_request_url, effective_headers_Authorization.
  do 3 f_equal. unfold Signer.sign, Signer.canonical_message.
  rewrite is_post_or_put_effective, Hpp, hmac_streaming, !bytes_of_string_app.
  by rewrite <- !app_assoc.
Qed.

(** C6. For GET and DELETE no body bytes enter the signed message and the
    request carries no body, whatever body the caller passed; the signature
    covers method, path and nonce only (and a stream passed as body is not
    read). *)
Theorem doRequest_get_delete_without_body
    c ctx method endpoint query body hdrs w r w' cl wire :
  clients w !! c = Some cl →
  method = http.MethodGet ∨ method = http.MethodDelete →
  doRequest c ctx method endpoint query body hdrs w = (r, w') →
  issued w w' wire →
  http.wBody wire = None ∧
  http.wHeader wire !! "Authorization" =
    Some [authorization (apiKey cl)
            (Hex.EncodeToString
               (HMAC.mac (bytes_of_string (apiSecret cl))
                  (bytes_of_string
                     (method +:+ url.Path (http.wURL wire) +:+
                      fmt.decimal (clock w (ticks w))))))
            (clock w (ticks w))] ∧
  readers w' = readers w.
Proof.
  intros Hc Hm Hrun Hiss.
  assert (Hpp : is_post_or_put method = false) by (by destruct Hm as [-> | ->]).
  assert (Heff : effective_method method = method) by (by destruct Hm as [-> | ->]).
  destruct (doRequest_wire _ _ _ _ _ _ _ _ _ _ _ _ Hc Hrun Hiss)
    as (u & bodyBytes & _ & _ & -> & Hbody).
  rewrite Hpp in Hbody |- *. split; [done|]. split; [|done].
  cbn [http.wHeader http.wMethod http.wURL http.wBody].
  rewrite url_Path_request_url, effective_headers_Authorization, Heff.
  do 3 f_equal. unfold Signer.sign, Signer.canonical_message.
  rewrite Hpp, !bytes_of_string_app, app_nil_r. by rewrite <- ?app_assoc.
Qed.

(** C7. For POST and PUT with a nil body, the body is the two bytes [{}]:
    they are what the signed message ends with and what the request
    carries. *)
Theorem doRequest_nil_body_is_empty_object
    c ctx method endpoint query hdrs w r w' cl wire :
  clients w !! c = Some cl →
  method = http.MethodPost ∨ method = http.MethodPut →
  doRequest c ctx method endpoint query bodyNil hdrs w = (r, w') →
  issued w w' wire →
  http.wBody wire = Some (bytes_of_string "{}") ∧
  length (bytes_of_string "{}") = 2%nat ∧
  http.wHeader wire !! "Authorization" =
    Some [authorization (apiKey cl)
            (Hex.EncodeToString
               (HMAC.mac (bytes_of_string (apiSecret cl))
                  (bytes_of_string
                     (method +:+ url.Path (http.wURL wire) +:+
                      fmt.decimal (clock w (ticks w))) ++
                   bytes_of_string "{}")))
            (clock w (ticks w))].
Proof.
  intros Hc Hm Hrun Hiss.
  assert (Hpp : is_post_or_put method = true) by (by destruct Hm as [-> | ->]).
  assert (Heff : effective_method method = method) by (by destruct Hm as [-> | ->]).
  destruct (doRequest_wire _ _ _ _ _ _ _ _ _ _ _ _ Hc Hrun Hiss)
    as (u & bodyBytes & _ & _ & -> & Hbody).
  rewrite Hpp in Hbody |- *. destruct Hbody as [[= <-] _].
  split; [done|]. split; [done|].
  cbn [http.wHeader http.wMethod http.wURL http.wBody].
  rewrite url_Path_request_url, effective_headers_Authorization, Heff.
  do 3 f_equal. unfold Signer.sign, Signer.canonical_message.
  rewrite Hpp, !bytes_of_string_app. by rewrite <- ?app_assoc.
Qed.

(** C9, amended. The headers of the request are the client's defaults
    overlaid by the supplied headers, the supplied entry winning on a key
    both have; [Content-Type] is set to [application/json] exactly when the
    merge holds no non-empty [Content-Type]; and when the client has a user
    agent configured, [User-Agent] is set to it, whatever the merge
    held. *)
Theorem doRequest_effective_headers c ctx method endpoint query body hdrs w r w' cl wire :
  clients w !! c = Some cl →
  doRequest c ctx method endpoint query body hdrs w = (r, w') →
  issued w w' wire →
  let defaults := entries (header_maps w) (headers cl) in
  let supplied := entries (header_maps w) hdrs in
  let merged k :=
    match supplied !! k with Some v => Some v | None => defaults !! k end in
  (∀ k, k ≠ "Authorization" → k ≠ "User-Agent" → k ≠ "Content-Type" →
        http.wHeader wire !! k = merged k) ∧
  http.wHeader wire !! "Content-Type" =
    (if String.eqb (first_value (merged "Content-Type")) EmptyString
     then Some ["application/json"] else merged "Content-Type") ∧
  http.wHeader wire !! "User-Agent" =
    (if String.eqb (userAgent cl) EmptyString then merged "User-Agent"
     else Some [userAgent cl]).
Proof.
  intros Hc Hrun Hiss defaults supplied merged.
  destruct (doRequest_wire _ _ _ _ _ _ _ _ _ _ _ _ Hc Hrun Hiss)
    as (u & bodyBytes & _ & _ & -> & _).
  cbn [http.wHeader]. subst merged. cbn beta.
  rewrite <- !lookup_merge. split_and!.
  - intros k H1 H2 H3. rewrite <- lookup_merge. by apply effective_headers_other.
  - apply effective_headers_Content_Type.
  - apply effective_headers_User_Agent.
Qed.

(** C10. A call leaves the client's configuration as it found it: every
    [Client] object, every header map and every [http.Client] that existed
    before the call is unchanged after it, whatever the outcome. *)
Theorem doRequest_preserves_configuration c ctx method endpoint query body hdrs w r w' :
  doRequest c ctx method endpoint query body hdrs w = (r, w') →
  clients w' = clients w ∧
  (∀ l h, header_maps w !! l = Some h → header_maps w' !! l = Some h) ∧
  (∀ l hc, http_clients w !! l = Some hc → http_clients w' !! l = Some hc).
Proof.
  intros Hrun. destruct (clients w !! c) as [cl|] eqn:Hc.
  2:{ unfold doRequest in Hrun. rewrite bind_run, config_run, Hc in Hrun.
      by injection Hrun as <- <-. }
  destruct (doRequest_inv _ _ _ _ _ _ _ _ _ _ _ Hc Hrun) as (wb & Hwb & Hold & Hrest).
  assert (Hcl : clients wb = clients w) by (rewrite Hwb; by wsimpl).
  assert (Hhc : http_clients wb = http_clients w) by (rewrite Hwb; by wsimpl).
  assert (Hhm : ∀ l h, header_maps w !! l = Some h → header_maps wb !! l = Some h).
  { intros l h Hl. rewrite Hold; [done|]. by apply elem_of_dom. }
  destruct Hrest as [(-> & _ & _)|Hrest].
  { by rewrite Hhc. }
  destruct Hrest as (req & bodyBytes & bopt & u & Hex & _ & _ & _ & _ & _ & _ & _
                     & Hbody & _).
  apply (exchange_inv _ _ _ _ _ _ _ Hbody) in Hex
    as (traced & hcs & _ & Hhcs & [[-> _]|(? & ? & ? & _ & _ & -> & _)]); wsimpl.
  all: split; [done|]; split; [done|].
  all: intros l hc Hl; rewrite Hhcs; rewrite Hhc; [done|by apply elem_of_dom].
Qed.

(** C5. Once the exchange is complete (the transport answered and the
    answer could be read, and rendered when debugging): below 400 the
    result is the [APIResponse] with the raw body, status line, status code
    and headers, and no error; from 400 on the body is parsed as the error
    envelope, a parsed envelope is returned as an [Error] with the status
    code, and a parse failure is returned itself, wrapped, not replaced by
    an [Error]. *)
Theorem doRequest_classifies_response
    c ctx method endpoint query body hdrs w r w' cl hc wire resp respBody :
  clients w !! c = Some cl →
  httpClient cl ≫= (http_clients w !!.) = Some hc →
  doRequest c ctx method endpoint query body hdrs w = (r, w') →
  issued w w' wire →
  http.Transport hc wire = ok resp →
  http.RespBody resp = mkReader respBody None →
  (debug cl = true → ∃ dump, dump_response resp respBody = ok dump) →
  ((http.RespStatusCode resp < 400)%Z →
     r = Done (mkAPIResponse respBody (http.RespStatus resp)
                 (http.RespStatusCode resp) (http.RespHeader resp))) ∧
  ((400 ≤ http.RespStatusCode resp)%Z →
     match json_Unmarshal respBody with
     | ok envelope =>
         r = Failed (apiError (Error.mk envelope (http.RespStatusCode resp)))
     | err e =>
         r = Failed (wrapError "failed to unmarshal response body: " e) ∧
         In e (chain (wrapError "failed to unmarshal response body: " e))
     end).
Proof.
  intros Hc Hhc Hrun Hiss Ht Hrb Hdump.
  apply (doRequest_inv _ _ _ _ _ _ _ _ _ _ _ Hc) in Hrun
    as (wb & Hwb & _ & [(-> & _ & _)|Hrest]).
  { exfalso. eapply not_issued_same_sent; [|exact Hiss]. rewrite Hwb. by wsimpl. }
  destruct Hrest as (req & bodyBytes & bopt & u & Hex & _ & _ & _ & _ & _ & _ & _
                     & Hbody & _).
  assert (Hsent : sent wb = sent w) by (rewrite Hwb; by wsimpl).
  assert (Hcl : clients wb = clients w) by (rewrite Hwb; by wsimpl).
  assert (Hhcs : http_clients wb = http_clients w) by (rewrite Hwb; by wsimpl).
  apply (exchange_inv _ _ _ _ _ _ _ Hbody) in Hex
    as (traced & hcs & _ & _ & [[-> _]|Hsnd]).
  { exfalso. eapply not_issued_same_sent; [|exact Hiss]. by wsimpl. }
  destruct Hsnd as (clc & hc' & logged & Hclc & Hhc' & -> & Hres).
  assert (clc = cl) as -> by congruence.
  rewrite Hhcs in Hhc'. assert (hc' = hc) as -> by congruence.
  unfold issued in Hiss. wsimpl. rewrite Hsent in Hiss.
  apply app_inj_tail in Hiss as [_ Hw]. rewrite Hw, Ht, Hrb in Hres. cbn in Hres.
  change (debug (snapshot cl)) with (debug cl) in Hres.
  assert (Hr : r = (classify resp respBody
                      (set_sent (sent wb ++ [wire])
                         (set_readers (drained (readers wb) req)
                            (set_http_clients hcs
                               (set_log_output (log_output wb ++ traced ++ logged) wb))))).1).
  { destruct (debug cl).
    - destruct Hdump as [dump Hd]; [done|]. rewrite Hd in Hres. by destruct Hres.
    - by destruct Hres. }
  rewrite Hr. unfold classify, http.StatusBadRequest. split; intros Hcode.
  - destruct (Z.leb_spec 400 (http.RespStatusCode resp)); [lia|done].
  - destruct (Z.leb_spec 400 (http.RespStatusCode resp)); [|lia].
    destruct (json_Unmarshal respBody) as [|e]; [done|]. split; [done|].
    right. destruct e; by left.
Qed.

(** The response dump reaches the log as rendered: nothing is replaced in
    it. *)
Lemma doRequest_logs_response_dump
    c ctx method endpoint query body hdrs w r w' cl hc wire resp respBody dump :
  clients w !! c = Some cl →
  httpClient cl ≫= (http_clients w !!.) = Some hc →
  debug cl = true →
  doRequest c ctx method endpoint query body hdrs w = (r, w') →
  issued w w' wire →
  http.Transport hc wire = ok resp →
  http.RespBody resp = mkReader respBody None →
  dump_response resp respBody = ok dump →
  List.last (log_output w') EmptyString = newline +:+ string_of_bytes dump.
Proof.
  intros Hc Hhc Hdbg Hrun Hiss Ht Hrb Hdump.
  apply (doRequest_inv _ _ _ _ _ _ _ _ _ _ _ Hc) in Hrun
    as (wb & Hwb & _ & [(-> & _ & _)|Hrest]).
  { exfalso. eapply not_issued_same_sent; [|exact Hiss]. rewrite Hwb. by wsimpl. }
  destruct Hrest as (req & bodyBytes & bopt & u & Hex & _ & _ & _ & _ & _ & _ & _
                     & Hbody & _).
  assert (Hsent : sent wb = sent w) by (rewrite Hwb; by wsimpl).
  assert (Hcl : clients wb = clients w) by (rewrite Hwb; by wsimpl).
  assert (Hhcs : http_clients wb = http_clients w) by (rewrite Hwb; by wsimpl).
  apply (exchange_inv _ _ _ _ _ _ _ Hbody) in Hex
    as (traced & hcs & _ & _ & [[-> _]|Hsnd]).
  { exfalso. eapply not_issued_same_sent; [|exact Hiss]. by wsimpl. }
  destruct Hsnd as (clc & hc' & logged & Hclc & Hhc' & -> & Hres).
  assert (clc = cl) as -> by congruence.
  rewrite Hhcs in Hhc'. assert (hc' = hc) as -> by congruence.
  unfold issued in Hiss. wsimpl. rewrite Hsent in Hiss.
  apply app_inj_tail in Hiss as [_ Hw]. rewrite Hw, Ht, Hrb in Hres. cbn in Hres.
  change (debug (snapshot cl)) with (debug cl) in Hres.
  rewrite Hdbg, Hdump in Hres. destruct Hres as [-> _].
  by rewrite !app_assoc, last_last.
Qed.

End Properties.

(** ** Redaction of the request dump *)

Lemma has_prefix_spec p s : Fixture.has_prefix p s = true ↔ ∃ t, s = p ++ t.
Proof.
  revert s. induction p as [|a p IH]; intros s; cbn [Fixture.has_prefix].
  - split; [by exists s|done].
  - destruct s as [|b s].
    + split; [done|]. by intros [t [=]].
    + rewrite andb_true_iff, IH. split.
      * intros [Hab [t ->]]. exists t. apply Byte.byte_dec_bl in Hab. by subst.
      * intros [t [= -> ->]]. split; [|by exists t]. by apply Byte.byte_dec_lb.
Qed.

Section Replace.

Variables p r : list byte.

#[local] Abbreviation replace := (Fixture.replace_from p r).

Lemma replace_nil k : replace k [] = [].
Proof. by destruct k. Qed.

Lemma replace_skip k b s : replace (S k) (b :: s) = replace k s.
Proof. reflexivity. Qed.

Lemma replace_scan b s :
  replace 0 (b :: s) =
  if Fixture.has_prefix p (b :: s) then r ++ replace (length p - 1) s
  else b :: replace 0 s.
Proof. reflexivity. Qed.

(** A text sharing no byte with [r] that begins the output begins the
    input, and no occurrence of [p] was replaced on the way. *)
Lemma prefix_of_replace q s t :
  r ≠ [] → disjoint_bytes q r → q ≠ [] →
  replace 0 s = q ++ t →
  (∃ t', s = q ++ t') ∧ Fixture.has_prefix p s = false.
Proof.
  intros Hr. revert s t.
  induction q as [|c q IH]; intros s t Hdis Hq Hout; [done|].
  destruct s as [|b s]; [by rewrite replace_nil in Hout|].
  rewrite replace_scan in Hout.
  destruct (Fixture.has_prefix p (b :: s)) eqn:Hp.
  - destruct r as [|r0 r']; [done|]. injection Hout as -> _.
    destruct (Hdis c); by left.
  - injection Hout as -> Hout. split; [|done].
    destruct q as [|c' q].
    + by exists s.
    + destruct (IH s t) as [[t' ->] _]; [|done|done|by exists t'].
      intros x Hx. apply Hdis. by right.
Qed.

Lemma occurs_after_disjoint q s :
  disjoint_bytes q r → q ≠ [] → occurs q (r ++ s) → occurs q s.
Proof.
  intros Hdis Hq. induction r as [|r0 r' IH] in Hdis |- *; [done|].
  intros (before & after & Heq). destruct before as [|b0 before].
  - destruct q as [|c q]; [done|]. injection Heq as -> _.
    destruct (Hdis c); by left.
  - injection Heq as _ Heq. apply IH.
    + intros x Hx Hin. apply (Hdis x Hx). by right.
    + by exists before, after.
Qed.

(** An occurrence, in the output, of a text sharing no byte with [r] is an
    occurrence in the input, at a place where [p] does not begin. *)
Lemma occurs_in_replace q k s :
  r ≠ [] → disjoint_bytes q r → q ≠ [] →
  occurs q (replace k s) →
  ∃ before rest, s = before ++ rest ∧ (∃ t, rest = q ++ t) ∧
                 Fixture.has_prefix p rest = false.
Proof.
  intros Hr Hdis Hq. revert k.
  induction s as [|b s IH]; intros k Hocc.
  - rewrite replace_nil in Hocc. destruct Hocc as (before & after & Heq).
    destruct before, q; done.
  - destruct k as [|k].
    + rewrite replace_scan in Hocc.
      destruct (Fixture.has_prefix p (b :: s)) eqn:Hp.
      * apply occurs_after_disjoint in Hocc; [|done..].
        destruct (IH _ Hocc) as (before & rest & -> & Hrest).
        by exists (b :: before), rest.
      * destruct Hocc as (before & after & Heq). destruct before as [|b0 before].
        -- assert (Hout : replace 0 (b :: s) = q ++ after)
             by (by rewrite replace_scan, Hp).
           destruct (prefix_of_replace q (b :: s) after Hr Hdis Hq Hout) as [Ht Hnp].
           by exists [], (b :: s).
        -- injection Heq as _ Heq.
           destruct (IH 0%nat) as (before' & rest & -> & Hrest);
             [by exists before, after|].
           by exists (b :: before'), rest.
    + rewrite replace_skip in Hocc.
      destruct (IH _ Hocc) as (before & rest & -> & Hrest).
      by exists (b :: before), rest.
Qed.

(** Replacing every occurrence of [p] leaves none, when [p] shares no byte
    with the replacement. *)
Lemma replace_removes s :
  r ≠ [] → disjoint_bytes p r → p ≠ [] → ¬ occurs p (replace 0 s).
Proof.
  intros Hr Hdis Hp Hocc.
  destruct (occurs_in_replace p 0 s Hr Hdis Hp Hocc)
    as (before & rest & _ & Ht & Hnp).
  apply has_prefix_spec in Ht. congruence.
Qed.

(** Replacing [p] brings in no occurrence of a text that shares no byte with
    the replacement. *)
Lemma replace_keeps_absent q s :
  r ≠ [] → disjoint_bytes q r → q ≠ [] →
  ¬ occurs q s → ¬ occurs q (replace 0 s).
Proof.
  intros Hr Hdis Hq Hs Hocc.
  destruct (occurs_in_replace q 0 s Hr Hdis Hq Hocc)
    as (before & rest & -> & [t ->] & _).
  apply Hs. by exists before, t.
Qed.

End Replace.

Lemma bytes_of_string_nonempty s : s ≠ EmptyString → bytes_of_string s ≠ [].
Proof. by destruct s. Qed.

Lemma disjoint_bytes_check q r :
  forallb (fun b => negb (existsb (Byte.eqb b) r)) q = true → disjoint_bytes q r.
Proof.
  intros Hall b Hb Hr. rewrite forallb_forall in Hall.
  specialize (Hall b Hb). apply negb_true_iff in Hall.
  assert (Hex : existsb (Byte.eqb b) r = true).
  { apply existsb_exists. exists b. split; [done|]. by apply Byte.byte_dec_lb. }
  congruence.
Qed.

Section Redaction.

Context `{Library}.

(** With literal patterns, the loop over [sensitiveKeys] replaces the key,
    then the secret. *)
Lemma redact_all_literal (key secret : string) dump w :
  key ≠ EmptyString → secret ≠ EmptyString →
  literal_pattern key → literal_pattern secret →
  redact_all [key; secret] dump w =
  (Done (Fixture.replace_from (bytes_of_string secret) (bytes_of_string redaction_marker) 0
           (Fixture.replace_from (bytes_of_string key) (bytes_of_string redaction_marker) 0
              dump)),
   w).
Proof.
  intros Hk Hs (rk & Hck & Hrk) (rs & Hcs & Hrs).
  cbn [redact_all]. unfold redact.
  destruct (String.eqb_spec key EmptyString); [done|].
  destruct (String.eqb_spec secret EmptyString); [done|].
  rewrite Hck, Hcs, !bind_run, !ret_run. by rewrite Hrk, Hrs.
Qed.

(** The request dump of lines 224-238: for a key and a secret that are
    literal patterns and share no byte with the marker, what is logged is
    the dump with neither of them left in it. *)
Theorem trace_request_redacts cl req w w' b :
  apiKey cl ≠ EmptyString → apiSecret cl ≠ EmptyString →
  literal_pattern (apiKey cl) → literal_pattern (apiSecret cl) →
  disjoint_bytes (bytes_of_string (apiKey cl)) (bytes_of_string redaction_marker) →
  disjoint_bytes (bytes_of_string (apiSecret cl)) (bytes_of_string redaction_marker) →
  body_of (readers w) req = Some b →
  trace_request cl req w = (Done tt, w') →
  ∃ logged,
    log_output w' = log_output w ++ [newline +:+ string_of_bytes logged] ∧
    ¬ occurs (bytes_of_string (apiKey cl)) logged ∧
    ¬ occurs (bytes_of_string (apiSecret cl)) logged.
Proof.
  intros Hk Hs Hlk Hls Hdk Hds Hb. unfold trace_request, DumpRequestOut.
  rewrite !bind_run. erewrite on_wire_run by done.
  destruct (dump_request (wire_of w req b)) as [dump|e]; unfold lift_result; [|done].
  rewrite ret_run, bind_run, redact_all_literal by done.
  unfold log_Printf. rewrite modify_run. intros [= <-]. eexists. split; [done|].
  assert (Hm : bytes_of_string redaction_marker ≠ []) by done.
  split.
  - apply replace_keeps_absent; [done|done|by apply bytes_of_string_nonempty|].
    apply replace_removes; [done|done|by apply bytes_of_string_nonempty].
  - apply replace_removes; [done|done|by apply bytes_of_string_nonempty].
Qed.

End Redaction.

(** ** [Error.Error] *)

(** C8, amended. The rendered message is [<errorMessage> (<statusCode>)] when
    a message is present and the status code is positive, and
    [unknown error (<statusCode>)] otherwise. *)
Theorem Error_rendering (e : Error.t) :
  (ErrorMessage (Error.Response e) ≠ EmptyString ∧ (0 < Error.StatusCode e)%Z →
   Error.Error e =
     ErrorMessage (Error.Response e) +:+ " (" +:+ fmt.decimal (Error.StatusCode e) +:+ ")") ∧
  (ErrorMessage (Error.Response e) = EmptyString ∨ (Error.StatusCode e ≤ 0)%Z →
   Error.Error e = "unknown error (" +:+ fmt.decimal (Error.StatusCode e) +:+ ")").
Proof.
  unfold Error.Error. split.
  - intros [Hmsg Hcode].
    destruct (String.eqb_spec (ErrorMessage (Error.Response e)) EmptyString); [done|].
    destruct (Z.ltb_spec 0 (Error.StatusCode e)); [done|lia].
  - intros [Hmsg|Hcode].
    + by rewrite Hmsg.
    + destruct (Z.ltb_spec 0 (Error.StatusCode e)); [lia|].
      by rewrite andb_false_r.
Qed.

Lemma Error_rendering_witness :
  (ErrorMessage (Error.Response Scenario.error_not_found) ≠ EmptyString ∧
   (0 < Error.StatusCode Scenario.error_not_found)%Z) ∧
  Error.Error Scenario.error_not_found = "not found (404)".
Proof.
  assert (Hyp : ErrorMessage (Error.Response Scenario.error_not_found) ≠ EmptyString ∧
                (0 < Error.StatusCode Scenario.error_not_found)%Z).
  { split; [discriminate|reflexivity]. }
  split; [exact Hyp|].
  exact (proj1 (Error_rendering Scenario.error_not_found) Hyp).
Defined.

(** C8 as stated fails on an [Error] that has a message and no status code:
    the code renders [unknown error (0)], the claim [boom (0)]. *)
Lemma Error_message_without_status :
  Error.Error Scenario.error_without_status = "unknown error (0)" ∧
  rendered_as_specified Scenario.error_without_status = "boom (0)" ∧
  Error.Error Scenario.error_without_status ≠
    rendered_as_specified Scenario.error_without_status.
Proof. split; [reflexivity|]. split; [reflexivity|]. discriminate. Qed.

(** On the errors [doRequest] builds, whose status code is 400 or more, the
    rendering is the one the specification words. *)
Lemma Error_rendering_of_responses (e : Error.t) :
  (400 ≤ Error.StatusCode e)%Z → Error.Error e = rendered_as_specified e.
Proof.
  intros Hcode. unfold Error.Error, rendered_as_specified.
  destruct (String.eqb _ _); [done|].
  destruct (Z.ltb_spec 0 (Error.StatusCode e)); [done|lia].
Qed.

(** ** Runs on concrete inputs *)

Section Runs.

#[local] Existing Instance Fixture.library.

Ltac compute_it := vm_compute; reflexivity.

Example get_authorization :
  http.wHeader (Scenario.last_wire Scenario.get_run) !! "Authorization" =
  Some ["APIKey=key_5fbea6690113a5b9560bc9def29c91e2, Signature=c0878051d06071ce0a5dab4523c199cc8ae53d14d1d9d0f9b84f391557fbc1e386ee52afad171bae77f5254777d7e5bdd1a90f88090676389922a7da120d9adc, Nonce=1700000000"].
Proof. compute_it. Qed.

Example post_authorization :
  http.wHeader (Scenario.last_wire Scenario.post_run) !! "Authorization" =
  Some ["APIKey=key_5fbea6690113a5b9560bc9def29c91e2, Signature=51fe85aea46e389e6e386607db8f7642bc95e6e5425c646f45c0181cb322da885bb6684ca24714c271fd8afac2944821f48c72fd291f1b4325a5057c3e4f4f42, Nonce=1700000000"].
Proof. compute_it. Qed.

Example put_nil_body_authorization :
  http.wBody (Scenario.last_wire Scenario.put_run) = Some (bytes_of_string "{}").
Proof. compute_it. Qed.

Example not_found_result :
  Scenario.not_found_run.1 = Failed (apiError Scenario.error_not_found).
Proof. compute_it. Qed.

Lemma doRequest_signature_witness :
  clients Scenario.world !! 1%positive = Some Scenario.client ∧
  issued Scenario.world Scenario.post_run.2 (Scenario.last_wire Scenario.post_run) ∧
  http.wHeader (Scenario.last_wire Scenario.post_run) !! "Authorization" =
    Some ["APIKey=" +:+ apiKey Scenario.client +:+ ", Signature=" +:+
          Hex.EncodeToString
            (HMAC.mac (bytes_of_string (apiSecret Scenario.client))
               (bytes_of_string (http.wMethod (Scenario.last_wire Scenario.post_run)) ++
                bytes_of_string
                  (url.Path (http.wURL (Scenario.last_wire Scenario.post_run))) ++
                bytes_of_string
                  (fmt.decimal (clock Scenario.world (ticks Scenario.world))) ++
                (if is_post_or_put (http.wMethod (Scenario.last_wire Scenario.post_run))
                 then default []
                        (materialized (readers Scenario.world)
                           (bodySlice Scenario.post_body))
                 else []))) +:+
          ", Nonce=" +:+ fmt.decimal (clock Scenario.world (ticks Scenario.world))].
Proof.
  assert (Hc : clients Scenario.world !! 1%positive = Some Scenario.client)
    by compute_it.
  assert (Hiss : issued Scenario.world Scenario.post_run.2
                   (Scenario.last_wire Scenario.post_run)) by compute_it.
  split; [exact Hc|]. split; [exact Hiss|].
  exact (proj1 (doRequest_signature 1%positive ctxLive http.MethodPost "/post" ∅
                  (bodySlice Scenario.post_body) None Scenario.world
                  Scenario.post_run.1 Scenario.post_run.2 Scenario.client
                  (Scenario.last_wire Scenario.post_run) Hc
                  (surjective_pairing Scenario.post_run) Hiss)).
Defined.

Lemma doRequest_authorization_format_witness :
  clients Scenario.world !! 1%positive = Some Scenario.client ∧
  issued Scenario.world Scenario.get_run.2 (Scenario.last_wire Scenario.get_run) ∧
  timestamp_read_once Scenario.world Scenario.get_run.2 ∧
  ∃ signed,
    http.wHeader (Scenario.last_wire Scenario.get_run) !! "Authorization" =
      Some ["APIKey=" +:+ apiKey Scenario.client +:+ ", Signature=" +:+ signed +:+
            ", Nonce=" +:+
            fmt.decimal (clock Scenario.world (ticks Scenario.world))] ∧
    lowercase_hex signed ∧
    signed = Signer.sign (apiSecret Scenario.client)
               (http.wMethod (Scenario.last_wire Scenario.get_run))
               (url.Path (http.wURL (Scenario.last_wire Scenario.get_run)))
               (clock Scenario.world (ticks Scenario.world))
               (default [] (http.wBody (Scenario.last_wire Scenario.get_run))).
Proof.
  assert (Hc : clients Scenario.world !! 1%positive = Some Scenario.client)
    by compute_it.
  assert (Hiss : issued Scenario.world Scenario.get_run.2
                   (Scenario.last_wire Scenario.get_run)) by compute_it.
  split; [exact Hc|]. split; [exact Hiss|].
  exact (proj2 (proj2 (proj2
           (doRequest_authorization_format 1%positive ctxLive http.MethodGet "/get" ∅
              bodyNil None Scenario.world Scenario.get_run.1 Scenario.get_run.2
              Scenario.client Hc (surjective_pairing Scenario.get_run))))
           (Scenario.last_wire Scenario.get_run) Hiss).
Defined.

(** C2 as stated fails on a POST whose body has no JSON form: the call
    returns the error of [json.Marshal] at line 162, before the clock is
    read at line 180, so the timestamp is obtained zero times. *)
Lemma timestamp_not_read_when_body_fails :
  clients Scenario.world !! 1%positive = Some Scenario.client ∧
  Sample.unsupported_run.1 =
    Failed (wrapError "error marshalling body to JSON: "
              (errorString "json: unsupported type: chan int")) ∧
  ticks Sample.unsupported_run.2 = ticks Scenario.world ∧
  ¬ timestamp_read_once Scenario.world Sample.unsupported_run.2.
Proof. split_and!; [compute_it..|]. unfold timestamp_read_once. vm_compute. lia. Qed.

Lemma doRequest_body_signed_is_body_sent_witness :
  clients Scenario.world !! 1%positive = Some Scenario.client ∧
  is_post_or_put http.MethodPost = true ∧
  issued Scenario.world Scenario.post_run.2 (Scenario.last_wire Scenario.post_run) ∧
  ∃ bodyBytes,
    materialized (readers Scenario.world) (bodySlice Scenario.post_body) = Some bodyBytes ∧
    http.wBody (Scenario.last_wire Scenario.post_run) = Some bodyBytes ∧
    http.wHeader (Scenario.last_wire Scenario.post_run) !! "Authorization" =
      Some [authorization (apiKey Scenario.client)
              (Hex.EncodeToString
                 (HMAC.Sum
                    (HMAC.Write
                       (HMAC.Write
                          (HMAC.New (bytes_of_string (apiSecret Scenario.client)))
                          (bytes_of_string
                             (http.wMethod (Scenario.last_wire Scenario.post_run) +:+
                              url.Path (http.wURL (Scenario.last_wire Scenario.post_run)) +:+
                              fmt.decimal (clock Scenario.world (ticks Scenario.world)))))
                       bodyBytes)))
              (clock Scenario.world (ticks Scenario.world))] ∧
    ∀ r0, bodySlice Scenario.post_body = bodyReader r0 →
          readers Scenario.post_run.2 !! r0 = Some (mkReader [] None).
Proof.
  assert (Hc : clients Scenario.world !! 1%positive = Some Scenario.client)
    by compute_it.
  assert (Hpp : is_post_or_put http.MethodPost = true) by reflexivity.
  assert (Hiss : issued Scenario.world Scenario.post_run.2
                   (Scenario.last_wire Scenario.post_run)) by compute_it.
  split; [exact Hc|]. split; [exact Hpp|]. split; [exact Hiss|].
  exact (doRequest_body_signed_is_body_sent 1%positive ctxLive http.MethodPost "/post" ∅
           (bodySlice Scenario.post_body) None Scenario.world
           Scenario.post_run.1 Scenario.post_run.2 Scenario.client
           (Scenario.last_wire Scenario.post_run) Hc Hpp
           (surjective_pairing Scenario.post_run) Hiss).
Defined.

Lemma doRequest_get_delete_without_body_witness :
  clients Scenario.world !! 1%positive = Some Scenario.client ∧
  (http.MethodGet = http.MethodGet ∨ http.MethodGet = http.MethodDelete) ∧
  issued Scenario.world Scenario.get_run.2 (Scenario.last_wire Scenario.get_run) ∧
  http.wBody (Scenario.last_wire Scenario.get_run) = None ∧
  http.wHeader (Scenario.last_wire Scenario.get_run) !! "Authorization" =
    Some [authorization (apiKey Scenario.client)
            (Hex.EncodeToString
               (HMAC.mac (bytes_of_string (apiSecret Scenario.client))
                  (bytes_of_string
                     (http.MethodGet +:+
                      url.Path (http.wURL (Scenario.last_wire Scenario.get_run)) +:+
                      fmt.decimal (clock Scenario.world (ticks Scenario.world))))))
            (clock Scenario.world (ticks Scenario.world))] ∧
  readers Scenario.get_run.2 = readers Scenario.world.
Proof.
  assert (Hc : clients Scenario.world !! 1%positive = Some Scenario.client)
    by compute_it.
  assert (Hm : http.MethodGet = http.MethodGet ∨ http.MethodGet = http.MethodDelete)
    by (left; reflexivity).
  assert (Hiss : issued Scenario.world Scenario.get_run.2
                   (Scenario.last_wire Scenario.get_run)) by compute_it.
  split; [exact Hc|]. split; [exact Hm|]. split; [exact Hiss|].
  exact (doRequest_get_delete_without_body 1%positive ctxLive http.MethodGet "/get" ∅
           bodyNil None Scenario.world Scenario.get_run.1 Scenario.get_run.2
           Scenario.client (Scenario.last_wire Scenario.get_run) Hc Hm
           (surjective_pairing Scenario.get_run) Hiss).
Defined.

Lemma doRequest_nil_body_is_empty_object_witness :
  clients Scenario.world !! 1%positive = Some Scenario.client ∧
  (http.MethodPut = http.MethodPost ∨ http.MethodPut = http.MethodPut) ∧
  issued Scenario.world Scenario.put_run.2 (Scenario.last_wire Scenario.put_run) ∧
  http.wBody (Scenario.last_wire Scenario.put_run) = Some (bytes_of_string "{}") ∧
  length (bytes_of_string "{}") = 2%nat ∧
  http.wHeader (Scenario.last_wire Scenario.put_run) !! "Authorization" =
    Some [authorization (apiKey Scenario.client)
            (Hex.EncodeToString
               (HMAC.mac (bytes_of_string (apiSecret Scenario.client))
                  (bytes_of_string
                     (http.MethodPut +:+
                      url.Path (http.wURL (Scenario.last_wire Scenario.put_run)) +:+
                      fmt.decimal (clock Scenario.world (ticks Scenario.world))) ++
                   bytes_of_string "{}")))
            (clock Scenario.world (ticks Scenario.world))].
Proof.
  assert (Hc : clients Scenario.world !! 1%positive = Some Scenario.client)
    by compute_it.
  assert (Hm : http.MethodPut = http.MethodPost ∨ http.MethodPut = http.MethodPut)
    by (right; reflexivity).
  assert (Hiss : issued Scenario.world Scenario.put_run.2
                   (Scenario.last_wire Scenario.put_run)) by compute_it.
  split; [exact Hc|]. split; [exact Hm|]. split; [exact Hiss|].
  exact (doRequest_nil_body_is_empty_object 1%positive ctxLive http.MethodPut "/put" ∅
           None Scenario.world Scenario.put_run.1 Scenario.put_run.2
           Scenario.client (Scenario.last_wire Scenario.put_run) Hc Hm
           (surjective_pairing Scenario.put_run) Hiss).
Defined.

Lemma doRequest_classifies_response_witness :
  clients Scenario.not_found_world !! 1%positive = Some Scenario.client ∧
  issued Scenario.not_found_world Scenario.not_found_run.2
    (Scenario.last_wire Scenario.not_found_run) ∧
  http.Transport Scenario.server_not_found (Scenario.last_wire Scenario.not_found_run) =
    ok Scenario.not_found_response ∧
  (400 ≤ http.RespStatusCode Scenario.not_found_response)%Z ∧
  Scenario.not_found_run.1 =
    Failed (apiError (Error.mk (mkErrorResponse 404 "not found" false) 404)).
Proof.
  assert (Hc : clients Scenario.not_found_world !! 1%positive = Some Scenario.client)
    by compute_it.
  assert (Hhc : httpClient Scenario.client ≫= (http_clients Scenario.not_found_world !!.)
                = Some Scenario.server_not_found) by reflexivity.
  assert (Hiss : issued Scenario.not_found_world Scenario.not_found_run.2
                   (Scenario.last_wire Scenario.not_found_run)) by compute_it.
  assert (Ht : http.Transport Scenario.server_not_found
                 (Scenario.last_wire Scenario.not_found_run)
               = ok Scenario.not_found_response) by reflexivity.
  assert (Hrb : http.RespBody Scenario.not_found_response =
                mkReader (bytes_of_string Fixture.not_found_body) None) by reflexivity.
  assert (Hdump : debug Scenario.client = true →
                  ∃ dump, dump_response Scenario.not_found_response
                            (bytes_of_string Fixture.not_found_body) = ok dump)
    by discriminate.
  assert (Hcode : (400 ≤ http.RespStatusCode Scenario.not_found_response)%Z)
    by (cbn; lia).
  split; [exact Hc|]. split; [exact Hiss|]. split; [exact Ht|]. split; [exact Hcode|].
  exact (proj2 (doRequest_classifies_response 1%positive ctxLive http.MethodGet "/missing"
                  ∅ bodyNil None Scenario.not_found_world
                  Scenario.not_found_run.1 Scenario.not_found_run.2 Scenario.client
                  Scenario.server_not_found (Scenario.last_wire Scenario.not_found_run)
                  Scenario.not_found_response (bytes_of_string Fixture.not_found_body)
                  Hc Hhc (surjective_pairing Scenario.not_found_run) Hiss Ht Hrb Hdump)
               Hcode).
Defined.

Lemma doRequest_effective_headers_witness :
  clients Scenario.agent_world !! 1%positive = Some Scenario.agent_client ∧
  issued Scenario.agent_world Scenario.agent_run.2 (Scenario.last_wire Scenario.agent_run) ∧
  http.wHeader (Scenario.last_wire Scenario.agent_run) !! "Accept" = Some ["text/plain"] ∧
  http.wHeader (Scenario.last_wire Scenario.agent_run) !! "Content-Type" =
    Some ["application/json"] ∧
  http.wHeader (Scenario.last_wire Scenario.agent_run) !! "User-Agent" =
    Some ["zerogate-go"].
Proof.
  assert (Hc : clients Scenario.agent_world !! 1%positive = Some Scenario.agent_client)
    by compute_it.
  assert (Hiss : issued Scenario.agent_world Scenario.agent_run.2
                   (Scenario.last_wire Scenario.agent_run)) by compute_it.
  split; [exact Hc|]. split; [exact Hiss|].
  destruct (doRequest_effective_headers 1%positive ctxLive http.MethodGet "/get" ∅
              bodyNil (Some 2%positive) Scenario.agent_world
              Scenario.agent_run.1 Scenario.agent_run.2 Scenario.agent_client
              (Scenario.last_wire Scenario.agent_run) Hc
              (surjective_pairing Scenario.agent_run) Hiss) as (Hother & Hct & Hua).
  split; [|split].
  - rewrite Hother by discriminate. reflexivity.
  - rewrite Hct. reflexivity.
  - rewrite Hua. reflexivity.
Defined.

(** C9 as stated fails when the client has a user agent configured and the
    merge already holds a [User-Agent] entry: the entry is replaced. *)
Lemma user_agent_replaced_when_present :
  issued Scenario.agent_world Scenario.agent_run.2 (Scenario.last_wire Scenario.agent_run) ∧
  (Scenario.agent_supplied ∪ {[ "Accept" := ["*/*"] ]}) !! "User-Agent" =
    Some ["custom-agent"] ∧
  http.wHeader (Scenario.last_wire Scenario.agent_run) !! "User-Agent" =
    Some ["zerogate-go"] ∧
  ¬ user_agent_kept_when_present
      (Scenario.agent_supplied ∪ {[ "Accept" := ["*/*"] ]})
      (http.wHeader (Scenario.last_wire Scenario.agent_run)).
Proof.
  assert (Hm : (Scenario.agent_supplied ∪ {[ "Accept" := ["*/*"] ]}) !! "User-Agent" =
               Some ["custom-agent"]) by compute_it.
  assert (Hw : http.wHeader (Scenario.last_wire Scenario.agent_run) !! "User-Agent" =
               Some ["zerogate-go"]) by compute_it.
  split; [compute_it|]. split; [exact Hm|]. split; [exact Hw|].
  intros Hkept. unfold user_agent_kept_when_present in Hkept.
  rewrite Hm, Hw in Hkept. by specialize (Hkept (mk_is_Some _ _ eq_refl)).
Qed.

Lemma doRequest_preserves_configuration_witness :
  clients Scenario.debug_run.2 = clients Scenario.debug_world ∧
  (∀ l h, header_maps Scenario.debug_world !! l = Some h →
          header_maps Scenario.debug_run.2 !! l = Some h) ∧
  (∀ l hc, http_clients Scenario.debug_world !! l = Some hc →
           http_clients Scenario.debug_run.2 !! l = Some hc).
Proof.
  exact (doRequest_preserves_configuration 1%positive ctxLive http.MethodGet "/get" ∅
           bodyNil None Scenario.debug_world Scenario.debug_run.1 Scenario.debug_run.2
           (surjective_pairing Scenario.debug_run)).
Defined.

(** The key and the secret of the tests are literal patterns that share no
    byte with the marker. *)
Example test_credentials_are_literal :
  literal_pattern Fixture.testApiKey ∧ literal_pattern Fixture.testApiSecret ∧
  disjoint_bytes (bytes_of_string Fixture.testApiKey) (bytes_of_string redaction_marker) ∧
  disjoint_bytes (bytes_of_string Fixture.testApiSecret) (bytes_of_string redaction_marker).
Proof.
  split_and!.
  - eexists. split; [compute_it|reflexivity].
  - eexists. split; [compute_it|reflexivity].
  - apply disjoint_bytes_check. compute_it.
  - apply disjoint_bytes_check. compute_it.
Qed.

(** C4 fails on the response dump: with debugging on and a server that
    echoes the API key, the request dump is logged with the key replaced and
    the response dump is logged with the key in it. *)
Lemma debug_response_dump_leaks_api_key :
  clients Scenario.debug_world !! 1%positive = Some Scenario.debug_client ∧
  debug Scenario.debug_client = true ∧
  length (log_output Scenario.debug_run.2) = 2%nat ∧
  contains Fixture.testApiKey (hd EmptyString (log_output Scenario.debug_run.2)) = false ∧
  contains redaction_marker (hd EmptyString (log_output Scenario.debug_run.2)) = true ∧
  contains Fixture.testApiKey
    (List.last (log_output Scenario.debug_run.2) EmptyString) = true.
Proof. repeat split; compute_it. Qed.

End Runs.

(** * Construction of a client *)

Ltac client_simpl :=
  cbn [mutex apiKey apiSecret baseUrl debug userAgent headers httpClient
       set_mutex set_apiKey set_apiSecret set_baseUrl set_debug set_httpClient] in *.

Lemma store_client_run c f cl w :
  clients w !! c = Some cl →
  store_client c f w = (Done tt, set_clients (<[c := f cl]> (clients w)) w).
Proof. intros Hc. unfold store_client, load_client. rewrite bind_run, Hc. by run. Qed.

Lemma store_client_nil c f w :
  clients w !! c = None → store_client c f w = (Panicked nil_dereference, w).
Proof. intros Hc. unfold store_client, load_client. by rewrite bind_run, Hc. Qed.

Lemma new_Client_run cl w :
  new_Client cl w =
  (Done (fresh (dom (clients w))),
   set_clients (<[fresh (dom (clients w)) := cl]> (clients w)) w).
Proof. reflexivity. Qed.

Lemma load_client_run c cl w : clients w !! c = Some cl → load_client c w = (Done cl, w).
Proof. intros Hc. unfold load_client. by rewrite Hc. Qed.

Lemma set_clients_twice a b w : set_clients a (set_clients b w) = set_clients a w.
Proof. reflexivity. Qed.

Lemma fresh_client (w : World) : clients w !! fresh (dom (clients w)) = None.
Proof. apply not_elem_of_dom, is_fresh. Qed.

Lemma last_cons {A} (l : list A) a d : List.last (a :: l) d = List.last l a.
Proof.
  revert a d. induction l as [|b l IH]; intros a d; [done|].
  change (List.last (a :: b :: l) d) with (List.last (b :: l) d).
  by rewrite !IH.
Qed.

(** The field an option of the package assigns. *)
Lemma call_to_Option c o cl w :
  clients w !! c = Some cl →
  ∃ cl',
    call (to_Option o) c w = (Done tt, set_clients (<[c := cl']> (clients w)) w) ∧
    mutex cl' = mutex cl ∧ apiKey cl' = apiKey cl ∧ apiSecret cl' = apiSecret cl ∧
    userAgent cl' = userAgent cl ∧ headers cl' = headers cl ∧
    baseUrl cl' = List.last (given_baseURL [o]) (baseUrl cl) ∧
    debug cl' = List.last (given_debug [o]) (debug cl) ∧
    httpClient cl' = List.last (given_httpClient [o]) (httpClient cl).
Proof.
  intros Hc. destruct o; cbn [to_Option call HTTPClient BaseURL Debug];
    erewrite store_client_run by done; eexists; (split; [reflexivity|]); done.
Qed.

Lemma given_baseURL_cons o opts d :
  List.last (given_baseURL (o :: opts)) d =
  List.last (given_baseURL opts) (List.last (given_baseURL [o]) d).
Proof. destruct o; try done. all: apply last_cons. Qed.

Lemma given_debug_cons o opts d :
  List.last (given_debug (o :: opts)) d =
  List.last (given_debug opts) (List.last (given_debug [o]) d).
Proof. destruct o; try done. all: apply last_cons. Qed.

Lemma given_httpClient_cons o opts d :
  List.last (given_httpClient (o :: opts)) d =
  List.last (given_httpClient opts) (List.last (given_httpClient [o]) d).
Proof. destruct o; try done. all: apply last_cons. Qed.

Lemma parseOptions_package c opts cl w :
  clients w !! c = Some cl →
  ∃ cl',
    parseOptions c (to_Option <$> opts) w =
      (Done tt, set_clients (<[c := cl']> (clients w)) w) ∧
    mutex cl' = mutex cl ∧ apiKey cl' = apiKey cl ∧ apiSecret cl' = apiSecret cl ∧
    userAgent cl' = userAgent cl ∧ headers cl' = headers cl ∧
    baseUrl cl' = List.last (given_baseURL opts) (baseUrl cl) ∧
    debug cl' = List.last (given_debug opts) (debug cl) ∧
    httpClient cl' = List.last (given_httpClient opts) (httpClient cl).
Proof.
  revert cl w. induction opts as [|o opts IH]; intros cl w Hc.
  - exists cl. cbn [fmap list_fmap parseOptions]. rewrite ret_run, insert_id by done.
    by rewrite set_clients_id.
  - rewrite fmap_cons. cbn [parseOptions]. rewrite bind_run.
    destruct (call_to_Option c o cl w Hc)
      as (cl1 & -> & Hm & Hk & Hs & Hu & Hh & Hb & Hd & Hx).
    destruct (IH cl1 (set_clients (<[c := cl1]> (clients w)) w))
      as (cl2 & -> & Hm2 & Hk2 & Hs2 & Hu2 & Hh2 & Hb2 & Hd2 & Hx2).
    { wsimpl. apply lookup_insert_eq. }
    exists cl2. wsimpl. rewrite insert_insert_eq, set_clients_twice.
    split; [done|].
    rewrite given_baseURL_cons, given_debug_cons, given_httpClient_cons.
    rewrite Hm2, Hk2, Hs2, Hu2, Hh2, Hb2, Hd2, Hx2, Hm, Hk, Hs, Hu, Hh, Hb, Hd, Hx.
    done.
Qed.

Section ConstructionProofs.

Context `{Package}.

(** [newClient], step by step: the allocation of the header map and of the
    object, the options, the default for the HTTP client. *)
Lemma newClient_run opts w :
  newClient opts w =
  let h := fresh (dom (header_maps w)) in
  let c := fresh (dom (clients w)) in
  let w0 :=
    set_clients (<[c := mkClient 0 EmptyString EmptyString const_baseUrl false
                          const_userAgent (Some h) None]> (clients w))
      (set_header_maps (<[h := ∅]> (header_maps w)) w) in
  match parseOptions c opts w0 with
  | (Done _, w1) =>
      match clients w1 !! c with
      | None => (Panicked nil_dereference, w1)
      | Some cl =>
          match httpClient cl with
          | None =>
              (Done c,
               set_clients (<[c := set_httpClient (Some http_DefaultClient) cl]> (clients w1)) w1)
          | Some _ => (Done c, w1)
          end
      end
  | (Failed e, w1) => (Failed (wrapError "options parsing failed: " e), w1)
  | (Panicked msg, w1) => (Panicked msg, w1)
  end.
Proof.
  unfold newClient. rewrite bind_run, make_Header_run, bind_run, new_Client_run. wsimpl.
  rewrite bind_run, wrap_run. cbv zeta.
  destruct (parseOptions _ opts _) as [[[]|e|msg] w1]; [|done..].
  rewrite bind_run. unfold load_client at 1.
  destruct (clients w1 !! _) as [cl|] eqn:Hc; [|done].
  rewrite bind_run. destruct (httpClient cl).
  - by rewrite !ret_run.
  - erewrite store_client_run by done. by rewrite ret_run.
Qed.

Lemma New_run key secret opts w :
  New key secret opts w =
  if String.eqb key EmptyString || String.eqb secret EmptyString
  then (Failed (errorString errEmptyCredentials), w)
  else match newClient opts w with
       | (Done c, w1) =>
           match clients w1 !! c with
           | None => (Panicked nil_dereference, w1)
           | Some cl =>
               (Done c,
                set_clients (<[c := set_apiSecret secret (set_apiKey key cl)]> (clients w1)) w1)
           end
       | (Failed e, w1) => (Failed e, w1)
       | (Panicked msg, w1) => (Panicked msg, w1)
       end.
Proof.
  unfold New. destruct (_ || _); [done|].
  rewrite bind_run. destruct (newClient opts w) as [[c|e|msg] w1]; [|done..].
  rewrite bind_run. destruct (clients w1 !! c) as [cl|] eqn:Hc.
  - erewrite store_client_run by done. rewrite bind_run.
    erewrite store_client_run by (wsimpl; apply lookup_insert_eq).
    rewrite ret_run. wsimpl. by rewrite insert_insert_eq, set_clients_twice.
  - by rewrite store_client_nil.
Qed.

(** What [New] guarantees whatever the options do. *)
Lemma New_inv key secret opts w r w' :
  New key secret opts w = (r, w') →
  (key = EmptyString ∨ secret = EmptyString →
   r = Failed (errorString errEmptyCredentials) ∧ w' = w) ∧
  (∀ c, r = Done c →
        key ≠ EmptyString ∧ secret ≠ EmptyString ∧
        ∃ cl, clients w' !! c = Some cl ∧ apiKey cl = key ∧ apiSecret cl = secret ∧
              is_Some (httpClient cl)) ∧
  (∀ e, r = Failed e →
        e = errorString errEmptyCredentials ∨
        ∃ e', e = wrapError "options parsing failed: " e').
Proof.
  rewrite New_run.
  destruct (String.eqb_spec key EmptyString) as [->|Hk].
  { intros [= <- <-]. split; [done|]. split; [done|]. intros e [= <-]. by left. }
  destruct (String.eqb_spec secret EmptyString) as [->|Hs].
  { intros [= <- <-]. split; [done|]. split; [done|]. intros e [= <-]. by left. }
  cbn [orb]. rewrite newClient_run. cbv zeta.
  destruct (parseOptions _ opts _) as [[[]|e|msg] w1].
  - destruct (clients w1 !! _) as [cl|] eqn:Hc.
    2:{ intros [= <- <-]. split; [by intros [?|?]|]. done. }
    destruct (httpClient cl) as [hc|] eqn:Hhc.
    + rewrite Hc. intros [= <- <-]. split; [by intros [?|?]|]. split; [|done].
      intros c [= <-]. split; [done|]. split; [done|].
      eexists. wsimpl. rewrite lookup_insert_eq. split; [done|]. client_simpl.
      by rewrite Hhc.
    + wsimpl. rewrite lookup_insert_eq. intros [= <- <-].
      split; [by intros [?|?]|]. split; [|done].
      intros c [= <-]. split; [done|]. split; [done|].
      eexists. wsimpl. rewrite lookup_insert_eq. split; [done|]. by client_simpl.
  - intros [= <- <-]. split; [by intros [?|?]|]. split; [done|].
    intros ? [= <-]. right. by eexists.
  - intros [= <- <-]. split; [by intros [?|?]|]. done.
Qed.

Lemma parseOptions_app c pre post w :
  parseOptions c (pre ++ post) w =
  match parseOptions c pre w with
  | (Done _, w1) => parseOptions c post w1
  | r => r
  end.
Proof.
  revert w. induction pre as [|o pre IH]; intros w; cbn [app parseOptions].
  - by rewrite ret_run.
  - rewrite !bind_run. destruct (call o c w) as [[[]|e|msg] w1]; [apply IH|done..].
Qed.

(** What [New] builds from options of the package. *)
Lemma New_package key secret (opts : list PackageOption) w :
  key ≠ EmptyString → secret ≠ EmptyString →
  let c := fresh (dom (clients w)) in
  let h := fresh (dom (header_maps w)) in
  New key secret (to_Option <$> opts) w =
  (Done c,
   set_clients
     (<[c := mkClient 0 key secret (List.last (given_baseURL opts) const_baseUrl)
               (List.last (given_debug opts) false) const_userAgent (Some h)
               (Some (default http_DefaultClient (List.last (given_httpClient opts) None)))]>
        (clients w))
     (set_header_maps (<[h := ∅]> (header_maps w)) w)).
Proof.
  intros Hk Hs c h. rewrite New_run.
  destruct (String.eqb_spec key EmptyString) as [|_]; [done|].
  destruct (String.eqb_spec secret EmptyString) as [|_]; [done|].
  cbn [orb]. rewrite newClient_run. cbv zeta. fold c h.
  set (cl0 := mkClient 0 EmptyString EmptyString const_baseUrl false const_userAgent
                (Some h) None).
  set (w0 := set_clients (<[c := cl0]> (clients w))
               (set_header_maps (<[h := ∅]> (header_maps w)) w)).
  destruct (parseOptions_package c opts cl0 w0)
    as (cl1 & -> & Hm & Hak & Has & Hu & Hh & Hb & Hd & Hx).
  { subst w0. wsimpl. apply lookup_insert_eq. }
  subst w0. wsimpl. rewrite insert_insert_eq, lookup_insert_eq.
  destruct cl1 as [m1 k1 s1 b1 d1 u1 h1 x1]. subst cl0. client_simpl. subst.
  destruct (List.last (given_httpClient opts) None) as [hc|] eqn:Hhc; wsimpl.
  - rewrite lookup_insert_eq. rewrite set_clients_twice, insert_insert_eq. done.
  - rewrite lookup_insert_eq. rewrite !set_clients_twice, !insert_insert_eq. done.
Qed.

End ConstructionProofs.

(** * The request pipeline, stage by stage *)

Section Stages.

Context `{Library}.

Lemma trace_request_eq cl req w b :
  body_of (readers w) req = Some b →
  trace_request cl req w =
  match dump_request (wire_of w req b) with
  | err e => (Failed e, w)
  | ok dump =>
      match (redact_all [apiKey cl; apiSecret cl] dump w).1 with
      | Done d =>
          (Done tt, set_log_output (log_output w ++ [newline +:+ string_of_bytes d]) w)
      | Failed e => (Failed e, w)
      | Panicked msg => (Panicked msg, w)
      end
  end.
Proof.
  intros Hb. unfold trace_request, DumpRequestOut.
  rewrite !bind_run. erewrite on_wire_run by done.
  destruct (dump_request (wire_of w req b)) as [dump|e]; unfold lift_result; [|done].
  rewrite ret_run, ?bind_run.
  pose proof (redact_all_state [apiKey cl; apiSecret cl] dump w) as Hst.
  destruct (redact_all [apiKey cl; apiSecret cl] dump w) as [[d|e|msg] w2];
    cbn [fst snd] in *; subst w2; [|done..].
  unfold log_Printf. by rewrite modify_run.
Qed.

(** [exchange], path by path. *)
Lemma exchange_run c cl req w b :
  body_of (readers w) req = Some b →
  exchange c cl req w =
  let wire := wire_of w req b in
  match (if debug cl then trace_request cl req w else (Done tt, w)) with
  | (Done _, w1) =>
      match clients w !! c with
      | None => (Panicked nil_dereference, w1)
      | Some clc =>
          match httpClient clc ≫= (http_clients w !!.) with
          | None => (Panicked nil_dereference, w1)
          | Some hc =>
              let w2 :=
                set_http_clients (<[fresh (dom (http_clients w)) := hc]> (http_clients w)) w1 in
              match http.ctx req with
              | ctxDone e =>
                  (Failed (wrapError "ZeroGate request failed: " (urlError e)), w2)
              | _ =>
                  let w3 :=
                    set_sent (sent w ++ [wire]) (set_readers (drained (readers w) req) w2) in
                  match http.Transport hc wire with
                  | err e => (Failed (wrapError "ZeroGate request failed: " e), w3)
                  | ok resp =>
                      match failure (http.RespBody resp) with
                      | Some e =>
                          (Failed (if debug cl then e
                                   else wrapError "response read failed: " e), w3)
                      | None =>
                          let respBody := pending (http.RespBody resp) in
                          if debug cl
                          then match dump_response resp respBody with
                               | err e => (Failed e, w3)
                               | ok dump =>
                                   ((classify resp respBody w).1,
                                    set_log_output
                                      (log_output w1 ++ [newline +:+ string_of_bytes dump]) w3)
                               end
                          else ((classify resp respBody w).1, w3)
                      end
                  end
              end
          end
      end
  | (Failed e, w1) => (Failed e, w1)
  | (Panicked msg, w1) => (Panicked msg, w1)
  end.
Proof.
  intros Hb. unfold exchange. rewrite bind_run. cbv zeta.
  assert (Htr : ∃ x traced,
    (if debug cl then trace_request cl req else mret ()) w =
      (x, set_log_output (log_output w ++ traced) w) ∧
    (if debug cl then trace_request cl req w else (Done tt, w)) =
      (x, set_log_output (log_output w ++ traced) w)).
  { destruct (debug cl).
    - destruct (trace_request cl req w) as [x w1] eqn:Htr.
      destruct (trace_request_run _ _ _ _ _ _ Hb Htr) as [(entry & -> & ->)|[_ ->]].
      + by exists (Done tt), [entry].
      + exists x, []. rewrite app_nil_r. by destruct w.
    - exists (Done tt), []. rewrite ret_run, app_nil_r. by destruct w. }
  destruct Htr as (x & traced & -> & ->).
  destruct x as [[]|e|msg]; [|done..].
  rewrite bind_run, getClient_run. wsimpl.
  destruct (clients w !! c) as [clc|]; [|done].
  destruct (httpClient clc ≫= (http_clients w !!.)) as [hc|]; [|done].
  set (lc := fresh (dom (http_clients w))).
  rewrite bind_run, wrap_run.
  erewrite Do_run; [| wsimpl; apply lookup_insert_eq | wsimpl; done].
  unfold wire_of; wsimpl; fold (wire_of w req b).
  destruct (http.ctx req); [| |done].
  all: destruct (http.Transport hc (wire_of w req b)) as [resp|e]; [|done].
  all: rewrite bind_run.
  all: unfold trace_response, DumpResponse, read_response.
  all: destruct (debug cl); destruct (failure (http.RespBody resp)) as [e|] eqn:Hf.
  all: run; try done.
  all: unfold lift_result.
  all: try (destruct (dump_response resp (pending (http.RespBody resp))) as [dump|e]).
  all: run; unfold log_Printf; run; try done.
  all: rewrite ?Hf; run.
  all: erewrite classify_run; reflexivity.
Qed.

(** [doRequest] as the sequence of its stages. *)
Lemma doRequest_run c ctx method endpoint query body hdrs w cl :
  clients w !! c = Some cl →
  doRequest c ctx method endpoint query body hdrs w =
  match materialize method body w with
  | (Done (reqBody, bodyBytes), wm) =>
      match build (snapshot cl) ctx method endpoint query hdrs reqBody bodyBytes wm with
      | (Done req, wb) => exchange c (snapshot cl) req wb
      | (Failed e, wb) => (Failed e, wb)
      | (Panicked msg, wb) => (Panicked msg, wb)
      end
  | (Failed e, wm) => (Failed e, wm)
  | (Panicked msg, wm) => (Panicked msg, wm)
  end.
Proof.
  intros Hc. unfold doRequest. rewrite bind_run, config_run, Hc. fold (snapshot cl).
  rewrite bind_run. destruct (materialize method body w) as [[[reqBody bodyBytes]|e|msg] wm];
    [|done..].
  by rewrite bind_run.
Qed.

Lemma doRequest_nil c ctx method endpoint query body hdrs w :
  clients w !! c = None →
  doRequest c ctx method endpoint query body hdrs w = (Panicked nil_dereference, w).
Proof. intros Hc. unfold doRequest. by rewrite bind_run, config_run, Hc. Qed.

(** How [build] ends: with the request, or with the error of
    [http.NewRequestWithContext], wrapped. *)
Lemma build_outcome cl ctx method endpoint query hdrs reqBody bodyBytes w r w' :
  build cl ctx method endpoint query hdrs reqBody bodyBytes w = (r, w') →
  match r with
  | Done _ =>
      validMethod (effective_method method) = true ∧ ctx ≠ ctxNil ∧
      ∃ u, url_Parse (baseUrl cl +:+ endpoint) = ok u
  | Failed e =>
      header_maps w' = header_maps w ∧
      ∃ e', e = wrapError "ZeroGate request creation failed: " e' ∧
            (validMethod (effective_method method) = false ∨ ctx = ctxNil ∨
             url_Parse (baseUrl cl +:+ endpoint) = err e')
  | Panicked _ => False
  end.
Proof.
  unfold build. rewrite bind_run, time_Now_Unix_run, bind_run, wrap_run.
  unfold NewRequestWithContext. fold (effective_method method).
  destruct (validMethod (effective_method method)) eqn:Hv; cbn [negb].
  2:{ run. intros [= <- <-]. wsimpl. split; [done|]. eexists. split; [done|]. by left. }
  destruct ctx as [| |e].
  { run. intros [= <- <-]. wsimpl. split; [done|]. eexists. split; [done|].
    right. by left. }
  all: rewrite bind_run; destruct (url_Parse (baseUrl cl +:+ endpoint)) as [u|e'] eqn:Hu;
    unfold lift_result.
  2,4: run; intros [= <- <-]; wsimpl; (split; [done|]); eexists; (split; [done|]);
    by do 2 right.
  all: rewrite ret_run, bind_run, make_Header_run, ret_run; wsimpl.
  all: rewrite bind_run, make_Header_run; wsimpl; rewrite set_header_maps_twice.
  all: rewrite bind_run; erewrite range_assign_run by (wsimpl; apply lookup_insert_eq).
  all: wsimpl; rewrite insert_insert_eq, set_header_maps_twice.
  all: rewrite bind_run; erewrite range_assign_run by (wsimpl; apply lookup_insert_eq).
  all: wsimpl; rewrite insert_insert_eq, set_header_maps_twice.
  all: rewrite bind_run; erewrite Header_Set_run by (wsimpl; apply lookup_insert_eq).
  all: wsimpl; rewrite insert_insert_eq, set_header_maps_twice.
  all: rewrite bind_run.
  all: destruct (userAgent cl =? EmptyString).
  all: try (rewrite ret_run).
  all: try (erewrite Header_Set_run by (wsimpl; apply lookup_insert_eq);
            wsimpl; rewrite insert_insert_eq, set_header_maps_twice).
  all: rewrite bind_run; erewrite Header_Get_run by (wsimpl; apply lookup_insert_eq).
  all: rewrite bind_run.
  all: match goal with |- context [String.eqb ?x EmptyString] => destruct (String.eqb x EmptyString) end.
  all: try (rewrite ret_run).
  all: try (erewrite Header_Set_run by (wsimpl; apply lookup_insert_eq);
            wsimpl; rewrite insert_insert_eq, set_header_maps_twice).
  all: rewrite ret_run.
  all: intros Hrun; apply pair_equal_spec in Hrun as [<- <-].
  all: split; [done|]; split; [done|]; by exists u.
Qed.

End Stages.

Lemma frame_full wb n hm rs w :
  wb = set_ticks n (set_header_maps hm (set_readers rs w)) →
  wb = set_ticks (ticks wb) (set_header_maps (header_maps wb)
         (set_readers (readers wb) w)).
Proof. by intros ->. Qed.

Lemma frame_readers wm w :
  wm = set_readers (readers wm) w →
  wm = set_ticks (ticks wm) (set_header_maps (header_maps wm)
         (set_readers (readers wm) w)).
Proof.
  destruct w, wm. unfold set_ticks, set_header_maps, set_readers. cbn. congruence.
Qed.

Section Cases.

Context `{Library}.

(** The two ways a call goes: it stops before the exchange, with the error
    of the body or of the creation of the request, or it reaches the exchange
    with the request built. *)
Lemma doRequest_cases c ctx method endpoint query body hdrs w r w' cl :
  clients w !! c = Some cl →
  doRequest c ctx method endpoint query body hdrs w = (r, w') →
  (w' = set_ticks (ticks w') (set_header_maps (header_maps w')
          (set_readers (readers w') w)) ∧
   (body_failure r ∧ ticks w' = ticks w ∨
    ticks w' = S (ticks w) ∧
    (is_post_or_put method = true →
     ∀ r0, body = bodyReader r0 → readers w' !! r0 = Some (mkReader [] None)) ∧
    ∃ e, r = Failed (wrapError "ZeroGate request creation failed: " e) ∧
         (validMethod (effective_method method) = false ∨ ctx = ctxNil ∨
          url_Parse (baseUrl cl +:+ endpoint) = err e))) ∨
  ∃ wb req bodyBytes bopt u,
    exchange c (snapshot cl) req wb = (r, w') ∧
    wb = set_ticks (S (ticks w)) (set_header_maps (header_maps wb)
           (set_readers (readers wb) w)) ∧
    (∀ l, l ∈ dom (header_maps w) → header_maps wb !! l = header_maps w !! l) ∧
    validMethod (effective_method method) = true ∧ ctx ≠ ctxNil ∧
    url_Parse (baseUrl cl +:+ endpoint) = ok u ∧
    http.Method req = effective_method method ∧
    http.URL req = request_url u query ∧
    http.ReqHost req = removeEmptyPort (url.Host u) ∧
    http.ctx req = ctx ∧
    header_maps wb !! http.Header req =
      Some (effective_headers (entries (header_maps w) (headers cl))
              (entries (header_maps w) hdrs)
              (authorization (apiKey cl)
                 (signature (apiSecret cl) req (clock w (ticks w)) method bodyBytes)
                 (clock w (ticks w)))
              (userAgent cl)) ∧
    body_of (readers wb) req = Some bopt ∧
    if is_post_or_put method
    then materialized (readers w) body = Some bodyBytes ∧ bopt = Some bodyBytes ∧
         ∀ r0, body = bodyReader r0 → readers wb !! r0 = Some (mkReader [] None)
    else bopt = None ∧ readers wb = readers w.
Proof.
  intros Hc. rewrite (doRequest_run _ _ _ _ _ _ _ _ _ Hc).
  destruct (materialize method body w) as [x wm] eqn:Hmat.
  pose proof (materialize_failure _ _ _ _ _ Hmat) as Hfail.
  assert (Hm : wm = set_readers (readers wm) w ∧
    ((∀ a, x ≠ Done a) ∨
     ∃ reqBody bodyBytes, x = Done (reqBody, bodyBytes) ∧
       if is_post_or_put method
       then materialized (readers w) body = Some bodyBytes ∧
            (∃ rb, reqBody = Some rb ∧ readers wm !! rb = Some (mkReader bodyBytes None)) ∧
            ∀ r0, body = bodyReader r0 → readers wm !! r0 = Some (mkReader [] None)
       else reqBody = None ∧ wm = w)).
  { destruct (is_post_or_put method) eqn:Hpp.
    - apply materialize_spec in Hmat as [Hfr Hx]; [|done]. split; [done|].
      destruct x as [[reqBody bodyBytes]| |]; [|by left..]. right.
      destruct Hx as (? & rb & ? & ? & ?). exists reqBody, bodyBytes.
      split; [done|]. split; [done|]. split; [by exists rb|done].
    - rewrite materialize_other in Hmat by done. injection Hmat as <- <-.
      split; [by destruct w|]. right. by exists None, []. }
  destruct Hm as [Hwm [Hx|(reqBody & bodyBytes & -> & Hpp)]].
  { intros Hrun. left.
    destruct Hfail as [[a ->]|Hfail]; [by destruct (Hx a)|].
    assert (Htk : ticks wm = ticks w) by (rewrite Hwm; by wsimpl).
    destruct x as [a| |]; [by destruct (Hx a)|..]; injection Hrun as <- <-.
    all: split; [by apply frame_readers|]; left; split; [|done].
    + by apply (body_failure_Failed (A:=option loc * list byte)).
    + by apply (body_failure_Panicked (A:=option loc * list byte)). }
  destruct (build (snapshot cl) ctx method endpoint query hdrs reqBody bodyBytes wm)
    as [y wb] eqn:Hb.
  pose proof (build_outcome _ _ _ _ _ _ _ _ _ _ _ Hb) as Hout.
  apply build_spec in Hb as (Hwb & Hold & Hy).
  pose proof (frame_compose _ _ _ Hwm Hwb) as Hwb'.
  assert (Hrd : readers wb = readers wm) by (rewrite Hwb'; wsimpl; done).
  assert (Ht : ticks wb = S (ticks w)) by (rewrite Hwb'; wsimpl; done).
  destruct y as [req|e|msg]; [|clear Hy|done].
  2:{ intros [= <- <-]. left. destruct Hout as (_ & e' & -> & Hwhy).
      split; [by eapply frame_full|].
      right. split; [done|]. split.
      - intros Hm r0 Hr0. rewrite Hm in Hpp. destruct Hpp as (_ & _ & Hstream).
        rewrite Hrd. by apply Hstream.
      - by exists e'. }
  intros Hrun. right.
  destruct Hout as (Hvalid & Hctx' & _).
  destruct Hy as (u & Hu & Hmeth & Hurl & Hbody & Hhost & Hctx & Hhdr).
  assert (Hhm : header_maps wm = header_maps w) by (rewrite Hwm; wsimpl; done).
  assert (Hck : clock wm = clock w ∧ ticks wm = ticks w) by (rewrite Hwm; wsimpl; done).
  destruct Hck as [Hck Htk]. rewrite Hhm, Hck, Htk in Hhdr.
  assert (Hold' : ∀ l, l ∈ dom (header_maps w) → header_maps wb !! l = header_maps w !! l).
  { intros l Hl. rewrite Hold; rewrite Hwm; wsimpl; done. }
  assert (Hfr : wb = set_ticks (S (ticks w)) (set_header_maps (header_maps wb)
                      (set_readers (readers wb) w))).
  { rewrite Hrd. exact Hwb'. }
  exists wb, req, bodyBytes.
  destruct (is_post_or_put method) eqn:Hm.
  - destruct Hpp as (Hmat' & (rb & -> & Hrb) & Hstream).
    exists (Some bodyBytes), u. split_and!; try done.
    + unfold body_of. by rewrite Hbody, Hrd, Hrb.
    + intros r0 Hr0. rewrite Hrd. by apply Hstream.
  - destruct Hpp as [-> ->]. exists None, u. split_and!; try done.
    unfold body_of. by rewrite Hbody.
Qed.

End Cases.

Lemma body_failure_not_Done {A} (a : A) : ¬ body_failure (Done a).
Proof. by intros [[e [=]]|[[e [=]]|[=]]]. Qed.

Lemma chain_head e : In e (chain e).
Proof. destruct e; by left. Qed.

(** * Further properties of the request pipeline *)

Section Behaviour.

Context `{Library}.

Ltac exchange_paths Hex Hbody cl :=
  rewrite (exchange_run _ _ _ _ _ Hbody) in Hex; cbv zeta in Hex;
  change (debug (snapshot cl)) with (debug cl) in Hex;
  change (apiKey (snapshot cl)) with (apiKey cl) in Hex;
  change (apiSecret (snapshot cl)) with (apiSecret cl) in Hex;
  let Hdbg := fresh "Hdbg" in
  destruct (debug cl) eqn:Hdbg;
  [rewrite (trace_request_eq _ _ _ _ Hbody) in Hex|];
  repeat case_match; simplify_eq.

(** X1. A call hands at most one request to the transport, and a call that
    returns a response has handed over exactly one: nothing is retried. *)
Theorem doRequest_sends_at_most_once c ctx method endpoint query body hdrs w r w' :
  doRequest c ctx method endpoint query body hdrs w = (r, w') →
  (sent w' = sent w ∨ ∃ wire, issued w w' wire) ∧
  (∀ a, r = Done a → ∃ wire, issued w w' wire).
Proof.
  intros Hrun. destruct (clients w !! c) as [cl|] eqn:Hc.
  2:{ rewrite doRequest_nil in Hrun by done. injection Hrun as <- <-.
      split; [by left|done]. }
  destruct (doRequest_cases _ _ _ _ _ _ _ _ _ _ _ Hc Hrun) as [[Hfr Hwhy]|Hrest].
  { assert (Hs : sent w' = sent w) by (rewrite Hfr; by wsimpl).
    split; [by left|]. intros a ->.
    destruct Hwhy as [[Hbf _]|(_ & _ & e & [=] & _)]. by apply body_failure_not_Done in Hbf. }
  destruct Hrest as (wb & req & bodyBytes & bopt & u & Hex & Hwb & _ & _ & _ & _ & _ & _
                     & _ & _ & _ & Hbody & _).
  assert (Hs : sent wb = sent w) by (rewrite Hwb; by wsimpl).
  unfold issued. rewrite <- Hs.
  exchange_paths Hex Hbody cl; wsimpl.
  all: first [ by split; [by left|] | by split; [right; by eexists|intros; by eexists] ].
Qed.

(** X2. A call writes to the log only when the client has debugging on, and
    then at most two messages: the request dump and the response dump. *)
Theorem doRequest_logs_only_when_debugging
    c ctx method endpoint query body hdrs w r w' cl :
  clients w !! c = Some cl →
  doRequest c ctx method endpoint query body hdrs w = (r, w') →
  ∃ added,
    log_output w' = log_output w ++ added ∧
    (length added ≤ 2)%nat ∧
    (debug cl = false → added = []).
Proof.
  intros Hc Hrun.
  destruct (doRequest_cases _ _ _ _ _ _ _ _ _ _ _ Hc Hrun) as [[Hfr Hwhy]|Hrest].
  { exists []. rewrite app_nil_r. split; [rewrite Hfr; by wsimpl|]. split; [cbn; lia|done]. }
  destruct Hrest as (wb & req & bodyBytes & bopt & u & Hex & Hwb & _ & _ & _ & _ & _ & _
                     & _ & _ & _ & Hbody & _).
  assert (Hs : log_output wb = log_output w) by (rewrite Hwb; by wsimpl).
  rewrite <- Hs.
  exchange_paths Hex Hbody cl; wsimpl.
  all: first
    [ by exists []; rewrite app_nil_r; split; [done|]; split; [cbn; lia|done]
    | by eexists [_]; split; [reflexivity|]; split; [cbn; lia|done]
    | by eexists [_; _]; rewrite <- app_assoc; split; [reflexivity|]; split; [cbn; lia|done] ].
Qed.

Lemma redact_all_pure keys dump w w0 :
  (redact_all keys dump w).1 = (redact_all keys dump w0).1.
Proof.
  revert dump. induction keys as [|key keys IH]; intros dump; cbn [redact_all]; [done|].
  rewrite !bind_run. unfold redact.
  destruct (key =? EmptyString); [rewrite !ret_run; apply IH|].
  destruct (regexp_Compile _); [rewrite !ret_run; apply IH|done].
Qed.

(** What a call that handed [wire] to the transport returns and logs. *)
Lemma doRequest_issued_outcome c ctx method endpoint query body hdrs w r w' cl hc wire :
  clients w !! c = Some cl →
  httpClient cl ≫= (http_clients w !!.) = Some hc →
  doRequest c ctx method endpoint query body hdrs w = (r, w') →
  issued w w' wire →
  ∃ traced logged,
    log_output w' = log_output w ++ traced ++ logged ∧
    (if debug cl
     then ∃ dump d, dump_request wire = ok dump ∧
                    (redact_all [apiKey cl; apiSecret cl] dump w).1 = Done d ∧
                    traced = [newline +:+ string_of_bytes d]
     else traced = []) ∧
    match http.Transport hc wire with
    | err e => logged = [] ∧ r = Failed (wrapError "ZeroGate request failed: " e)
    | ok resp =>
        match failure (http.RespBody resp) with
        | Some e =>
            logged = [] ∧
            r = Failed (if debug cl then e else wrapError "response read failed: " e)
        | None =>
            let respBody := pending (http.RespBody resp) in
            if debug cl
            then match dump_response resp respBody with
                 | err e => logged = [] ∧ r = Failed e
                 | ok dump =>
                     logged = [newline +:+ string_of_bytes dump] ∧
                     r = (classify resp respBody w).1
                 end
            else logged = [] ∧ r = (classify resp respBody w).1
        end
    end.
Proof.
  intros Hc Hhc Hrun Hiss.
  destruct (doRequest_cases _ _ _ _ _ _ _ _ _ _ _ Hc Hrun) as [[Hfr Hwhy]|Hrest].
  { exfalso. eapply not_issued_same_sent; [|exact Hiss]. rewrite Hfr. by wsimpl. }
  destruct Hrest as (wb & req & bodyBytes & bopt & u & Hex & Hwb & _ & _ & _ & _ & _ & _
                     & _ & _ & _ & Hbody & _).
  assert (Hs : sent wb = sent w) by (rewrite Hwb; by wsimpl).
  assert (Hl : log_output wb = log_output w) by (rewrite Hwb; by wsimpl).
  assert (Hcl : clients wb = clients w) by (rewrite Hwb; by wsimpl).
  assert (Hhcs : http_clients wb = http_clients w) by (rewrite Hwb; by wsimpl).
  rewrite (exchange_run _ _ _ _ _ Hbody) in Hex. cbv zeta in Hex.
  rewrite Hcl, Hc, Hhcs, Hhc in Hex.
  change (debug (snapshot cl)) with (debug cl) in Hex.
  unfold issued in Hiss. rewrite <- Hs in Hiss. rewrite <- Hl.
  assert (Hsame : ∀ w0 : World, sent w0 = sent wb → sent w0 = sent wb ++ [wire] → False).
  { intros w0 -> Heq. apply (f_equal length) in Heq. rewrite length_app in Heq.
    cbn in Heq. lia. }
  destruct (debug cl) eqn:Hdbg.
  - rewrite (trace_request_eq _ _ _ _ Hbody) in Hex.
    change (apiKey (snapshot cl)) with (apiKey cl) in Hex.
    change (apiSecret (snapshot cl)) with (apiSecret cl) in Hex.
    destruct (dump_request (wire_of wb req bopt)) as [dump|e] eqn:Hd.
    2:{ injection Hex as <- <-. by destruct (Hsame wb). }
    rewrite (redact_all_pure _ _ wb w) in Hex.
    destruct ((redact_all [apiKey cl; apiSecret cl] dump w).1) as [d|e|msg] eqn:Hred.
    2,3: injection Hex as <- <-; by destruct (Hsame wb).
    destruct (http.ctx req).
    3:{ injection Hex as <- <-. exfalso. eapply Hsame; [|exact Hiss]. by wsimpl. }
    all: destruct (http.Transport hc (wire_of wb req bopt)) as [resp|e] eqn:Ht.
    all: try destruct (failure (http.RespBody resp)) as [e|] eqn:Hf.
    all: try destruct (dump_response resp (pending (http.RespBody resp))) as [dump'|e] eqn:Hdr.
    all: injection Hex as <- <-; wsimpl.
    all: apply app_inj_tail in Hiss as [_ <-]; rewrite Hd, Ht, ?Hf; cbv zeta; rewrite ?Hdr.
    all: eexists [_], _; (split; [|split; [by eexists _, _|split; [reflexivity|]]]).
    all: rewrite <- ?app_assoc, ?app_nil_r; try reflexivity.
    all: by rewrite (classify_run _ _ w wb).
  - destruct (http.ctx req).
    3:{ injection Hex as <- <-. exfalso. eapply Hsame; [|exact Hiss]. by wsimpl. }
    all: destruct (http.Transport hc (wire_of wb req bopt)) as [resp|e] eqn:Ht.
    all: try destruct (failure (http.RespBody resp)) as [e|] eqn:Hf.
    all: injection Hex as <- <-; wsimpl.
    all: apply app_inj_tail in Hiss as [_ <-]; rewrite Ht, ?Hf; cbv zeta.
    all: exists [], []; rewrite !app_nil_r; (split; [done|]); (split; [done|]); (split; [done|]).
    all: try done.
    all: by rewrite (classify_run _ _ w wb).
Qed.

(** X3. When the request cannot be created (the method is not a token, the
    context is nil, or the address does not parse), the call sends and logs
    nothing and returns the error wrapped as a creation failure, unless the
    body had already failed; the timestamp has been taken by then, and a
    stream passed as the body of a POST or PUT has been read to its end. *)
Theorem doRequest_creation_failure c ctx method endpoint query body hdrs w r w' cl :
  clients w !! c = Some cl →
  validMethod (effective_method method) = false ∨ ctx = ctxNil ∨
    (∃ e, url_Parse (baseUrl cl +:+ endpoint) = err e) →
  doRequest c ctx method endpoint query body hdrs w = (r, w') →
  sent w' = sent w ∧ log_output w' = log_output w ∧
  (body_failure r ∧ ticks w' = ticks w ∨
   ticks w' = S (ticks w) ∧
   (∃ e, r = Failed (wrapError "ZeroGate request creation failed: " e)) ∧
   (is_post_or_put method = true →
    ∀ r0, body = bodyReader r0 → readers w' !! r0 = Some (mkReader [] None))).
Proof.
  intros Hc Hbad Hrun.
  destruct (doRequest_cases _ _ _ _ _ _ _ _ _ _ _ Hc Hrun) as [[Hfr Hwhy]|Hrest].
  - split; [rewrite Hfr; by wsimpl|]. split; [rewrite Hfr; by wsimpl|].
    destruct Hwhy as [?|(Htk & Hstream & e & -> & _)]; [by left|right].
    split; [done|]. split; [by exists e|done].
  - destruct Hrest as (wb & req & bodyBytes & bopt & u & _ & _ & _ & Hv & Hctx & Hu & _).
    destruct Hbad as [Hbad|[Hbad|[e Hbad]]]; congruence.
Qed.

(** X4. When the transport fails, the call returns its error wrapped as a
    request failure, the cause staying in the chain of the error. *)
Theorem doRequest_transport_failure
    c ctx method endpoint query body hdrs w r w' cl hc wire e :
  clients w !! c = Some cl →
  httpClient cl ≫= (http_clients w !!.) = Some hc →
  doRequest c ctx method endpoint query body hdrs w = (r, w') →
  issued w w' wire →
  http.Transport hc wire = err e →
  r = Failed (wrapError "ZeroGate request failed: " e) ∧
  In e (chain (wrapError "ZeroGate request failed: " e)).
Proof.
  intros Hc Hhc Hrun Hiss Ht.
  destruct (doRequest_issued_outcome _ _ _ _ _ _ _ _ _ _ _ _ _ Hc Hhc Hrun Hiss)
    as (traced & logged & _ & _ & Hres).
  rewrite Ht in Hres. destruct Hres as [_ ->]. split; [done|].
  right. apply chain_head.
Qed.

(** X5. When the body of the response cannot be read, the error comes back
    wrapped as a read failure if debugging is off, and as it is, from the
    response dump that reads the body first, if debugging is on. *)
Theorem doRequest_unreadable_response
    c ctx method endpoint query body hdrs w r w' cl hc wire resp e :
  clients w !! c = Some cl →
  httpClient cl ≫= (http_clients w !!.) = Some hc →
  doRequest c ctx method endpoint query body hdrs w = (r, w') →
  issued w w' wire →
  http.Transport hc wire = ok resp →
  failure (http.RespBody resp) = Some e →
  r = Failed (if debug cl then e else wrapError "response read failed: " e).
Proof.
  intros Hc Hhc Hrun Hiss Ht Hf.
  destruct (doRequest_issued_outcome _ _ _ _ _ _ _ _ _ _ _ _ _ Hc Hhc Hrun Hiss)
    as (traced & logged & _ & _ & Hres).
  rewrite Ht, Hf in Hres. by destruct Hres as [_ ->].
Qed.

(** X6. The query of the request is the encoding of the [query] argument
    alone, its keys without values left out: a query written into the
    endpoint is replaced, while scheme and path are those of the parsed
    address. *)
Theorem doRequest_query_replaces_endpoint_query
    c ctx method endpoint query body hdrs w r w' cl wire :
  clients w !! c = Some cl →
  doRequest c ctx method endpoint query body hdrs w = (r, w') →
  issued w w' wire →
  ∃ u,
    url_Parse (baseUrl cl +:+ endpoint) = ok u ∧
    url.RawQuery (http.wURL wire) =
      Values_Encode (filter (fun kv : string * list string => kv.2 ≠ []) query) ∧
    url.Path (http.wURL wire) = url.Path u ∧
    url.Scheme (http.wURL wire) = url.Scheme u.
Proof.
  intros Hc Hrun Hiss.
  destruct (doRequest_wire _ _ _ _ _ _ _ _ _ _ _ _ Hc Hrun Hiss)
    as (u & bodyBytes & Hu & _ & -> & _).
  by exists u.
Qed.

(** X7. The signature covers neither the query nor the headers: two calls
    that differ only in these carry the same [Authorization] value. *)
Theorem doRequest_signature_ignores_query_and_headers
    c ctx method endpoint body query1 hdrs1 query2 hdrs2 w r1 w1 r2 w2 cl wire1 wire2 :
  clients w !! c = Some cl →
  doRequest c ctx method endpoint query1 body hdrs1 w = (r1, w1) →
  issued w w1 wire1 →
  doRequest c ctx method endpoint query2 body hdrs2 w = (r2, w2) →
  issued w w2 wire2 →
  http.wHeader wire1 !! "Authorization" = http.wHeader wire2 !! "Authorization".
Proof.
  intros Hc Hrun1 Hiss1 Hrun2 Hiss2.
  destruct (doRequest_wire _ _ _ _ _ _ _ _ _ _ _ _ Hc Hrun1 Hiss1)
    as (u1 & b1 & Hu1 & _ & -> & Hb1).
  destruct (doRequest_wire _ _ _ _ _ _ _ _ _ _ _ _ Hc Hrun2 Hiss2)
    as (u2 & b2 & Hu2 & _ & -> & Hb2).
  cbn [http.wHeader]. rewrite !effective_headers_Authorization.
  assert (u1 = u2) as -> by congruence.
  unfold Signer.sign, Signer.canonical_message. rewrite is_post_or_put_effective.
  destruct (is_post_or_put method); [|done].
  destruct Hb1 as [Hm1 _], Hb2 as [Hm2 _]. by assert (b1 = b2) as -> by congruence.
Qed.

(** X8. An empty method is a GET: the request is sent and signed as GET and
    carries no body. *)
Theorem doRequest_empty_method_is_GET c ctx endpoint query body hdrs w r w' cl wire :
  clients w !! c = Some cl →
  doRequest c ctx EmptyString endpoint query body hdrs w = (r, w') →
  issued w w' wire →
  http.wMethod wire = "GET" ∧
  http.wBody wire = None ∧
  http.wHeader wire !! "Authorization" =
    Some [authorization (apiKey cl)
            (Signer.sign (apiSecret cl) "GET" (url.Path (http.wURL wire))
               (clock w (ticks w)) [])
            (clock w (ticks w))].
Proof.
  intros Hc Hrun Hiss.
  destruct (doRequest_wire _ _ _ _ _ _ _ _ _ _ _ _ Hc Hrun Hiss)
    as (u & bodyBytes & Hu & _ & -> & _).
  cbn [http.wMethod http.wBody http.wHeader http.wURL].
  split; [done|]. split; [done|].
  rewrite effective_headers_Authorization. reflexivity.
Qed.

(** X9. With a context that is already done nothing is sent and no response
    is returned; with debugging off and an HTTP client in place, the error
    is the error of the context wrapped as a request failure, in whose chain
    the error of the context stays, unless the body or the creation of the
    request failed first. *)
Theorem doRequest_done_context c method endpoint query body hdrs w r w' cl e :
  clients w !! c = Some cl →
  doRequest c (ctxDone e) method endpoint query body hdrs w = (r, w') →
  sent w' = sent w ∧ (∀ a, r ≠ Done a) ∧
  (debug cl = false → is_Some (httpClient cl ≫= (http_clients w !!.)) →
   body_failure r ∨
   (∃ e', r = Failed (wrapError "ZeroGate request creation failed: " e')) ∨
   r = Failed (wrapError "ZeroGate request failed: " (urlError e)) ∧
   In e (chain (wrapError "ZeroGate request failed: " (urlError e)))).
Proof.
  intros Hc Hrun.
  destruct (doRequest_cases _ _ _ _ _ _ _ _ _ _ _ Hc Hrun) as [[Hfr Hwhy]|Hrest].
  { split; [rewrite Hfr; by wsimpl|]. split.
    - intros a ->. destruct Hwhy as [[Hbf _]|(_ & _ & e' & [=] & _)].
      by apply body_failure_not_Done in Hbf.
    - intros _ _. destruct Hwhy as [[? _]|(_ & _ & e' & -> & _)]; [by left|].
      right. left. by exists e'. }
  destruct Hrest as (wb & req & bodyBytes & bopt & u & Hex & Hwb & _ & _ & _ & _ & _ & _
                     & _ & Hctx & _ & Hbody & _).
  assert (Hs : sent wb = sent w) by (rewrite Hwb; by wsimpl).
  assert (Hcl : clients wb = clients w) by (rewrite Hwb; by wsimpl).
  assert (Hhcs : http_clients wb = http_clients w) by (rewrite Hwb; by wsimpl).
  rewrite (exchange_run _ _ _ _ _ Hbody) in Hex. cbv zeta in Hex.
  rewrite Hcl, Hc, Hhcs, Hctx in Hex.
  change (debug (snapshot cl)) with (debug cl) in Hex.
  rewrite <- Hs.
  destruct (debug cl) eqn:Hdbg.
  - rewrite (trace_request_eq _ _ _ _ Hbody) in Hex.
    repeat case_match; simplify_eq; wsimpl; done.
  - destruct (httpClient cl ≫= (http_clients w !!.)) as [hc|] eqn:Hhc.
    + injection Hex as <- <-. wsimpl. split; [done|]. split; [done|].
      intros _ _. do 2 right. split; [done|]. right. right. apply chain_head.
    + injection Hex as <- <-. split; [done|]. split; [done|].
      intros _ [? [=]].
Qed.

(** X10. A client whose HTTP client is nil (one that [New] did not make)
    never sends: the call panics on the nil pointer when it comes to the
    exchange, if nothing failed before. *)
Theorem doRequest_without_http_client c ctx method endpoint query body hdrs w r w' cl :
  clients w !! c = Some cl →
  httpClient cl ≫= (http_clients w !!.) = None →
  doRequest c ctx method endpoint query body hdrs w = (r, w') →
  sent w' = sent w ∧ (∀ a, r ≠ Done a) ∧
  (debug cl = false →
   body_failure r ∨
   (∃ e', r = Failed (wrapError "ZeroGate request creation failed: " e')) ∨
   r = Panicked nil_dereference).
Proof.
  intros Hc Hhc Hrun.
  destruct (doRequest_cases _ _ _ _ _ _ _ _ _ _ _ Hc Hrun) as [[Hfr Hwhy]|Hrest].
  { split; [rewrite Hfr; by wsimpl|]. split.
    - intros a ->. destruct Hwhy as [[Hbf _]|(_ & _ & e' & [=] & _)].
      by apply body_failure_not_Done in Hbf.
    - intros _. destruct Hwhy as [[? _]|(_ & _ & e' & -> & _)]; [by left|].
      right. left. by exists e'. }
  destruct Hrest as (wb & req & bodyBytes & bopt & u & Hex & Hwb & _ & _ & _ & _ & _ & _
                     & _ & Hctx & _ & Hbody & _).
  assert (Hs : sent wb = sent w) by (rewrite Hwb; by wsimpl).
  assert (Hcl : clients wb = clients w) by (rewrite Hwb; by wsimpl).
  assert (Hhcs : http_clients wb = http_clients w) by (rewrite Hwb; by wsimpl).
  rewrite (exchange_run _ _ _ _ _ Hbody) in Hex. cbv zeta in Hex.
  rewrite Hcl, Hc, Hhcs, Hhc in Hex.
  change (debug (snapshot cl)) with (debug cl) in Hex.
  rewrite <- Hs.
  destruct (debug cl) eqn:Hdbg.
  - rewrite (trace_request_eq _ _ _ _ Hbody) in Hex.
    repeat case_match; simplify_eq; wsimpl; done.
  - injection Hex as <- <-. split; [done|]. split; [done|]. intros _. by do 2 right.
Qed.

Lemma redact_all_invalid keys key dump w :
  In key keys → key ≠ EmptyString → regexp_Compile ("(?m)" +:+ key) = None →
  (redact_all keys dump w).1 = Panicked "regexp: Compile: error parsing regexp".
Proof.
  intros Hin Hne Hcomp. revert dump.
  induction keys as [|k keys IH]; intros dump; [done|].
  cbn [redact_all]. rewrite bind_run. unfold redact.
  destruct (String.eqb_spec k EmptyString) as [->|Hk].
  - rewrite ret_run. destruct Hin as [<-|Hin]; [done|]. by apply IH.
  - destruct (regexp_Compile ("(?m)" +:+ k)) as [rx|] eqn:Hrx.
    + rewrite ret_run. destruct Hin as [->|Hin]; [congruence|]. by apply IH.
    + done.
Qed.

(** X11. With debugging on, a key or a secret that does not compile as a
    regular expression keeps every call from sending: nothing is sent or
    logged, and a call that gets as far as the request dump panics where the
    pattern is compiled. *)
Theorem doRequest_debug_invalid_pattern
    c ctx method endpoint query body hdrs w r w' cl key :
  clients w !! c = Some cl →
  debug cl = true →
  In key [apiKey cl; apiSecret cl] → key ≠ EmptyString →
  regexp_Compile ("(?m)" +:+ key) = None →
  doRequest c ctx method endpoint query body hdrs w = (r, w') →
  sent w' = sent w ∧ log_output w' = log_output w ∧ (∀ a, r ≠ Done a) ∧
  (body_failure r ∨
   (∃ e', r = Failed (wrapError "ZeroGate request creation failed: " e')) ∨
   (∃ wire e', dump_request wire = err e' ∧ r = Failed e') ∨
   r = Panicked "regexp: Compile: error parsing regexp").
Proof.
  intros Hc Hdbg Hin Hne Hcomp Hrun.
  destruct (doRequest_cases _ _ _ _ _ _ _ _ _ _ _ Hc Hrun) as [[Hfr Hwhy]|Hrest].
  { split; [rewrite Hfr; by wsimpl|]. split; [rewrite Hfr; by wsimpl|]. split.
    - intros a ->. destruct Hwhy as [[Hbf _]|(_ & _ & e' & [=] & _)].
      by apply body_failure_not_Done in Hbf.
    - destruct Hwhy as [[? _]|(_ & _ & e' & -> & _)]; [by left|].
      right. left. by exists e'. }
  destruct Hrest as (wb & req & bodyBytes & bopt & u & Hex & Hwb & _ & _ & _ & _ & _ & _
                     & _ & Hctx & _ & Hbody & _).
  assert (Hs : sent wb = sent w) by (rewrite Hwb; by wsimpl).
  assert (Hl : log_output wb = log_output w) by (rewrite Hwb; by wsimpl).
  rewrite (exchange_run _ _ _ _ _ Hbody) in Hex. cbv zeta in Hex.
  change (debug (snapshot cl)) with (debug cl) in Hex.
  rewrite Hdbg, (trace_request_eq _ _ _ _ Hbody) in Hex.
  change (apiKey (snapshot cl)) with (apiKey cl) in Hex.
  change (apiSecret (snapshot cl)) with (apiSecret cl) in Hex.
  rewrite <- Hs, <- Hl.
  destruct (dump_request (wire_of wb req bopt)) as [dump|e'] eqn:Hd.
  - rewrite (redact_all_invalid _ key) in Hex by done.
    injection Hex as <- <-. split; [done|]. split; [done|]. split; [done|]. by do 3 right.
  - injection Hex as <- <-. split; [done|]. split; [done|]. split; [done|].
    do 2 right. left. by eexists _, _.
Qed.

(** X12. With debugging on, the first message a call that sends writes to
    the log is the dump of the request with every occurrence of the key,
    then of the secret, replaced by the marker: for a key and a secret that
    are literal patterns and share no byte with the marker, neither is left
    in it. *)
Theorem doRequest_request_dump_redacted
    c ctx method endpoint query body hdrs w r w' cl hc wire :
  clients w !! c = Some cl →
  httpClient cl ≫= (http_clients w !!.) = Some hc →
  debug cl = true →
  apiKey cl ≠ EmptyString → apiSecret cl ≠ EmptyString →
  literal_pattern (apiKey cl) → literal_pattern (apiSecret cl) →
  disjoint_bytes (bytes_of_string (apiKey cl)) (bytes_of_string redaction_marker) →
  disjoint_bytes (bytes_of_string (apiSecret cl)) (bytes_of_string redaction_marker) →
  doRequest c ctx method endpoint query body hdrs w = (r, w') →
  issued w w' wire →
  ∃ dump logged rest,
    dump_request wire = ok dump ∧
    log_output w' = log_output w ++ (newline +:+ string_of_bytes logged) :: rest ∧
    logged =
      Fixture.replace_from (bytes_of_string (apiSecret cl))
        (bytes_of_string redaction_marker) 0
        (Fixture.replace_from (bytes_of_string (apiKey cl))
           (bytes_of_string redaction_marker) 0 dump) ∧
    ¬ occurs (bytes_of_string (apiKey cl)) logged ∧
    ¬ occurs (bytes_of_string (apiSecret cl)) logged.
Proof.
  intros Hc Hhc Hdbg Hk Hs Hlk Hls Hdk Hds Hrun Hiss.
  destruct (doRequest_issued_outcome _ _ _ _ _ _ _ _ _ _ _ _ _ Hc Hhc Hrun Hiss)
    as (traced & logged & Hlog & Htr & _).
  rewrite Hdbg in Htr. destruct Htr as (dump & d & Hd & Hred & ->).
  rewrite redact_all_literal in Hred by done. injection Hred as <-.
  eexists dump, _, logged. split; [done|]. split; [exact Hlog|]. split; [done|].
  assert (Hm : bytes_of_string redaction_marker ≠ []) by done.
  split.
  - apply replace_keeps_absent; [done|done|by apply bytes_of_string_nonempty|].
    apply replace_removes; [done|done|by apply bytes_of_string_nonempty].
  - apply replace_removes; [done|done|by apply bytes_of_string_nonempty].
Qed.

(** X13. [getClient] returns a pointer that did not exist before, to a copy
    of the configured [http.Client]; the configured one and the client are
    left as they were, and the read lock is released on every path, the
    panic on a nil HTTP client included. *)
Theorem getClient_returns_fresh_copy c w r w' :
  getClient c w = (r, w') →
  clients w' = clients w ∧
  match r with
  | Done l =>
      ∃ cl hl hc,
        clients w !! c = Some cl ∧ httpClient cl = Some hl ∧
        http_clients w !! hl = Some hc ∧
        http_clients w !! l = None ∧
        http_clients w' = <[l := hc]> (http_clients w)
  | Failed _ => False
  | Panicked _ =>
      w' = w ∧
      (clients w !! c = None ∨
       ∃ cl, clients w !! c = Some cl ∧ httpClient cl ≫= (http_clients w !!.) = None)
  end.
Proof.
  rewrite getClient_run.
  destruct (clients w !! c) as [cl|] eqn:Hc.
  2:{ intros [= <- <-]. split; [done|]. split; [done|]. by left. }
  destruct (httpClient cl ≫= (http_clients w !!.)) as [hc|] eqn:Hhc.
  2:{ intros [= <- <-]. split; [done|]. split; [done|]. right. by exists cl. }
  intros [= <- <-]. split; [done|].
  destruct (httpClient cl) as [hl|] eqn:Hhl; [|done]. cbn in Hhc.
  exists cl, hl, hc. split; [done|]. split; [done|]. split; [done|].
  split; [apply not_elem_of_dom, is_fresh|done].
Qed.

(** X14. With debugging off, an [Error] a call returns was built from a
    response: a request was sent, the status code is 400 or more, and the
    error renders as the message with the status code, or as an unknown
    error when the envelope has no message. *)
Theorem doRequest_Error_renders_with_status
    c ctx method endpoint query body hdrs w w' cl e :
  clients w !! c = Some cl →
  debug cl = false →
  doRequest c ctx method endpoint query body hdrs w = (Failed (apiError e), w') →
  (∃ wire, issued w w' wire) ∧
  (400 ≤ Error.StatusCode e)%Z ∧
  Error.Error e =
    (if String.eqb (ErrorMessage (Error.Response e)) EmptyString
     then "unknown error (" +:+ fmt.decimal (Error.StatusCode e) +:+ ")"
     else ErrorMessage (Error.Response e) +:+ " (" +:+
          fmt.decimal (Error.StatusCode e) +:+ ")").
Proof.
  intros Hc Hdbg Hrun.
  destruct (doRequest_cases _ _ _ _ _ _ _ _ _ _ _ Hc Hrun) as [[Hfr Hwhy]|Hrest].
  { exfalso. destruct Hwhy as [[Hbf _]|(_ & _ & e' & [=] & _)].
    by destruct Hbf as [[? [=]]|[[? [=]]|[=]]]. }
  destruct Hrest as (wb & req & bodyBytes & bopt & u & Hex & Hwb & _ & _ & _ & _ & _ & _
                     & _ & Hctx & _ & Hbody & _).
  assert (Hs : sent wb = sent w) by (rewrite Hwb; by wsimpl).
  rewrite (exchange_run _ _ _ _ _ Hbody) in Hex. cbv zeta in Hex.
  change (debug (snapshot cl)) with (debug cl) in Hex. rewrite Hdbg in Hex.
  assert (Hcode : (400 ≤ Error.StatusCode e)%Z ∧ ∃ wire, issued w w' wire).
  { unfold issued. rewrite <- Hs.
    repeat case_match; simplify_eq; wsimpl.
    all: match goal with Hcl : (classify ?resp ?b ?w0).1 = Failed _ |- _ =>
      unfold classify, http.StatusBadRequest in Hcl;
      destruct (Z.leb_spec 400 (http.RespStatusCode resp)); [|done];
      destruct (json_Unmarshal b); [|done]; injection Hcl as <-
    end.
    all: split; [done|]; by eexists. }
  destruct Hcode as [Hcode Hwire]. split; [done|]. split; [done|].
  rewrite Error_rendering_of_responses by done. reflexivity.
Qed.

(** X15. For a method other than POST and PUT the body argument has no
    effect: the call runs as it does with a nil body, whatever was passed (a
    PATCH carries no body either). *)
Theorem doRequest_ignores_body_of_other_methods
    c ctx method endpoint query body hdrs w :
  is_post_or_put method = false →
  doRequest c ctx method endpoint query body hdrs w =
  doRequest c ctx method endpoint query bodyNil hdrs w.
Proof.
  intros Hm. unfold doRequest. rewrite !bind_run.
  destruct (config c w) as [[cl|e|msg] w1]; [|done..].
  rewrite !bind_run. by rewrite !materialize_other.
Qed.

(** X16. When the body of a POST or PUT cannot be turned into bytes, the
    call stops there: the error of [json.Marshal] or of the stream comes
    back under its own prefix, and nothing was sent or logged, the clock was
    not read and no header map was made. *)
Theorem doRequest_body_failure c ctx method endpoint query body hdrs w r w' cl :
  clients w !! c = Some cl →
  is_post_or_put method = true →
  materialized (readers w) body = None →
  doRequest c ctx method endpoint query body hdrs w = (r, w') →
  sent w' = sent w ∧ log_output w' = log_output w ∧ ticks w' = ticks w ∧
  header_maps w' = header_maps w ∧
  match body with
  | bodyValue v =>
      ∃ e, json_Marshal v = err e ∧
           r = Failed (wrapError "error marshalling body to JSON: " e)
  | bodyReader r0 =>
      match readers w !! r0 with
      | Some rd => ∃ e, failure rd = Some e ∧ r = Failed (wrapError "error reading body: " e)
      | None => r = Panicked nil_dereference
      end
  | _ => False
  end.
Proof.
  intros Hc Hm Hmat. rewrite (doRequest_run _ _ _ _ _ _ _ _ _ Hc).
  unfold materialize. rewrite Hm.
  destruct body as [|r0|b|v]; cbn [is_nil negb andb materialized] in *; [done| |done|].
  - run. destruct (readers w !! r0) as [[bs [e|]]|] eqn:Hr; [|done|].
    + erewrite io_ReadAll_run by done. run. intros [= <- <-]. wsimpl.
      split_and!; try done. by exists e.
    + rewrite io_ReadAll_dangling by done. by intros [= <- <-].
  - destruct (json_Marshal v) as [b|e]; [done|]. run. intros [= <- <-].
    split_and!; try done. by exists e.
Qed.

End Behaviour.

(** * Properties of the construction *)

Section Constructed.

Context `{Package}.

(** X17. [New] returns a client only for a key and a secret that are both
    non-empty, and the client it returns holds that key, that secret and an
    HTTP client that is not nil, whatever the options did. With an empty key
    or secret it fails with [errEmptyCredentials] before anything is
    allocated or any option runs; its only other error is the error of an
    option, wrapped as an options parsing failure. *)
Theorem New_contract key secret opts w r w' :
  New key secret opts w = (r, w') →
  (key = EmptyString ∨ secret = EmptyString →
   r = Failed (errorString errEmptyCredentials) ∧ w' = w) ∧
  (∀ c, r = Done c →
        key ≠ EmptyString ∧ secret ≠ EmptyString ∧
        ∃ cl, clients w' !! c = Some cl ∧ apiKey cl = key ∧ apiSecret cl = secret ∧
              is_Some (httpClient cl)) ∧
  (∀ e, r = Failed e →
        e = errorString errEmptyCredentials ∨
        ∃ e', e = wrapError "options parsing failed: " e').
Proof. apply New_inv. Qed.

(** X18. With options of the package, [New] succeeds for a non-empty key and
    secret and allocates a new client and a new, empty header map; of the
    options of one kind the last one counts; the base URL and the debug flag
    default to the constant of the package and to false, the HTTP client to
    [http.DefaultClient], also when the last [HTTPClient] option passed nil. *)
Theorem New_applies_package_options key secret (opts : list PackageOption) w :
  key ≠ EmptyString → secret ≠ EmptyString →
  ∃ c h,
    clients w !! c = None ∧ header_maps w !! h = None ∧
    New key secret (to_Option <$> opts) w =
    (Done c,
     set_clients
       (<[c := mkClient 0 key secret (List.last (given_baseURL opts) const_baseUrl)
                 (List.last (given_debug opts) false) const_userAgent (Some h)
                 (Some (default http_DefaultClient
                          (List.last (given_httpClient opts) None)))]>
          (clients w))
       (set_header_maps (<[h := ∅]> (header_maps w)) w)).
Proof.
  intros Hk Hs. eexists _, _. split; [apply fresh_client|]. split; [apply fresh_header|].
  by apply New_package.
Qed.

(** X19. Once an option has failed, [New] has failed: options that follow
    are not run, so that the same error and the same state come out whatever
    follows. *)
Theorem New_failure_is_final key secret opts more w e w' :
  New key secret opts w = (Failed e, w') →
  New key secret (opts ++ more) w = (Failed e, w').
Proof.
  rewrite !New_run. destruct (_ || _); [done|].
  rewrite !newClient_run. cbv zeta. rewrite parseOptions_app.
  destruct (parseOptions _ opts _) as [[[]|e0|msg] w1]; [|done..].
  destruct (clients w1 !! _) as [cl|]; [|done].
  destruct (httpClient cl); wsimpl; rewrite ?lookup_insert_eq; [|done].
  by destruct (clients w1 !! _).
Qed.

End Constructed.

Section ConstructedRequests.

Context `{Package} `{Library}.

(** X20. The requests of a client made by [New] are signed with the secret
    and carry the key that were passed to [New], whatever the options did. *)
Theorem New_credentials_sign_requests
    key secret opts w0 c w ctx method endpoint query body hdrs r w' wire :
  New key secret opts w0 = (Done c, w) →
  doRequest c ctx method endpoint query body hdrs w = (r, w') →
  issued w w' wire →
  http.wHeader wire !! "Authorization" =
    Some [authorization key
            (Signer.sign secret (http.wMethod wire) (url.Path (http.wURL wire))
               (clock w (ticks w)) (default [] (http.wBody wire)))
            (clock w (ticks w))].
Proof.
  intros Hnew Hrun Hiss.
  destruct (New_inv _ _ _ _ _ _ Hnew) as (_ & Hdone & _).
  destruct (Hdone c eq_refl) as (_ & _ & cl & Hc & <- & <- & _).
  by destruct (issued_authorization _ _ _ _ _ _ _ _ _ _ _ _ Hc Hrun Hiss).
Qed.

End ConstructedRequests.

(** * The tenant service *)

Section TenantProofs.

Context `{Codec}.

Lemma Create_run s ctx request w :
  Create (Some s) ctx request w =
  match post (service_client s) ctx "/tenants" ∅
          (bodyValue (of_TenantCreateRequest request)) None w with
  | (Done res, w') =>
      (match json_Unmarshal_Tenant (Body res) with
       | err e => Failed (wrapError "failed to unmarshal tenant JSON data: " e)
       | ok r => Done (SuccessResponse.Data r)
       end, w')
  | (Failed e, w') => (Failed e, w')
  | (Panicked msg, w') => (Panicked msg, w')
  end.
Proof.
  unfold Create. cbn [service_of]. rewrite bind_run, ret_run, bind_run.
  destruct (post _ _ _ _ _ _ w) as [[res|e|msg] w']; [|done..].
  by destruct (json_Unmarshal_Tenant (Body res)).
Qed.

Lemma Update_run s ctx tenantId request w :
  Update (Some s) ctx tenantId request w =
  match put (service_client s) ctx ("/tenants/" +:+ tenantId) ∅
          (bodyValue (of_TenantUpdateRequest request)) None w with
  | (Done res, w') =>
      (match json_Unmarshal_Tenant (Body res) with
       | err e => Failed (wrapError "failed to unmarshal tenant JSON data: " e)
       | ok r => Done (SuccessResponse.Data r)
       end, w')
  | (Failed e, w') => (Failed e, w')
  | (Panicked msg, w') => (Panicked msg, w')
  end.
Proof.
  unfold Update. cbn [service_of]. rewrite bind_run, ret_run, bind_run.
  destruct (put _ _ _ _ _ _ w) as [[res|e|msg] w']; [|done..].
  by destruct (json_Unmarshal_Tenant (Body res)).
Qed.

Lemma List_run s ctx w :
  List (Some s) ctx w =
  match get (service_client s) ctx "/tenants" ∅ None w with
  | (Done res, w') =>
      (match json_Unmarshal_Tenants (Body res) with
       | err e => Failed (wrapError "failed to unmarshal tenant JSON data: " e)
       | ok r => Done (SuccessPagingResponse.Data r, SuccessPagingResponse.Total r)
       end, w')
  | (Failed e, w') => (Failed e, w')
  | (Panicked msg, w') => (Panicked msg, w')
  end.
Proof.
  unfold List. cbn [service_of]. rewrite bind_run, ret_run, bind_run.
  destruct (get _ _ _ _ _ w) as [[res|e|msg] w']; [|done..].
  by destruct (json_Unmarshal_Tenants (Body res)).
Qed.

(** The answer of a call whose request got a readable response. *)
Lemma doRequest_answer c ctx method endpoint query body hdrs w r w' cl hc wire resp respBody :
  clients w !! c = Some cl →
  httpClient cl ≫= (http_clients w !!.) = Some hc →
  doRequest c ctx method endpoint query body hdrs w = (r, w') →
  issued w w' wire →
  http.Transport hc wire = ok resp →
  http.RespBody resp = mkReader respBody None →
  (debug cl = true → ∃ dump, dump_response resp respBody = ok dump) →
  r = if (400 <=? http.RespStatusCode resp)%Z
      then match json_Unmarshal respBody with
           | err e => Failed (wrapError "failed to unmarshal response body: " e)
           | ok envelope => Failed (apiError (Error.mk envelope (http.RespStatusCode resp)))
           end
      else Done (mkAPIResponse respBody (http.RespStatus resp)
                   (http.RespStatusCode resp) (http.RespHeader resp)).
Proof.
  intros Hc Hhc Hrun Hiss Ht Hrb Hdump.
  destruct (doRequest_issued_outcome _ _ _ _ _ _ _ _ _ _ _ _ _ Hc Hhc Hrun Hiss)
    as (traced & logged & _ & _ & Hres).
  rewrite Ht, Hrb in Hres. cbn [failure pending] in Hres. cbv zeta in Hres.
  assert (Hr : r = (classify resp respBody w).1).
  { destruct (debug cl).
    - destruct Hdump as [dump Hd]; [done|]. rewrite Hd in Hres. by destruct Hres.
    - by destruct Hres. }
  rewrite Hr. unfold classify, http.StatusBadRequest.
  destruct (400 <=? http.RespStatusCode resp)%Z; [|done].
  by destruct (json_Unmarshal respBody).
Qed.

Lemma filter_no_query :
  filter (fun kv : string * list string => kv.2 ≠ []) (∅ : gmap string (list string)) = ∅.
Proof. apply map_filter_empty. Qed.

(** X21. [Create] sends one POST to [/tenants] whose body is the JSON of the
    request pointer, also when the pointer is nil (the literal of an absent
    body is not used), with no query; the signature covers these bytes. *)
Theorem Create_request s ctx request w r w' cl wire :
  clients w !! service_client s = Some cl →
  Create (Some s) ctx request w = (r, w') →
  issued w w' wire →
  ∃ u b,
    url_Parse (baseUrl cl +:+ "/tenants") = ok u ∧
    json_Marshal (of_TenantCreateRequest request) = ok b ∧
    http.wMethod wire = "POST" ∧
    url.Path (http.wURL wire) = url.Path u ∧
    url.RawQuery (http.wURL wire) = Values_Encode ∅ ∧
    http.wBody wire = Some b ∧
    http.wHeader wire !! "Authorization" =
      Some [authorization (apiKey cl)
              (Signer.sign (apiSecret cl) "POST" (url.Path u) (clock w (ticks w)) b)
              (clock w (ticks w))].
Proof.
  intros Hc Hrun Hiss. rewrite Create_run in Hrun. unfold post in Hrun.
  destruct (doRequest _ _ _ _ _ _ _ w) as [r0 w1] eqn:Hdo.
  assert (w1 = w') as -> by (by destruct r0; injection Hrun).
  destruct (doRequest_wire _ _ _ _ _ _ _ _ _ _ _ _ Hc Hdo Hiss)
    as (u & b & Hu & _ & -> & Hmat).
  cbn [is_post_or_put http.MethodPost String.eqb Ascii.eqb Bool.eqb orb] in Hmat.
  destruct Hmat as [Hmat _]. unfold materialized in Hmat.
  destruct (json_Marshal (of_TenantCreateRequest request)) as [b'|] eqn:Hj; [|done].
  injection Hmat as ->.
  exists u, b. cbn [http.wMethod http.wURL http.wBody http.wHeader].
  rewrite effective_headers_Authorization. unfold request_url. rewrite filter_no_query.
  done.
Qed.

(** X22. What [Create] returns once the response is in: under 400, the
    [Data] of the decoded envelope, whatever its [Success] field says, or
    the error of the decoding, wrapped; from 400 on, the error of the client
    as it is. *)
Theorem Create_result s ctx request w r w' cl hc wire resp respBody :
  clients w !! service_client s = Some cl →
  httpClient cl ≫= (http_clients w !!.) = Some hc →
  Create (Some s) ctx request w = (r, w') →
  issued w w' wire →
  http.Transport hc wire = ok resp →
  http.RespBody resp = mkReader respBody None →
  (debug cl = true → ∃ dump, dump_response resp respBody = ok dump) →
  ((http.RespStatusCode resp < 400)%Z →
   r = match json_Unmarshal_Tenant respBody with
       | ok envelope => Done (SuccessResponse.Data envelope)
       | err e => Failed (wrapError "failed to unmarshal tenant JSON data: " e)
       end) ∧
  ((400 ≤ http.RespStatusCode resp)%Z →
   r = match json_Unmarshal respBody with
       | ok envelope => Failed (apiError (Error.mk envelope (http.RespStatusCode resp)))
       | err e => Failed (wrapError "failed to unmarshal response body: " e)
       end).
Proof.
  intros Hc Hhc Hrun Hiss Ht Hrb Hdump. rewrite Create_run in Hrun. unfold post in Hrun.
  destruct (doRequest _ _ _ _ _ _ _ w) as [r0 w1] eqn:Hdo.
  assert (w1 = w') as -> by (by destruct r0; injection Hrun).
  pose proof (doRequest_answer _ _ _ _ _ _ _ _ _ _ _ _ _ _ _ Hc Hhc Hdo Hiss Ht Hrb Hdump)
    as Hr0.
  split; intros Hcode.
  - destruct (Z.leb_spec 400 (http.RespStatusCode resp)); [lia|]. subst r0.
    cbn [Body] in Hrun. by injection Hrun as <-.
  - destruct (Z.leb_spec 400 (http.RespStatusCode resp)); [|lia]. subst r0.
    destruct (json_Unmarshal respBody); by injection Hrun as <-.
Qed.

(** X23. [Update] sends one PUT to [/tenants/] followed by [tenantId] as it
    was passed, not escaped and whatever [Id] the request holds; the body is
    the JSON of the request pointer and the signature covers it. *)
Theorem Update_request s ctx tenantId request w r w' cl wire :
  clients w !! service_client s = Some cl →
  Update (Some s) ctx tenantId request w = (r, w') →
  issued w w' wire →
  ∃ u b,
    url_Parse (baseUrl cl +:+ "/tenants/" +:+ tenantId) = ok u ∧
    json_Marshal (of_TenantUpdateRequest request) = ok b ∧
    http.wMethod wire = "PUT" ∧
    url.Path (http.wURL wire) = url.Path u ∧
    url.RawQuery (http.wURL wire) = Values_Encode ∅ ∧
    http.wBody wire = Some b ∧
    http.wHeader wire !! "Authorization" =
      Some [authorization (apiKey cl)
              (Signer.sign (apiSecret cl) "PUT" (url.Path u) (clock w (ticks w)) b)
              (clock w (ticks w))].
Proof.
  intros Hc Hrun Hiss. rewrite Update_run in Hrun. unfold put in Hrun.
  destruct (doRequest _ _ _ _ _ _ _ w) as [r0 w1] eqn:Hdo.
  assert (w1 = w') as -> by (by destruct r0; injection Hrun).
  destruct (doRequest_wire _ _ _ _ _ _ _ _ _ _ _ _ Hc Hdo Hiss)
    as (u & b & Hu & _ & -> & Hmat).
  cbn [is_post_or_put http.MethodPost http.MethodPut String.eqb Ascii.eqb Bool.eqb orb] in Hmat.
  destruct Hmat as [Hmat _]. unfold materialized in Hmat.
  destruct (json_Marshal (of_TenantUpdateRequest request)) as [b'|] eqn:Hj; [|done].
  injection Hmat as ->.
  exists u, b. cbn [http.wMethod http.wURL http.wBody http.wHeader].
  rewrite effective_headers_Authorization. unfold request_url. rewrite filter_no_query.
  done.
Qed.

(** X24. [List] sends one GET to [/tenants] with no query and no body, and
    returns the [Data] and the [Total] of the decoded envelope when the
    status is under 400, whatever its [Success] field says. *)
Theorem List_request_and_result s ctx w r w' cl hc wire resp respBody :
  clients w !! service_client s = Some cl →
  httpClient cl ≫= (http_clients w !!.) = Some hc →
  List (Some s) ctx w = (r, w') →
  issued w w' wire →
  http.Transport hc wire = ok resp →
  http.RespBody resp = mkReader respBody None →
  (debug cl = true → ∃ dump, dump_response resp respBody = ok dump) →
  (∃ u, url_Parse (baseUrl cl +:+ "/tenants") = ok u ∧
        http.wMethod wire = "GET" ∧
        url.Path (http.wURL wire) = url.Path u ∧
        url.RawQuery (http.wURL wire) = Values_Encode ∅ ∧
        http.wBody wire = None) ∧
  ((http.RespStatusCode resp < 400)%Z →
   r = match json_Unmarshal_Tenants respBody with
       | ok envelope =>
           Done (SuccessPagingResponse.Data envelope, SuccessPagingResponse.Total envelope)
       | err e => Failed (wrapError "failed to unmarshal tenant JSON data: " e)
       end).
Proof.
  intros Hc Hhc Hrun Hiss Ht Hrb Hdump. rewrite List_run in Hrun. unfold get in Hrun.
  destruct (doRequest _ _ _ _ _ _ _ w) as [r0 w1] eqn:Hdo.
  assert (w1 = w') as -> by (by destruct r0; injection Hrun).
  split.
  - destruct (doRequest_wire _ _ _ _ _ _ _ _ _ _ _ _ Hc Hdo Hiss)
      as (u & b & Hu & _ & Hw & _).
    exists u. rewrite Hw. cbn [http.wMethod http.wURL http.wBody].
    unfold request_url. rewrite filter_no_query. done.
  - intros Hcode.
    pose proof (doRequest_answer _ _ _ _ _ _ _ _ _ _ _ _ _ _ _ Hc Hhc Hdo Hiss Ht Hrb Hdump)
      as Hr0.
    destruct (Z.leb_spec 400 (http.RespStatusCode resp)); [lia|]. subst r0.
    cbn [Body] in Hrun. by injection Hrun as <-.
Qed.

End TenantProofs.

(** * More runs on concrete inputs *)

Ltac evaluate := vm_compute; reflexivity.

Section MoreRuns.

#[local] Existing Instance Fixture.library.
#[local] Existing Instance Sample.package.

Lemma doRequest_sends_at_most_once_witness :
  (sent Scenario.get_run.2 = sent Scenario.world ∨
   ∃ wire, issued Scenario.world Scenario.get_run.2 wire) ∧
  (∀ a, Scenario.get_run.1 = Done a →
        ∃ wire, issued Scenario.world Scenario.get_run.2 wire).
Proof.
  exact (doRequest_sends_at_most_once 1%positive ctxLive http.MethodGet "/get" ∅ bodyNil
           None Scenario.world Scenario.get_run.1 Scenario.get_run.2
           (surjective_pairing Scenario.get_run)).
Defined.

Lemma doRequest_logs_only_when_debugging_witness :
  clients Scenario.debug_world !! 1%positive = Some Scenario.debug_client ∧
  ∃ added,
    log_output Scenario.debug_run.2 = log_output Scenario.debug_world ++ added ∧
    (length added ≤ 2)%nat ∧
    (debug Scenario.debug_client = false → added = []).
Proof.
  assert (Hc : clients Scenario.debug_world !! 1%positive = Some Scenario.debug_client)
    by evaluate.
  split; [exact Hc|].
  exact (doRequest_logs_only_when_debugging 1%positive ctxLive http.MethodGet "/get" ∅
           bodyNil None Scenario.debug_world Scenario.debug_run.1 Scenario.debug_run.2
           Scenario.debug_client Hc (surjective_pairing Scenario.debug_run)).
Defined.

Lemma doRequest_creation_failure_witness :
  clients Scenario.world !! 1%positive = Some Scenario.client ∧
  validMethod (effective_method "BAD METHOD") = false ∧
  sent Sample.bad_method_run.2 = sent Scenario.world ∧
  log_output Sample.bad_method_run.2 = log_output Scenario.world ∧
  (body_failure Sample.bad_method_run.1 ∧
   ticks Sample.bad_method_run.2 = ticks Scenario.world ∨
   ticks Sample.bad_method_run.2 = S (ticks Scenario.world) ∧
   (∃ e, Sample.bad_method_run.1 =
         Failed (wrapError "ZeroGate request creation failed: " e)) ∧
   (is_post_or_put "BAD METHOD" = true →
    ∀ r0, bodyNil = bodyReader r0 →
          readers Sample.bad_method_run.2 !! r0 = Some (mkReader [] None))).
Proof.
  assert (Hc : clients Scenario.world !! 1%positive = Some Scenario.client) by evaluate.
  assert (Hv : validMethod (effective_method "BAD METHOD") = false) by reflexivity.
  split; [exact Hc|]. split; [exact Hv|].
  exact (doRequest_creation_failure 1%positive ctxLive "BAD METHOD" "/get" ∅ bodyNil None
           Scenario.world Sample.bad_method_run.1 Sample.bad_method_run.2 Scenario.client
           Hc (or_introl Hv) (surjective_pairing Sample.bad_method_run)).
Defined.

Lemma doRequest_transport_failure_witness :
  clients Sample.refused_world !! 1%positive = Some Scenario.client ∧
  issued Sample.refused_world Sample.refused_run.2 (Scenario.last_wire Sample.refused_run) ∧
  http.Transport Sample.refusing_server (Scenario.last_wire Sample.refused_run) =
    err (errorString "connection refused") ∧
  Sample.refused_run.1 =
    Failed (wrapError "ZeroGate request failed: " (errorString "connection refused")) ∧
  In (errorString "connection refused")
     (chain (wrapError "ZeroGate request failed: " (errorString "connection refused"))).
Proof.
  assert (Hc : clients Sample.refused_world !! 1%positive = Some Scenario.client)
    by evaluate.
  assert (Hhc : httpClient Scenario.client ≫= (http_clients Sample.refused_world !!.)
                = Some Sample.refusing_server) by reflexivity.
  assert (Hiss : issued Sample.refused_world Sample.refused_run.2
                   (Scenario.last_wire Sample.refused_run)) by evaluate.
  assert (Ht : http.Transport Sample.refusing_server (Scenario.last_wire Sample.refused_run)
               = err (errorString "connection refused")) by reflexivity.
  split; [exact Hc|]. split; [exact Hiss|]. split; [exact Ht|].
  exact (doRequest_transport_failure 1%positive ctxLive http.MethodGet "/get" ∅ bodyNil None
           Sample.refused_world Sample.refused_run.1 Sample.refused_run.2 Scenario.client
           Sample.refusing_server (Scenario.last_wire Sample.refused_run)
           (errorString "connection refused") Hc Hhc
           (surjective_pairing Sample.refused_run) Hiss Ht).
Defined.

Lemma doRequest_unreadable_response_witness :
  clients (Sample.broken_world true) !! 1%positive = Some Scenario.debug_client ∧
  issued (Sample.broken_world true) (Sample.broken_run true).2
    (Scenario.last_wire (Sample.broken_run true)) ∧
  failure (http.RespBody Sample.broken_response) = Some (errorString "unexpected EOF") ∧
  (Sample.broken_run true).1 = Failed (errorString "unexpected EOF").
Proof.
  assert (Hc : clients (Sample.broken_world true) !! 1%positive = Some Scenario.debug_client)
    by evaluate.
  assert (Hhc : httpClient Scenario.debug_client ≫= (http_clients (Sample.broken_world true) !!.)
                = Some Sample.broken_server) by reflexivity.
  assert (Hiss : issued (Sample.broken_world true) (Sample.broken_run true).2
                   (Scenario.last_wire (Sample.broken_run true))) by evaluate.
  assert (Ht : http.Transport Sample.broken_server
                 (Scenario.last_wire (Sample.broken_run true)) = ok Sample.broken_response)
    by reflexivity.
  assert (Hf : failure (http.RespBody Sample.broken_response) =
               Some (errorString "unexpected EOF")) by reflexivity.
  split; [exact Hc|]. split; [exact Hiss|]. split; [exact Hf|].
  exact (doRequest_unreadable_response 1%positive ctxLive http.MethodGet "/get" ∅ bodyNil
           None (Sample.broken_world true) (Sample.broken_run true).1
           (Sample.broken_run true).2 Scenario.debug_client Sample.broken_server
           (Scenario.last_wire (Sample.broken_run true)) Sample.broken_response
           (errorString "unexpected EOF") Hc Hhc
           (surjective_pairing (Sample.broken_run true)) Hiss Ht Hf).
Defined.

Lemma doRequest_query_replaces_endpoint_query_witness :
  clients Scenario.world !! 1%positive = Some Scenario.client ∧
  issued Scenario.world Sample.query_run.2 (Scenario.last_wire Sample.query_run) ∧
  ∃ u,
    url_Parse (baseUrl Scenario.client +:+ "/tenants?page=1") = ok u ∧
    url.RawQuery (http.wURL (Scenario.last_wire Sample.query_run)) =
      Values_Encode (filter (fun kv : string * list string => kv.2 ≠ []) Sample.paging) ∧
    url.Path (http.wURL (Scenario.last_wire Sample.query_run)) = url.Path u ∧
    url.Scheme (http.wURL (Scenario.last_wire Sample.query_run)) = url.Scheme u.
Proof.
  assert (Hc : clients Scenario.world !! 1%positive = Some Scenario.client) by evaluate.
  assert (Hiss : issued Scenario.world Sample.query_run.2
                   (Scenario.last_wire Sample.query_run)) by evaluate.
  split; [exact Hc|]. split; [exact Hiss|].
  exact (doRequest_query_replaces_endpoint_query 1%positive ctxLive http.MethodGet
           "/tenants?page=1" Sample.paging bodyNil None Scenario.world
           Sample.query_run.1 Sample.query_run.2 Scenario.client
           (Scenario.last_wire Sample.query_run) Hc
           (surjective_pairing Sample.query_run) Hiss).
Defined.

Lemma doRequest_signature_ignores_query_and_headers_witness :
  clients Scenario.agent_world !! 1%positive = Some Scenario.agent_client ∧
  issued Scenario.agent_world Scenario.agent_run.2 (Scenario.last_wire Scenario.agent_run) ∧
  issued Scenario.agent_world Sample.agent_query_run.2
    (Scenario.last_wire Sample.agent_query_run) ∧
  http.wHeader (Scenario.last_wire Scenario.agent_run) !! "Authorization" =
  http.wHeader (Scenario.last_wire Sample.agent_query_run) !! "Authorization".
Proof.
  assert (Hc : clients Scenario.agent_world !! 1%positive = Some Scenario.agent_client)
    by evaluate.
  assert (Hiss1 : issued Scenario.agent_world Scenario.agent_run.2
                    (Scenario.last_wire Scenario.agent_run)) by evaluate.
  assert (Hiss2 : issued Scenario.agent_world Sample.agent_query_run.2
                    (Scenario.last_wire Sample.agent_query_run)) by evaluate.
  split; [exact Hc|]. split; [exact Hiss1|]. split; [exact Hiss2|].
  exact (doRequest_signature_ignores_query_and_headers 1%positive ctxLive http.MethodGet
           "/get" bodyNil ∅ (Some 2%positive) Sample.paging None Scenario.agent_world
           Scenario.agent_run.1 Scenario.agent_run.2
           Sample.agent_query_run.1 Sample.agent_query_run.2 Scenario.agent_client
           (Scenario.last_wire Scenario.agent_run)
           (Scenario.last_wire Sample.agent_query_run)
           Hc (surjective_pairing Scenario.agent_run) Hiss1
           (surjective_pairing Sample.agent_query_run) Hiss2).
Defined.

Lemma doRequest_empty_method_is_GET_witness :
  clients Scenario.world !! 1%positive = Some Scenario.client ∧
  issued Scenario.world Sample.empty_method_run.2
    (Scenario.last_wire Sample.empty_method_run) ∧
  http.wMethod (Scenario.last_wire Sample.empty_method_run) = "GET" ∧
  http.wBody (Scenario.last_wire Sample.empty_method_run) = None ∧
  http.wHeader (Scenario.last_wire Sample.empty_method_run) !! "Authorization" =
    Some [authorization (apiKey Scenario.client)
            (Signer.sign (apiSecret Scenario.client) "GET"
               (url.Path (http.wURL (Scenario.last_wire Sample.empty_method_run)))
               (clock Scenario.world (ticks Scenario.world)) [])
            (clock Scenario.world (ticks Scenario.world))].
Proof.
  assert (Hc : clients Scenario.world !! 1%positive = Some Scenario.client) by evaluate.
  assert (Hiss : issued Scenario.world Sample.empty_method_run.2
                   (Scenario.last_wire Sample.empty_method_run)) by evaluate.
  split; [exact Hc|]. split; [exact Hiss|].
  exact (doRequest_empty_method_is_GET 1%positive ctxLive "/get" ∅
           (bodySlice Scenario.post_body) None Scenario.world
           Sample.empty_method_run.1 Sample.empty_method_run.2 Scenario.client
           (Scenario.last_wire Sample.empty_method_run) Hc
           (surjective_pairing Sample.empty_method_run) Hiss).
Defined.

Lemma doRequest_done_context_witness :
  clients Scenario.world !! 1%positive = Some Scenario.client ∧
  sent Sample.timeout_run.2 = sent Scenario.world ∧
  (∀ a, Sample.timeout_run.1 ≠ Done a) ∧
  (debug Scenario.client = false →
   is_Some (httpClient Scenario.client ≫= (http_clients Scenario.world !!.)) →
   body_failure Sample.timeout_run.1 ∨
   (∃ e', Sample.timeout_run.1 =
          Failed (wrapError "ZeroGate request creation failed: " e')) ∨
   Sample.timeout_run.1 =
     Failed (wrapError "ZeroGate request failed: " (urlError Sample.deadline_exceeded)) ∧
   In Sample.deadline_exceeded
      (chain (wrapError "ZeroGate request failed: " (urlError Sample.deadline_exceeded)))).
Proof.
  assert (Hc : clients Scenario.world !! 1%positive = Some Scenario.client) by evaluate.
  split; [exact Hc|].
  exact (doRequest_done_context 1%positive http.MethodGet "/timeout" ∅ bodyNil None
           Scenario.world Sample.timeout_run.1 Sample.timeout_run.2 Scenario.client
           Sample.deadline_exceeded Hc (surjective_pairing Sample.timeout_run)).
Defined.

Lemma doRequest_without_http_client_witness :
  clients Sample.bare_world !! 1%positive = Some Sample.bare_client ∧
  httpClient Sample.bare_client ≫= (http_clients Sample.bare_world !!.) = None ∧
  sent Sample.bare_run.2 = sent Sample.bare_world ∧
  (∀ a, Sample.bare_run.1 ≠ Done a) ∧
  (debug Sample.bare_client = false →
   body_failure Sample.bare_run.1 ∨
   (∃ e', Sample.bare_run.1 =
          Failed (wrapError "ZeroGate request creation failed: " e')) ∨
   Sample.bare_run.1 = Panicked nil_dereference).
Proof.
  assert (Hc : clients Sample.bare_world !! 1%positive = Some Sample.bare_client)
    by evaluate.
  assert (Hhc : httpClient Sample.bare_client ≫= (http_clients Sample.bare_world !!.) = None)
    by reflexivity.
  split; [exact Hc|]. split; [exact Hhc|].
  exact (doRequest_without_http_client 1%positive ctxLive http.MethodGet "/get" ∅ bodyNil
           None Sample.bare_world Sample.bare_run.1 Sample.bare_run.2 Sample.bare_client
           Hc Hhc (surjective_pairing Sample.bare_run)).
Defined.

Lemma doRequest_debug_invalid_pattern_witness :
  clients Sample.pattern_world !! 1%positive = Some Sample.pattern_client ∧
  debug Sample.pattern_client = true ∧
  regexp_Compile ("(?m)" +:+ apiKey Sample.pattern_client) = None ∧
  sent Sample.pattern_run.2 = sent Sample.pattern_world ∧
  log_output Sample.pattern_run.2 = log_output Sample.pattern_world ∧
  (∀ a, Sample.pattern_run.1 ≠ Done a) ∧
  (body_failure Sample.pattern_run.1 ∨
   (∃ e', Sample.pattern_run.1 =
          Failed (wrapError "ZeroGate request creation failed: " e')) ∨
   (∃ wire e', dump_request wire = err e' ∧ Sample.pattern_run.1 = Failed e') ∨
   Sample.pattern_run.1 = Panicked "regexp: Compile: error parsing regexp").
Proof.
  assert (Hc : clients Sample.pattern_world !! 1%positive = Some Sample.pattern_client)
    by evaluate.
  assert (Hdbg : debug Sample.pattern_client = true) by reflexivity.
  assert (Hin : In "key(" [apiKey Sample.pattern_client; apiSecret Sample.pattern_client])
    by (left; reflexivity).
  assert (Hne : "key(" ≠ EmptyString) by discriminate.
  assert (Hcomp : regexp_Compile ("(?m)" +:+ "key(") = None) by reflexivity.
  split; [exact Hc|]. split; [exact Hdbg|]. split; [exact Hcomp|].
  exact (doRequest_debug_invalid_pattern 1%positive ctxLive http.MethodGet "/get" ∅ bodyNil
           None Sample.pattern_world Sample.pattern_run.1 Sample.pattern_run.2
           Sample.pattern_client "key(" Hc Hdbg Hin Hne Hcomp
           (surjective_pairing Sample.pattern_run)).
Defined.

Lemma doRequest_request_dump_redacted_witness :
  clients Scenario.debug_world !! 1%positive = Some Scenario.debug_client ∧
  debug Scenario.debug_client = true ∧
  issued Scenario.debug_world Scenario.debug_run.2 (Scenario.last_wire Scenario.debug_run) ∧
  ∃ dump logged rest,
    dump_request (Scenario.last_wire Scenario.debug_run) = ok dump ∧
    log_output Scenario.debug_run.2 =
      log_output Scenario.debug_world ++ (newline +:+ string_of_bytes logged) :: rest ∧
    logged =
      Fixture.replace_from (bytes_of_string (apiSecret Scenario.debug_client))
        (bytes_of_string redaction_marker) 0
        (Fixture.replace_from (bytes_of_string (apiKey Scenario.debug_client))
           (bytes_of_string redaction_marker) 0 dump) ∧
    ¬ occurs (bytes_of_string (apiKey Scenario.debug_client)) logged ∧
    ¬ occurs (bytes_of_string (apiSecret Scenario.debug_client)) logged.
Proof.
  assert (Hc : clients Scenario.debug_world !! 1%positive = Some Scenario.debug_client)
    by evaluate.
  assert (Hhc : httpClient Scenario.debug_client ≫= (http_clients Scenario.debug_world !!.)
                = Some Scenario.echo_server) by reflexivity.
  assert (Hdbg : debug Scenario.debug_client = true) by reflexivity.
  assert (Hk : apiKey Scenario.debug_client ≠ EmptyString) by discriminate.
  assert (Hs : apiSecret Scenario.debug_client ≠ EmptyString) by discriminate.
  assert (Hiss : issued Scenario.debug_world Scenario.debug_run.2
                   (Scenario.last_wire Scenario.debug_run)) by evaluate.
  destruct test_credentials_are_literal as (Hlk & Hls & Hdk & Hds).
  split; [exact Hc|]. split; [exact Hdbg|]. split; [exact Hiss|].
  exact (doRequest_request_dump_redacted 1%positive ctxLive http.MethodGet "/get" ∅ bodyNil
           None Scenario.debug_world Scenario.debug_run.1 Scenario.debug_run.2
           Scenario.debug_client Scenario.echo_server
           (Scenario.last_wire Scenario.debug_run)
           Hc Hhc Hdbg Hk Hs Hlk Hls Hdk Hds
           (surjective_pairing Scenario.debug_run) Hiss).
Defined.

Lemma getClient_returns_fresh_copy_witness :
  clients Sample.copy_run.2 = clients Scenario.world ∧
  match Sample.copy_run.1 with
  | Done l =>
      ∃ cl hl hc,
        clients Scenario.world !! 1%positive = Some cl ∧ httpClient cl = Some hl ∧
        http_clients Scenario.world !! hl = Some hc ∧
        http_clients Scenario.world !! l = None ∧
        http_clients Sample.copy_run.2 = <[l := hc]> (http_clients Scenario.world)
  | Failed _ => False
  | Panicked _ =>
      Sample.copy_run.2 = Scenario.world ∧
      (clients Scenario.world !! 1%positive = None ∨
       ∃ cl, clients Scenario.world !! 1%positive = Some cl ∧
             httpClient cl ≫= (http_clients Scenario.world !!.) = None)
  end.
Proof.
  exact (getClient_returns_fresh_copy 1%positive Scenario.world Sample.copy_run.1
           Sample.copy_run.2 (surjective_pairing Sample.copy_run)).
Defined.

Lemma doRequest_Error_renders_with_status_witness :
  clients Scenario.not_found_world !! 1%positive = Some Scenario.client ∧
  Scenario.not_found_run.1 = Failed (apiError Scenario.error_not_found) ∧
  (∃ wire, issued Scenario.not_found_world Scenario.not_found_run.2 wire) ∧
  (400 ≤ Error.StatusCode Scenario.error_not_found)%Z ∧
  Error.Error Scenario.error_not_found = "not found (404)".
Proof.
  assert (Hc : clients Scenario.not_found_world !! 1%positive = Some Scenario.client)
    by evaluate.
  assert (Hdbg : debug Scenario.client = false) by reflexivity.
  assert (Hr : Scenario.not_found_run.1 = Failed (apiError Scenario.error_not_found))
    by evaluate.
  assert (Hrun : doRequest 1%positive ctxLive http.MethodGet "/missing" ∅ bodyNil None
                   Scenario.not_found_world =
                 (Failed (apiError Scenario.error_not_found), Scenario.not_found_run.2)).
  { rewrite <- Hr. exact (surjective_pairing Scenario.not_found_run). }
  split; [exact Hc|]. split; [exact Hr|].
  exact (doRequest_Error_renders_with_status 1%positive ctxLive http.MethodGet "/missing" ∅
           bodyNil None Scenario.not_found_world Scenario.not_found_run.2 Scenario.client
           Scenario.error_not_found Hc Hdbg Hrun).
Defined.

Lemma New_contract_witness :
  Sample.new_run.1 = Done 1%positive ∧
  (Fixture.testApiKey = EmptyString ∨ Fixture.testApiSecret = EmptyString →
   Sample.new_run.1 = Failed (errorString errEmptyCredentials) ∧
   Sample.new_run.2 = Sample.start) ∧
  (∀ c, Sample.new_run.1 = Done c →
        Fixture.testApiKey ≠ EmptyString ∧ Fixture.testApiSecret ≠ EmptyString ∧
        ∃ cl, clients Sample.new_run.2 !! c = Some cl ∧
              apiKey cl = Fixture.testApiKey ∧ apiSecret cl = Fixture.testApiSecret ∧
              is_Some (httpClient cl)) ∧
  (∀ e, Sample.new_run.1 = Failed e →
        e = errorString errEmptyCredentials ∨
        ∃ e', e = wrapError "options parsing failed: " e').
Proof.
  split; [evaluate|].
  exact (New_contract Fixture.testApiKey Fixture.testApiSecret
           (to_Option <$> Sample.settings) Sample.start Sample.new_run.1 Sample.new_run.2
           (surjective_pairing Sample.new_run)).
Defined.

Lemma New_applies_package_options_witness :
  Fixture.testApiKey ≠ EmptyString ∧ Fixture.testApiSecret ≠ EmptyString ∧
  ∃ c h,
    clients Sample.start !! c = None ∧ header_maps Sample.start !! h = None ∧
    Sample.new_run =
    (Done c,
     set_clients
       (<[c := mkClient 0 Fixture.testApiKey Fixture.testApiSecret
                 (List.last (given_baseURL Sample.settings) const_baseUrl)
                 (List.last (given_debug Sample.settings) false) const_userAgent (Some h)
                 (Some (default http_DefaultClient
                          (List.last (given_httpClient Sample.settings) None)))]>
          (clients Sample.start))
       (set_header_maps (<[h := ∅]> (header_maps Sample.start)) Sample.start)).
Proof.
  assert (Hk : Fixture.testApiKey ≠ EmptyString) by discriminate.
  assert (Hs : Fixture.testApiSecret ≠ EmptyString) by discriminate.
  split; [exact Hk|]. split; [exact Hs|].
  exact (New_applies_package_options Fixture.testApiKey Fixture.testApiSecret
           Sample.settings Sample.start Hk Hs).
Defined.

Lemma New_failure_is_final_witness :
  Sample.failed_run =
    (Failed (wrapError "options parsing failed: " (errorString "unsupported option")),
     Sample.failed_run.2) ∧
  New Fixture.testApiKey Fixture.testApiSecret (Sample.failing_options ++ [Debug true])
      Sample.start =
    (Failed (wrapError "options parsing failed: " (errorString "unsupported option")),
     Sample.failed_run.2).
Proof.
  assert (Hr : Sample.failed_run.1 =
               Failed (wrapError "options parsing failed: "
                         (errorString "unsupported option"))) by evaluate.
  assert (Hrun : Sample.failed_run =
                 (Failed (wrapError "options parsing failed: "
                            (errorString "unsupported option")),
                  Sample.failed_run.2)).
  { rewrite <- Hr. exact (surjective_pairing Sample.failed_run). }
  split; [exact Hrun|].
  exact (New_failure_is_final Fixture.testApiKey Fixture.testApiSecret
           Sample.failing_options [Debug true] Sample.start _ _ Hrun).
Defined.

Lemma New_credentials_sign_requests_witness :
  Sample.made_run.1 = Done 1%positive ∧
  issued Sample.made_run.2 Sample.made_get_run.2 (Scenario.last_wire Sample.made_get_run) ∧
  http.wHeader (Scenario.last_wire Sample.made_get_run) !! "Authorization" =
    Some [authorization Fixture.testApiKey
            (Signer.sign Fixture.testApiSecret
               (http.wMethod (Scenario.last_wire Sample.made_get_run))
               (url.Path (http.wURL (Scenario.last_wire Sample.made_get_run)))
               (clock Sample.made_run.2 (ticks Sample.made_run.2))
               (default [] (http.wBody (Scenario.last_wire Sample.made_get_run))))
            (clock Sample.made_run.2 (ticks Sample.made_run.2))].
Proof.
  assert (Hr : Sample.made_run.1 = Done 1%positive) by evaluate.
  assert (Hnew : New Fixture.testApiKey Fixture.testApiSecret [] Sample.start =
                 (Done 1%positive, Sample.made_run.2)).
  { rewrite <- Hr. exact (surjective_pairing Sample.made_run). }
  assert (Hiss : issued Sample.made_run.2 Sample.made_get_run.2
                   (Scenario.last_wire Sample.made_get_run)) by evaluate.
  split; [exact Hr|]. split; [exact Hiss|].
  exact (New_credentials_sign_requests Fixture.testApiKey Fixture.testApiSecret []
           Sample.start 1%positive Sample.made_run.2 ctxLive http.MethodGet "/get" ∅
           bodyNil None Sample.made_get_run.1 Sample.made_get_run.2
           (Scenario.last_wire Sample.made_get_run) Hnew
           (surjective_pairing Sample.made_get_run) Hiss).
Defined.

Lemma doRequest_ignores_body_of_other_methods_witness :
  is_post_or_put "PATCH" = false ∧
  doRequest 1%positive ctxLive "PATCH" "/tenants" ∅ (bodySlice Scenario.post_body) None
    Scenario.world =
  doRequest 1%positive ctxLive "PATCH" "/tenants" ∅ bodyNil None Scenario.world.
Proof.
  assert (Hm : is_post_or_put "PATCH" = false) by reflexivity.
  split; [exact Hm|].
  exact (doRequest_ignores_body_of_other_methods 1%positive ctxLive "PATCH" "/tenants" ∅
           (bodySlice Scenario.post_body) None Scenario.world Hm).
Defined.

Lemma doRequest_body_failure_witness :
  clients Scenario.world !! 1%positive = Some Scenario.client ∧
  materialized (readers Scenario.world) (bodyValue Fixture.vChan) = None ∧
  sent Sample.unsupported_run.2 = sent Scenario.world ∧
  log_output Sample.unsupported_run.2 = log_output Scenario.world ∧
  ticks Sample.unsupported_run.2 = ticks Scenario.world ∧
  header_maps Sample.unsupported_run.2 = header_maps Scenario.world ∧
  ∃ e, json_Marshal Fixture.vChan = err e ∧
       Sample.unsupported_run.1 =
         Failed (wrapError "error marshalling body to JSON: " e).
Proof.
  assert (Hc : clients Scenario.world !! 1%positive = Some Scenario.client) by evaluate.
  assert (Hm : is_post_or_put http.MethodPost = true) by reflexivity.
  assert (Hmat : materialized (readers Scenario.world) (bodyValue Fixture.vChan) = None)
    by reflexivity.
  split; [exact Hc|]. split; [exact Hmat|].
  exact (doRequest_body_failure 1%positive ctxLive http.MethodPost "/post" ∅
           (bodyValue Fixture.vChan) None Scenario.world
           Sample.unsupported_run.1 Sample.unsupported_run.2 Scenario.client
           Hc Hm Hmat (surjective_pairing Sample.unsupported_run)).
Defined.

End MoreRuns.

Section TenantRuns.

#[local] Existing Instance TenantFixture.library.
#[local] Existing Instance TenantFixture.codec.

Lemma Create_request_witness :
  clients TenantFixture.tenant_world !! 1%positive = Some Scenario.client ∧
  issued TenantFixture.tenant_world TenantFixture.create_nil_run.2
    (last_sent TenantFixture.create_nil_run.2) ∧
  http.wBody (last_sent TenantFixture.create_nil_run.2) =
    Some (bytes_of_string "null") ∧
  ∃ u b,
    url_Parse (baseUrl Scenario.client +:+ "/tenants") = ok u ∧
    json_Marshal (of_TenantCreateRequest None) = ok b ∧
    http.wMethod (last_sent TenantFixture.create_nil_run.2) = "POST" ∧
    url.Path (http.wURL (last_sent TenantFixture.create_nil_run.2)) = url.Path u ∧
    url.RawQuery (http.wURL (last_sent TenantFixture.create_nil_run.2)) =
      Values_Encode ∅ ∧
    http.wBody (last_sent TenantFixture.create_nil_run.2) = Some b ∧
    http.wHeader (last_sent TenantFixture.create_nil_run.2) !! "Authorization" =
      Some [authorization (apiKey Scenario.client)
              (Signer.sign (apiSecret Scenario.client) "POST" (url.Path u)
                 (clock TenantFixture.tenant_world (ticks TenantFixture.tenant_world)) b)
              (clock TenantFixture.tenant_world (ticks TenantFixture.tenant_world))].
Proof.
  assert (Hc : clients TenantFixture.tenant_world !! 1%positive = Some Scenario.client)
    by evaluate.
  assert (Hiss : issued TenantFixture.tenant_world TenantFixture.create_nil_run.2
                   (last_sent TenantFixture.create_nil_run.2)) by evaluate.
  split; [exact Hc|]. split; [exact Hiss|]. split; [evaluate|].
  exact (Create_request (mkService 1%positive) ctxLive None TenantFixture.tenant_world
           TenantFixture.create_nil_run.1 TenantFixture.create_nil_run.2 Scenario.client
           (last_sent TenantFixture.create_nil_run.2) Hc
           (surjective_pairing TenantFixture.create_nil_run) Hiss).
Defined.

Lemma Create_result_witness :
  clients TenantFixture.tenant_world !! 1%positive = Some Scenario.client ∧
  issued TenantFixture.tenant_world TenantFixture.create_run.2
    (last_sent TenantFixture.create_run.2) ∧
  http.Transport TenantFixture.tenant_server (last_sent TenantFixture.create_run.2) =
    ok TenantFixture.tenant_response ∧
  (http.RespStatusCode TenantFixture.tenant_response < 400)%Z ∧
  json_Unmarshal_Tenant (bytes_of_string TenantFixture.tenant_body) =
    ok (SuccessResponse.mk false (Some TenantFixture.tenant)) ∧
  TenantFixture.create_run.1 = Done (Some TenantFixture.tenant).
Proof.
  assert (Hc : clients TenantFixture.tenant_world !! 1%positive = Some Scenario.client)
    by evaluate.
  assert (Hhc : httpClient Scenario.client ≫= (http_clients TenantFixture.tenant_world !!.)
                = Some TenantFixture.tenant_server) by reflexivity.
  assert (Hiss : issued TenantFixture.tenant_world TenantFixture.create_run.2
                   (last_sent TenantFixture.create_run.2)) by evaluate.
  assert (Ht : http.Transport TenantFixture.tenant_server
                 (last_sent TenantFixture.create_run.2)
               = ok TenantFixture.tenant_response) by reflexivity.
  assert (Hrb : http.RespBody TenantFixture.tenant_response =
                mkReader (bytes_of_string TenantFixture.tenant_body) None) by reflexivity.
  assert (Hdump : debug Scenario.client = true →
                  ∃ dump, dump_response TenantFixture.tenant_response
                            (bytes_of_string TenantFixture.tenant_body) = ok dump)
    by discriminate.
  assert (Hcode : (http.RespStatusCode TenantFixture.tenant_response < 400)%Z)
    by (cbn; lia).
  assert (Hj : json_Unmarshal_Tenant (bytes_of_string TenantFixture.tenant_body) =
               ok (SuccessResponse.mk false (Some TenantFixture.tenant))) by evaluate.
  split; [exact Hc|]. split; [exact Hiss|]. split; [exact Ht|]. split; [exact Hcode|].
  split; [exact Hj|].
  pose proof (proj1 (Create_result (mkService 1%positive) ctxLive
                       (Some TenantFixture.create_request) TenantFixture.tenant_world
                       TenantFixture.create_run.1 TenantFixture.create_run.2 Scenario.client
                       TenantFixture.tenant_server
                       (last_sent TenantFixture.create_run.2)
                       TenantFixture.tenant_response
                       (bytes_of_string TenantFixture.tenant_body)
                       Hc Hhc (surjective_pairing TenantFixture.create_run) Hiss Ht Hrb Hdump)
                Hcode) as Hres.
  rewrite Hj in Hres. exact Hres.
Defined.

Lemma Update_request_witness :
  clients TenantFixture.tenant_world !! 1%positive = Some Scenario.client ∧
  issued TenantFixture.tenant_world TenantFixture.update_run.2
    (last_sent TenantFixture.update_run.2) ∧
  url.Path (http.wURL (last_sent TenantFixture.update_run.2)) = "/tenants/ten_0000" ∧
  ∃ u b,
    url_Parse (baseUrl Scenario.client +:+ "/tenants/" +:+ "ten_0000") = ok u ∧
    json_Marshal (of_TenantUpdateRequest (Some TenantFixture.update_request)) = ok b ∧
    http.wMethod (last_sent TenantFixture.update_run.2) = "PUT" ∧
    url.Path (http.wURL (last_sent TenantFixture.update_run.2)) = url.Path u ∧
    url.RawQuery (http.wURL (last_sent TenantFixture.update_run.2)) =
      Values_Encode ∅ ∧
    http.wBody (last_sent TenantFixture.update_run.2) = Some b ∧
    http.wHeader (last_sent TenantFixture.update_run.2) !! "Authorization" =
      Some [authorization (apiKey Scenario.client)
              (Signer.sign (apiSecret Scenario.client) "PUT" (url.Path u)
                 (clock TenantFixture.tenant_world (ticks TenantFixture.tenant_world)) b)
              (clock TenantFixture.tenant_world (ticks TenantFixture.tenant_world))].
Proof.
  assert (Hc : clients TenantFixture.tenant_world !! 1%positive = Some Scenario.client)
    by evaluate.
  assert (Hiss : issued TenantFixture.tenant_world TenantFixture.update_run.2
                   (last_sent TenantFixture.update_run.2)) by evaluate.
  split; [exact Hc|]. split; [exact Hiss|]. split; [evaluate|].
  exact (Update_request (mkService 1%positive) ctxLive "ten_0000"
           (Some TenantFixture.update_request) TenantFixture.tenant_world
           TenantFixture.update_run.1 TenantFixture.update_run.2 Scenario.client
           (last_sent TenantFixture.update_run.2) Hc
           (surjective_pairing TenantFixture.update_run) Hiss).
Defined.

Lemma List_request_and_result_witness :
  clients TenantFixture.tenants_world !! 1%positive = Some Scenario.client ∧
  issued TenantFixture.tenants_world TenantFixture.list_run.2
    (last_sent TenantFixture.list_run.2) ∧
  (http.RespStatusCode TenantFixture.tenants_response < 400)%Z ∧
  http.wBody (last_sent TenantFixture.list_run.2) = None ∧
  TenantFixture.list_run.1 = Done ([Some TenantFixture.tenant], 1%Z).
Proof.
  assert (Hc : clients TenantFixture.tenants_world !! 1%positive = Some Scenario.client)
    by evaluate.
  assert (Hhc : httpClient Scenario.client ≫= (http_clients TenantFixture.tenants_world !!.)
                = Some TenantFixture.tenants_server) by reflexivity.
  assert (Hiss : issued TenantFixture.tenants_world TenantFixture.list_run.2
                   (last_sent TenantFixture.list_run.2)) by evaluate.
  assert (Ht : http.Transport TenantFixture.tenants_server
                 (last_sent TenantFixture.list_run.2)
               = ok TenantFixture.tenants_response) by reflexivity.
  assert (Hrb : http.RespBody TenantFixture.tenants_response =
                mkReader (bytes_of_string TenantFixture.tenants_body) None) by reflexivity.
  assert (Hdump : debug Scenario.client = true →
                  ∃ dump, dump_response TenantFixture.tenants_response
                            (bytes_of_string TenantFixture.tenants_body) = ok dump)
    by discriminate.
  assert (Hcode : (http.RespStatusCode TenantFixture.tenants_response < 400)%Z)
    by (cbn; lia).
  assert (Hj : json_Unmarshal_Tenants (bytes_of_string TenantFixture.tenants_body) =
               ok (SuccessPagingResponse.mk true [Some TenantFixture.tenant] 1)) by evaluate.
  destruct (List_request_and_result (mkService 1%positive) ctxLive
              TenantFixture.tenants_world TenantFixture.list_run.1 TenantFixture.list_run.2
              Scenario.client TenantFixture.tenants_server
              (last_sent TenantFixture.list_run.2) TenantFixture.tenants_response
              (bytes_of_string TenantFixture.tenants_body)
              Hc Hhc (surjective_pairing TenantFixture.list_run) Hiss Ht Hrb Hdump)
    as [(u & _ & _ & _ & _ & Hbody) Hres].
  split; [exact Hc|]. split; [exact Hiss|]. split; [exact Hcode|]. split; [exact Hbody|].
  specialize (Hres Hcode). rewrite Hj in Hres. exact Hres.
Defined.

End TenantRuns.
